(** * Task_list: the tool-mediated task store

    A shallow embedding of [mcp_demo_simple.py] (the simulated provider and
    [SimpleTaskManager]) and of [mcp_task_manager.py] ([TaskManager], whose
    provider is an external session), together with the part of CPython's
    [json] module the two programs call: [json.dumps(tasks, indent=2)] and
    [json.loads(content)].

    Python values are modelled as they are at run time: a [str] is a
    sequence of code points, a [dict] keeps its insertion order, an
    exception is an outcome of its own that propagates until a
    [try]/[except] catches it.

    The interpreter's resource limits are not part of the model: an [int]
    is converted to and from text whatever its size (CPython refuses more
    than [sys.int_info.default_max_str_digits] = 4300 digits with a
    [ValueError]), [json.loads] and [json.dumps] nest as deep as the data
    (CPython raises [RecursionError] near [sys.getrecursionlimit()] =
    1000), and [print] accepts every line (a console raises
    [UnicodeEncodeError] for what its encoding lacks).  [int_within_limit],
    [text_within_limits] and [value_within_limits] below delimit the data
    on which the model of [json] is CPython's; the statements that depend
    on it carry them as hypotheses. *)

From Stdlib Require Import List ZArith NArith Lia Bool String Ascii.
From Stdlib Require Import Decimal DecimalFacts DecimalPos DecimalN DecimalZ.
Import ListNotations.

Set Implicit Arguments.

(* ================================================================== *)
(** * Python text and dictionaries *)
(* ================================================================== *)

(** A Python [str]: a sequence of code points. *)
Definition pystr := list N.

(** A [str] literal of the program, written as a Rocq string (ASCII only). *)
Definition py (s : string) : pystr := map N_of_ascii (list_ascii_of_string s).

Open Scope N_scope.

(** Code points of a [str] object lie in [range(0x110000)]. *)
Definition valid_str (s : pystr) : Prop := Forall (fun c => c < 0x110000) s.

Definition is_high_surrogate (c : N) : bool := (0xd800 <=? c) && (c <=? 0xdbff).
Definition is_low_surrogate (c : N) : bool := (0xdc00 <=? c) && (c <=? 0xdfff).

Fixpoint str_eqb (a b : pystr) : bool :=
  match a, b with
  | [], [] => true
  | x :: a', y :: b' => (x =? y) && str_eqb a' b'
  | _, _ => false
  end.

(** A Python [dict] with [str] keys: insertion-ordered, one entry per key. *)
Definition dict (V : Type) := list (pystr * V).

(** [d.get(k)] / [k in d] / [d[k]] *)
Fixpoint dict_get {V} (k : pystr) (d : dict V) : option V :=
  match d with
  | [] => None
  | (k', v) :: d' => if str_eqb k k' then Some v else dict_get k d'
  end.

(** [d[k] = v]: an existing key keeps its position, a new one goes last. *)
Fixpoint dict_set {V} (k : pystr) (v : V) (d : dict V) : dict V :=
  match d with
  | [] => [(k, v)]
  | (k', v') :: d' =>
      if str_eqb k k' then (k', v) :: d' else (k', v') :: dict_set k v d'
  end.

(** [list(d.keys())] *)
Definition dict_keys {V} (d : dict V) : list pystr := map fst d.

(** [dict(pairs)] *)
Definition dict_of_pairs {V} (pairs : list (pystr * V)) : dict V :=
  fold_left (fun d kv => dict_set (fst kv) (snd kv) d) pairs [].

(* ================================================================== *)
(** * Values, exceptions *)
(* ================================================================== *)

(** The Python objects the programs handle: what [json.loads] can return
    and what [json.dumps] is given.  A [float] only ever comes out of
    [json.loads]; it is kept as the literal it was read from. *)
Unset Elimination Schemes.
Inductive value : Type :=
| VNone
| VBool (b : bool)
| VInt (z : Z)
| VFloat (lit : pystr)
| VStr (s : pystr)
| VList (items : list value)
| VDict (d : list (pystr * value)).
Set Elimination Schemes.

(** The three things the programs do with a [float]: print it
    ([float.__repr__], with [NaN]/[Infinity] as [json.dumps] spells them),
    compare it with an [int], and test its truth value.  Binary floating
    point is not modelled; every result below holds for any such functions. *)
Class FloatOps : Type := {
  float_repr : pystr -> pystr;
  float_eq_int : pystr -> Z -> bool;
  float_truthy : pystr -> bool
}.

Inductive exn : Type :=
| JSONDecodeError
| KeyError (key : pystr)
| TypeError
| AttributeError.

Inductive outcome (A : Type) : Type :=
| Return (a : A)
| Raise (e : exn).
Arguments Raise {A} e.

(* ================================================================== *)
(** * json.dumps(obj, indent=2) *)
(* ================================================================== *)

Module json_encoder.

(** One lower-case hexadecimal digit, as ['{0:04x}'.format] prints it. *)
Definition hex_digit (d : N) : N := if d <? 10 then 48 + d else 87 + d.

(** ['\\u{0:04x}'.format(n)] *)
Definition u_escape (n : N) : pystr :=
  [92; 117; hex_digit (n / 4096); hex_digit ((n / 256) mod 16);
   hex_digit ((n / 16) mod 16); hex_digit (n mod 16)].

(** [replace(match)] of [py_encode_basestring_ascii]: [ESCAPE_ASCII]
    matches a quote, a backslash and everything outside [' '..'~']. *)
Definition escape_char (c : N) : pystr :=
  if c =? 34 then [92; 34]
  else if c =? 92 then [92; 92]
  else if c =? 10 then [92; 110]
  else if c =? 13 then [92; 114]
  else if c =? 9 then [92; 116]
  else if c =? 8 then [92; 98]
  else if c =? 12 then [92; 102]
  else if (32 <=? c) && (c <=? 126) then [c]
  else if c <? 0x10000 then u_escape c
  else
    let n := c - 0x10000 in
    let s1 := N.lor 0xd800 (N.land (N.shiftr n 10) 0x3ff) in
    let s2 := N.lor 0xdc00 (N.land n 0x3ff) in
    u_escape s1 ++ u_escape s2.

Definition encode_basestring_ascii (s : pystr) : pystr :=
  34 :: flat_map escape_char s ++ [34].

Fixpoint digits_of_uint (u : uint) : pystr :=
  match u with
  | Nil => []
  | D0 u => 48 :: digits_of_uint u
  | D1 u => 49 :: digits_of_uint u
  | D2 u => 50 :: digits_of_uint u
  | D3 u => 51 :: digits_of_uint u
  | D4 u => 52 :: digits_of_uint u
  | D5 u => 53 :: digits_of_uint u
  | D6 u => 54 :: digits_of_uint u
  | D7 u => 55 :: digits_of_uint u
  | D8 u => 56 :: digits_of_uint u
  | D9 u => 57 :: digits_of_uint u
  end.

(** [int.__repr__], for an [int] of at most 4300 digits (beyond, CPython
    raises [ValueError]: see [int_within_limit]). *)
Definition int_repr (z : Z) : pystr :=
  match Z.to_int z with
  | Pos u => digits_of_uint u
  | Neg u => 45 :: digits_of_uint u
  end.

(** ['\n' + ' ' * (2 * level)] *)
Definition newline_indent (level : nat) : pystr :=
  10 :: repeat 32 (2 * level)%nat.

Section Dumps.
Context {F : FloatOps}.

(** [_iterencode] at nesting depth [level], with [indent=2]: the item
    separator is [','] and the key separator [': ']. *)
Fixpoint iterencode (level : nat) (o : value) : pystr :=
  match o with
  | VNone => py "null"
  | VBool true => py "true"
  | VBool false => py "false"
  | VInt z => int_repr z
  | VFloat lit => float_repr lit
  | VStr s => encode_basestring_ascii s
  | VList [] => py "[]"
  | VList (x :: xs) =>
      91 :: newline_indent (S level) ++ iterencode (S level) x
      ++ flat_map (fun y => 44 :: newline_indent (S level)
                            ++ iterencode (S level) y) xs
      ++ newline_indent level ++ [93]
  | VDict [] => py "{}"
  | VDict ((k, x) :: kvs) =>
      123 :: newline_indent (S level) ++ encode_basestring_ascii k
      ++ 58 :: 32 :: iterencode (S level) x
      ++ flat_map (fun kv => 44 :: newline_indent (S level)
                             ++ encode_basestring_ascii (fst kv)
                             ++ 58 :: 32 :: iterencode (S level) (snd kv)) kvs
      ++ newline_indent level ++ [125]
  end.

Definition dumps (obj : value) : pystr := iterencode 0 obj.
End Dumps.

End json_encoder.

(* ================================================================== *)
(** * json.loads(s) *)
(* ================================================================== *)

Module json_decoder.

(** [WHITESPACE = re.compile(r'[ \t\n\r]*')] *)
Definition is_ws (c : N) : bool :=
  (c =? 32) || (c =? 9) || (c =? 10) || (c =? 13).

Fixpoint skip_ws (s : pystr) : pystr :=
  match s with
  | c :: r => if is_ws c then skip_ws r else s
  | [] => []
  end.

Definition is_digit (c : N) : bool := (48 <=? c) && (c <=? 57).

Definition hex_value (c : N) : option N :=
  if (48 <=? c) && (c <=? 57) then Some (c - 48)
  else if (97 <=? c) && (c <=? 102) then Some (c - 87)
  else if (65 <=? c) && (c <=? 70) then Some (c - 55)
  else None.

(** [_decode_uXXXX]: exactly four hexadecimal digits. *)
Definition decode_uXXXX (h1 h2 h3 h4 : N) : option N :=
  match hex_value h1, hex_value h2, hex_value h3, hex_value h4 with
  | Some a, Some b, Some c, Some d => Some (a * 4096 + b * 256 + c * 16 + d)
  | _, _, _, _ => None
  end.

(** The [BACKSLASH] table of one-letter escapes. *)
Definition BACKSLASH (esc : N) : option N :=
  if esc =? 34 then Some 34
  else if esc =? 92 then Some 92
  else if esc =? 47 then Some 47
  else if esc =? 98 then Some 8
  else if esc =? 102 then Some 12
  else if esc =? 110 then Some 10
  else if esc =? 114 then Some 13
  else if esc =? 116 then Some 9
  else None.

Definition push (c : N) (r : option (pystr * pystr)) : option (pystr * pystr) :=
  match r with
  | Some (str, rest) => Some (c :: str, rest)
  | None => None
  end.

(** [scanstring(s, end, strict=True)], entered after the opening quote:
    the decoded text and what follows the closing quote, or [None] for a
    [JSONDecodeError] (unterminated string, control character, bad escape).
    A [\uXXXX] high surrogate directly followed by a [\uXXXX] low surrogate
    is one code point. *)
Fixpoint scanstring (s : pystr) : option (pystr * pystr) :=
  match s with
  | [] => None
  | c :: r =>
      if c =? 34 then Some ([], r)
      else if c <? 32 then None
      else if c =? 92 then
        match r with
        | [] => None
        | esc :: r1 =>
            if esc =? 117 then
              match r1 with
              | h1 :: h2 :: h3 :: h4 :: r2 =>
                  match decode_uXXXX h1 h2 h3 h4 with
                  | None => None
                  | Some uni =>
                      if is_high_surrogate uni then
                        match r2 with
                        | b :: u :: g1 :: g2 :: g3 :: g4 :: r3 =>
                            if (b =? 92) && (u =? 117) then
                              match decode_uXXXX g1 g2 g3 g4 with
                              | None => None
                              | Some uni2 =>
                                  if is_low_surrogate uni2 then
                                    push (0x10000 + N.lor (N.shiftl (uni - 0xd800) 10)
                                                          (uni2 - 0xdc00))
                                         (scanstring r3)
                                  else push uni (scanstring r2)
                              end
                            else push uni (scanstring r2)
                        | _ => push uni (scanstring r2)
                        end
                      else push uni (scanstring r2)
                  end
              | _ => None
              end
            else
              match BACKSLASH esc with
              | None => None
              | Some char => push char (scanstring r1)
              end
        end
      else push c (scanstring r)
  end.

Fixpoint span_digits (s : pystr) : pystr * pystr :=
  match s with
  | c :: r =>
      if is_digit c then let (ds, rest) := span_digits r in (c :: ds, rest)
      else ([], s)
  | [] => ([], [])
  end.

(** The three groups of [NUMBER_RE]: an integer part (optional minus, then
    a single zero or a non-zero digit and more digits), an optional fraction
    (a dot and at least one digit), an optional exponent. *)
Definition match_integer (s : pystr) : option (pystr * pystr) :=
  let (sign, s1) :=
    match s with
    | c :: r => if c =? 45 then ([45], r) else ([], s)
    | [] => ([], s)
    end in
  match s1 with
  | c :: r =>
      if c =? 48 then Some (sign ++ [48], r)
      else if is_digit c then
        let (ds, rest) := span_digits r in Some (sign ++ c :: ds, rest)
      else None
  | [] => None
  end.

Definition match_frac (s : pystr) : pystr * pystr :=
  match s with
  | dot :: r =>
      if dot =? 46 then
        match span_digits r with
        | ([], _) => ([], s)
        | (ds, rest) => (46 :: ds, rest)
        end
      else ([], s)
  | [] => ([], s)
  end.

Definition match_exp (s : pystr) : pystr * pystr :=
  match s with
  | e :: r =>
      if (e =? 101) || (e =? 69) then
        let (sign, r1) :=
          match r with
          | c :: r' => if (c =? 43) || (c =? 45) then ([c], r') else ([], r)
          | [] => ([], r)
          end in
        match span_digits r1 with
        | ([], _) => ([], s)
        | (ds, rest) => (e :: sign ++ ds, rest)
        end
      else ([], s)
  | [] => ([], s)
  end.

Definition digit_uint (c : N) (u : uint) : uint :=
  if c =? 48 then D0 u else if c =? 49 then D1 u
  else if c =? 50 then D2 u else if c =? 51 then D3 u
  else if c =? 52 then D4 u else if c =? 53 then D5 u
  else if c =? 54 then D6 u else if c =? 55 then D7 u
  else if c =? 56 then D8 u else D9 u.

Fixpoint uint_of_digits (ds : pystr) : uint :=
  match ds with
  | [] => Nil
  | c :: r => digit_uint c (uint_of_digits r)
  end.

(** [int(integer)] on the text of the first group, of at most 4300 digits
    (beyond, CPython raises [ValueError]: see [text_within_limits]). *)
Definition parse_int (integer : pystr) : Z :=
  match integer with
  | c :: r =>
      if c =? 45 then Z.of_int (Neg (uint_of_digits r))
      else Z.of_int (Pos (uint_of_digits integer))
  | [] => 0%Z
  end.

(** [s[idx:idx+len(p)] == p], with what follows. *)
Fixpoint strip_prefix (p s : pystr) : option pystr :=
  match p, s with
  | [], _ => Some s
  | a :: p', b :: s' => if a =? b then strip_prefix p' s' else None
  | _ :: _, [] => None
  end.

(** Result of a scanner call: a value and the rest of the text, a
    [JSONDecodeError], or the recursion budget [fuel] exhausted. *)
Inductive parse (A : Type) : Type :=
| Parsed (a : A) (rest : pystr)
| Invalid
| Starved.
Arguments Invalid {A}.
Arguments Starved {A}.

Definition parse_map {A B} (f : A -> B) (p : parse A) : parse B :=
  match p with
  | Parsed a rest => Parsed (f a) rest
  | Invalid => Invalid
  | Starved => Starved
  end.

(** [match_number] and the numeric constants at the end of [_scan_once]. *)
Definition scan_number (s : pystr) : parse value :=
  match match_integer s with
  | Some (integer, r) =>
      let (frac, r1) := match_frac r in
      let (exp, r2) := match_exp r1 in
      match frac, exp with
      | [], [] => Parsed (VInt (parse_int integer)) r2
      | _, _ => Parsed (VFloat (integer ++ frac ++ exp)) r2
      end
  | None =>
      match strip_prefix (py "NaN") s with
      | Some r => Parsed (VFloat (py "NaN")) r
      | None =>
      match strip_prefix (py "Infinity") s with
      | Some r => Parsed (VFloat (py "Infinity")) r
      | None =>
      match strip_prefix (py "-Infinity") s with
      | Some r => Parsed (VFloat (py "-Infinity")) r
      | None => Invalid
      end end end
  end.

(** [_scan_once], [JSONArray] and [JSONObject], recursive descent. *)
Fixpoint scan_once (fuel : nat) (s : pystr) : parse value :=
  match fuel with
  | O => Starved
  | S fuel' =>
      match s with
      | [] => Invalid
      | c :: r =>
          if c =? 34 then
            match scanstring r with
            | Some (str, rest) => Parsed (VStr str) rest
            | None => Invalid
            end
          else if c =? 123 then
            match skip_ws r with
            | q :: r1 =>
                if q =? 125 then Parsed (VDict []) r1
                else if q =? 34 then
                  parse_map (fun pairs => VDict (dict_of_pairs pairs))
                            (JSONObject_loop fuel' r1)
                else Invalid
            | [] => Invalid
            end
          else if c =? 91 then
            match skip_ws r with
            | q :: r1 =>
                if q =? 93 then Parsed (VList []) r1
                else parse_map VList (JSONArray_loop fuel' (q :: r1))
            | [] => Invalid
            end
          else
            match strip_prefix (py "null") s with
            | Some rest => Parsed VNone rest
            | None =>
            match strip_prefix (py "true") s with
            | Some rest => Parsed (VBool true) rest
            | None =>
            match strip_prefix (py "false") s with
            | Some rest => Parsed (VBool false) rest
            | None => scan_number s
            end end end
      end
  end

(** The [while True] loop of [JSONArray]: a value, then [']'] or [','] . *)
with JSONArray_loop (fuel : nat) (s : pystr) : parse (list value) :=
  match fuel with
  | O => Starved
  | S fuel' =>
      match scan_once fuel' s with
      | Parsed v r =>
          match skip_ws r with
          | c :: r1 =>
              if c =? 93 then Parsed [v] r1
              else if c =? 44 then
                parse_map (cons v) (JSONArray_loop fuel' (skip_ws r1))
              else Invalid
          | [] => Invalid
          end
      | Invalid => Invalid
      | Starved => Starved
      end
  end

(** The [while True] loop of [JSONObject], entered after the opening quote
    of a key: key, [':'], value, then ['}'] or [','] and the next key. *)
with JSONObject_loop (fuel : nat) (s : pystr) : parse (list (pystr * value)) :=
  match fuel with
  | O => Starved
  | S fuel' =>
      match scanstring s with
      | None => Invalid
      | Some (key, r) =>
          match skip_ws r with
          | c :: r1 =>
              if c =? 58 then
                match scan_once fuel' (skip_ws r1) with
                | Parsed v r2 =>
                    match skip_ws r2 with
                    | c2 :: r3 =>
                        if c2 =? 125 then Parsed [(key, v)] r3
                        else if c2 =? 44 then
                          match skip_ws r3 with
                          | q :: r4 =>
                              if q =? 34 then
                                parse_map (cons (key, v)) (JSONObject_loop fuel' r4)
                              else Invalid
                          | [] => Invalid
                          end
                        else Invalid
                    | [] => Invalid
                    end
                | Invalid => Invalid
                | Starved => Starved
                end
              else Invalid
          | [] => Invalid
          end
      end
  end.

(** [JSONDecoder.decode]: leading whitespace, one value, trailing
    whitespace, end of text.  The budget suffices for every text
    ([scan_once_fuel] below), so [Starved] does not occur here.  This is
    [json.loads] for a text within the interpreter's limits
    ([text_within_limits]); beyond them CPython raises [ValueError] or
    [RecursionError]. *)
Definition loads (s : pystr) : outcome value :=
  match scan_once (2 * List.length s + 2) (skip_ws s) with
  | Parsed v rest =>
      match skip_ws rest with
      | [] => Return v
      | _ :: _ => Raise JSONDecodeError
      end
  | Invalid | Starved => Raise JSONDecodeError
  end.

End json_decoder.

(* ================================================================== *)
(** * The Python operations the programs use *)
(* ================================================================== *)

Module Py.

Definition len (o : value) : outcome Z :=
  match o with
  | VList items => Return (Z.of_nat (List.length items))
  | VDict d => Return (Z.of_nat (List.length d))
  | VStr s => Return (Z.of_nat (List.length s))
  | _ => Raise TypeError
  end.

(** [o.append(x)]: only a [list] has the method. *)
Definition append (o x : value) : outcome value :=
  match o with
  | VList items => Return (VList (items ++ [x]))
  | _ => Raise AttributeError
  end.

(** The items a [for] loop or a comprehension visits. *)
Definition iter (o : value) : outcome (list value) :=
  match o with
  | VList items => Return items
  | VDict d => Return (map VStr (dict_keys d))
  | VStr s => Return (map (fun c => VStr [c]) s)
  | _ => Raise TypeError
  end.

(** [o[key]] with a [str] key. *)
Definition getitem (o : value) (key : pystr) : outcome value :=
  match o with
  | VDict d =>
      match dict_get key d with
      | Some v => Return v
      | None => Raise (KeyError key)
      end
  | _ => Raise TypeError
  end.

(** [o[key] = v] with a [str] key: the object after the assignment. *)
Definition setitem (o : value) (key : pystr) (v : value) : outcome value :=
  match o with
  | VDict d => Return (VDict (dict_set key v d))
  | _ => Raise TypeError
  end.

(** [hash(o)] succeeds. *)
Definition hashable (o : value) : bool :=
  match o with
  | VList _ | VDict _ => false
  | _ => true
  end.

Section Floats.
Context {F : FloatOps}.

(** [o == n] for an [int] [n]. *)
Definition eq_int (o : value) (n : Z) : bool :=
  match o with
  | VInt z => (z =? n)%Z
  | VBool b => ((if b then 1 else 0) =? n)%Z
  | VFloat lit => float_eq_int lit n
  | _ => false
  end.

(** [bool(o)] *)
Definition truthy (o : value) : bool :=
  match o with
  | VNone => false
  | VBool b => b
  | VInt z => negb (z =? 0)%Z
  | VFloat lit => float_truthy lit
  | VStr s => match s with [] => false | _ => true end
  | VList items => match items with [] => false | _ => true end
  | VDict d => match d with [] => false | _ => true end
  end.
End Floats.

(** A list whose items were mutated in place while it was iterated: the
    same object with the new items.  Other iterables hand out immutable
    items and stay as they are. *)
Definition with_items (o : value) (items : list value) : value :=
  match o with
  | VList _ => VList items
  | _ => o
  end.

End Py.

(* ================================================================== *)
(** * State and exceptions *)
(* ================================================================== *)

(** A computation on a state [St] that returns or raises; the state
    reached is kept in both cases. *)
Definition M (St A : Type) : Type := St -> outcome A * St.

Definition ret {St A} (a : A) : M St A := fun st => (Return a, st).

Definition lift {St A} (o : outcome A) : M St A := fun st => (o, st).

Definition bind {St A B} (m : M St A) (k : A -> M St B) : M St B :=
  fun st =>
    match m st with
    | (Return a, st') => k a st'
    | (Raise e, st') => (Raise e, st')
    end.

Definition get {St} : M St St := fun st => (Return st, st).

Definition modify {St} (f : St -> St) : M St unit := fun st => (Return tt, f st).

(** [try: body / except Exception: handler] *)
Definition try_except {St A} (body handler : M St A) : M St A :=
  fun st =>
    match body st with
    | (Return a, st') => (Return a, st')
    | (Raise _, st') => handler st'
    end.

Declare Scope py_scope.
Delimit Scope py_scope with py.
Notation "x <- m ;; k" := (bind m (fun x => k))
  (at level 61, m at next level, right associativity) : py_scope.
Notation "m ;; k" := (bind m (fun _ => k))
  (at level 61, right associativity) : py_scope.
Open Scope py_scope.

(** What the programs print, one constructor per [print] call; a task line
    keeps the four interpolated parts apart. *)
Inductive checkbox : Type := Checked | Unchecked.
Inductive emoji : Type := Red | Yellow | Green | White.

Inductive output : Type :=
| Initialized
| TaskAdded (description priority : pystr)
| NoTasks
| Rule
| Heading
| TaskLine (status : checkbox) (id : value) (priority_emoji : emoji)
           (description : value)
| TaskCompleted (task_id : Z)
| TaskNotFound (task_id : Z)
| TaskDeleted (task_id : Z)
| NotConnected.

(** A tool call as the provider receives it. *)
Definition call : Type := pystr * dict pystr.

(* ================================================================== *)
(** * mcp_demo_simple.py: SimulatedMCPServer *)
(* ================================================================== *)

Module SimulatedMCPServer.

(** [self.filesystem] and [self.tools].  Paths, contents and tool
    arguments are [str]s, as every caller passes them. *)
Record t : Type := { filesystem : dict pystr; tools : dict pystr }.

(** [__init__] *)
Definition init : t :=
  {| filesystem := [];
     tools := [(py "read_file", py "Read contents of a file");
               (py "write_file", py "Write contents to a file");
               (py "list_directory", py "List files in a directory")] |}.

(** [list_tools] *)
Definition list_tools (self : t) : dict pystr := tools self.

(** [arguments[key]] *)
Definition subscript {St} (arguments : dict pystr) (key : pystr) : M St pystr :=
  match dict_get key arguments with
  | Some v => ret v
  | None => lift (Raise (KeyError key))
  end.

(** [call_tool]: the result [dict], or the [KeyError] of a missing
    argument. *)
Definition call_tool (tool_name : pystr) (arguments : dict pystr)
  : M t (dict value) :=
  if str_eqb tool_name (py "read_file") then
    path <- subscript arguments (py "path") ;;
    self <- get ;;
    match dict_get path (filesystem self) with
    | Some content => ret [(py "content", VStr content)]
    | None => ret [(py "content", VStr (py "[]"))]
    end
  else if str_eqb tool_name (py "write_file") then
    path <- subscript arguments (py "path") ;;
    content <- subscript arguments (py "content") ;;
    modify (fun self => {| filesystem := dict_set path content (filesystem self);
                           tools := tools self |}) ;;
    ret [(py "success", VBool true)]
  else if str_eqb tool_name (py "list_directory") then
    self <- get ;;
    ret [(py "files", VList (map VStr (dict_keys (filesystem self))))]
  else
    ret [(py "error", VStr (py "Unknown tool: " ++ tool_name))].

End SimulatedMCPServer.

(* ================================================================== *)
(** * The loops shared by the two task managers *)
(* ================================================================== *)

Section Loops.
Context {F : FloatOps} {St : Type}.

(** The body of [complete_task] after the read:
<<
    for task in tasks:
        if task["id"] == task_id:
            task["completed"] = True
            _write_tasks(tasks)
            print(completed); return
    print(not found)
>>
    [before] are the items already visited, [after] those still to
    visit; the assignment mutates the item inside [tasks]. *)
Fixpoint complete_scan (_write_tasks : value -> M St unit)
    (print_completed print_not_found : M St unit)
    (tasks : value) (task_id : Z) (before after : list value) : M St unit :=
  match after with
  | [] => print_not_found
  | task :: rest =>
      id <- lift (Py.getitem task (py "id")) ;;
      if Py.eq_int id task_id then
        task' <- lift (Py.setitem task (py "completed") (VBool true)) ;;
        _write_tasks (Py.with_items tasks (before ++ task' :: rest)) ;;
        print_completed
      else
        complete_scan _write_tasks print_completed print_not_found
                      tasks task_id (before ++ [task]) rest
  end.

(** [[t for t in tasks if t["id"] != task_id]] over the items of [tasks] *)
Fixpoint comprehension (task_id : Z) (items : list value)
  : outcome (list value) :=
  match items with
  | [] => Return []
  | t :: rest =>
      match Py.getitem t (py "id") with
      | Raise e => Raise e
      | Return id =>
          match comprehension task_id rest with
          | Raise e => Raise e
          | Return kept =>
              Return (if negb (Py.eq_int id task_id) then t :: kept else kept)
          end
      end
  end.

(** [{"high": ..., "medium": ..., "low": ...}.get(priority, white)] *)
Definition priority_emoji (priority : value) : outcome emoji :=
  if negb (Py.hashable priority) then Raise TypeError
  else
    match priority with
    | VStr s =>
        if str_eqb s (py "high") then Return Red
        else if str_eqb s (py "medium") then Return Yellow
        else if str_eqb s (py "low") then Return Green
        else Return White
    | _ => Return White
    end.

(** The [for task in tasks] loop of [list_tasks], one line per task. *)
Fixpoint list_lines (print : output -> M St unit) (items : list value)
  : M St unit :=
  match items with
  | [] => ret tt
  | task :: rest =>
      completed <- lift (Py.getitem task (py "completed")) ;;
      let status := if Py.truthy completed then Checked else Unchecked in
      priority <- lift (Py.getitem task (py "priority")) ;;
      priority_emoji <- lift (priority_emoji priority) ;;
      id <- lift (Py.getitem task (py "id")) ;;
      description <- lift (Py.getitem task (py "description")) ;;
      print (TaskLine status id priority_emoji description) ;;
      list_lines print rest
  end.
End Loops.

(* ================================================================== *)
(** * mcp_demo_simple.py: SimpleTaskManager *)
(* ================================================================== *)

Module SimpleTaskManager.

(** The manager with its server, the console, and (ghost) the tool calls
    the server has received, oldest first. *)
Record state : Type := {
  mcp_server : SimulatedMCPServer.t;
  stdout : list output;
  tool_calls : list call
}.

(** [self.tasks_file] *)
Definition tasks_file : pystr := py "tasks.json".

(** [__init__]: a fresh server, and the line it prints. *)
Definition init : state :=
  {| mcp_server := SimulatedMCPServer.init;
     stdout := [Initialized];
     tool_calls := [] |}.

(** [print(line)], on a console whose encoding has every code point of
    the line. *)
Definition print (o : output) : M state unit :=
  modify (fun st => {| mcp_server := mcp_server st;
                       stdout := stdout st ++ [o];
                       tool_calls := tool_calls st |}).

(** [self.mcp_server.call_tool(tool_name, arguments)] *)
Definition mcp_server_call_tool (tool_name : pystr) (arguments : dict pystr)
  : M state (dict value) :=
  fun st =>
    let (result, server) :=
      SimulatedMCPServer.call_tool tool_name arguments (mcp_server st) in
    (result, {| mcp_server := server;
                stdout := stdout st;
                tool_calls := tool_calls st ++ [(tool_name, arguments)] |}).

(** [json.loads(content)]: [content] has to be a [str]. *)
Definition json_loads (content : value) : outcome value :=
  match content with
  | VStr s => json_decoder.loads s
  | _ => Raise TypeError
  end.

Section Operations.
Context {F : FloatOps}.

Definition _read_tasks : M state value :=
  result <- mcp_server_call_tool (py "read_file") [(py "path", tasks_file)] ;;
  let content :=
    match dict_get (py "content") result with
    | Some c => c
    | None => VStr (py "[]")
    end in
  lift (json_loads content).

Definition _write_tasks (tasks : value) : M state unit :=
  mcp_server_call_tool (py "write_file")
    [(py "path", tasks_file); (py "content", json_encoder.dumps tasks)] ;;
  ret tt.

Definition add_task (description priority : pystr) : M state unit :=
  tasks <- _read_tasks ;;
  n <- lift (Py.len tasks) ;;
  let new_task :=
    VDict [(py "id", VInt (n + 1));
           (py "description", VStr description);
           (py "priority", VStr priority);
           (py "completed", VBool false)] in
  tasks <- lift (Py.append tasks new_task) ;;
  _write_tasks tasks ;;
  print (TaskAdded description priority).

Definition list_tasks : M state unit :=
  tasks <- _read_tasks ;;
  if negb (Py.truthy tasks) then print NoTasks
  else
    print Rule ;; print Heading ;; print Rule ;;
    items <- lift (Py.iter tasks) ;;
    list_lines print items ;;
    print Rule.

Definition complete_task (task_id : Z) : M state unit :=
  tasks <- _read_tasks ;;
  items <- lift (Py.iter tasks) ;;
  complete_scan _write_tasks (print (TaskCompleted task_id))
                (print (TaskNotFound task_id)) tasks task_id [] items.

Definition delete_task (task_id : Z) : M state unit :=
  tasks <- _read_tasks ;;
  items <- lift (Py.iter tasks) ;;
  kept <- lift (comprehension task_id items) ;;
  _write_tasks (VList kept) ;;
  print (TaskDeleted task_id).
End Operations.

End SimpleTaskManager.

(* ================================================================== *)
(** * mcp_task_manager.py: TaskManager *)
(* ================================================================== *)

Module TaskManager.

(** An item of [CallToolResult.content]; only a text item has [.text]. *)
Inductive content_item : Type :=
| TextContent (text : pystr)
| OtherContent.

Record CallToolResult : Type := { content : list content_item }.

(** [item.text] *)
Definition text_of (item : content_item) : outcome pystr :=
  match item with
  | TextContent text => Return text
  | OtherContent => Raise AttributeError
  end.

(** [f"/tmp/{self.tasks_file}"] *)
Definition tasks_path : pystr := py "/tmp/tasks.json".

Section Session.
Context {F : FloatOps}.

(** The external MCP server behind [ClientSession]: its state and what a
    [call_tool] does to it are not part of this repository. *)
Variable server : Type.
Variable session_call_tool : pystr -> dict pystr -> M server CallToolResult.

(** [self.session] ([None] before [connect_to_server]), the console and
    (ghost) the tool calls issued. *)
Record state : Type := {
  session : option server;
  stdout : list output;
  tool_calls : list call
}.

(** [print(line)], on a console whose encoding has every code point of
    the line. *)
Definition print (o : output) : M state unit :=
  modify (fun st => {| session := session st;
                       stdout := stdout st ++ [o];
                       tool_calls := tool_calls st |}).

(** [await self.session.call_tool(tool_name, arguments=arguments)] *)
Definition call_tool (tool_name : pystr) (arguments : dict pystr)
  : M state CallToolResult :=
  fun st =>
    match session st with
    | None => (Raise AttributeError, st)
    | Some srv =>
        let (result, srv') := session_call_tool tool_name arguments srv in
        (result, {| session := Some srv';
                    stdout := stdout st;
                    tool_calls := tool_calls st ++ [(tool_name, arguments)] |})
    end.

Definition _read_tasks : M state value :=
  try_except
    (result <- call_tool (py "read_file") [(py "path", tasks_path)] ;;
     content <- lift (match content result with
                      | item :: _ => text_of item
                      | [] => Return (py "[]")
                      end) ;;
     lift (json_decoder.loads content))
    (ret (VList [])).

Definition _write_tasks (tasks : value) : M state unit :=
  call_tool (py "write_file")
    [(py "path", tasks_path); (py "content", json_encoder.dumps tasks)] ;;
  ret tt.

(** [if not self.session: print(not connected); return] *)
Definition connected (body : M state unit) : M state unit :=
  st <- get ;;
  match session st with
  | None => print NotConnected
  | Some _ => body
  end.

Definition add_task (task_description priority : pystr) : M state unit :=
  connected (
    tasks <- _read_tasks ;;
    n <- lift (Py.len tasks) ;;
    let new_task :=
      VDict [(py "id", VInt (n + 1));
             (py "description", VStr task_description);
             (py "priority", VStr priority);
             (py "completed", VBool false)] in
    tasks <- lift (Py.append tasks new_task) ;;
    _write_tasks tasks ;;
    print (TaskAdded task_description priority)).

Definition list_tasks : M state unit :=
  connected (
    tasks <- _read_tasks ;;
    if negb (Py.truthy tasks) then print NoTasks
    else
      print Heading ;; print Rule ;;
      items <- lift (Py.iter tasks) ;;
      list_lines print items ;;
      print Rule).

Definition complete_task (task_id : Z) : M state unit :=
  connected (
    tasks <- _read_tasks ;;
    items <- lift (Py.iter tasks) ;;
    complete_scan _write_tasks (print (TaskCompleted task_id))
                  (print (TaskNotFound task_id)) tasks task_id [] items).
End Session.

End TaskManager.

(* ================================================================== *)
(** * The data model: tasks and collections *)
(* ================================================================== *)

Module Task.
Record t : Type := {
  id : Z;
  description : pystr;
  priority : pystr;
  completed : bool
}.
End Task.

(** A task as the programs hold it: the [dict] literal of [add_task],
    keys in that order. *)
Definition task_value (t : Task.t) : value :=
  VDict [(py "id", VInt (Task.id t));
         (py "description", VStr (Task.description t));
         (py "priority", VStr (Task.priority t));
         (py "completed", VBool (Task.completed t))].

Definition collection_value (C : list Task.t) : value :=
  VList (map task_value C).

Definition valid_task (t : Task.t) : Prop :=
  valid_str (Task.description t) /\ valid_str (Task.priority t).

(** What escaping and unescaping does to a text: a high surrogate
    directly followed by a low surrogate comes back as the one code point
    they encode; everything else comes back as it is. *)
Fixpoint join_surrogates (s : pystr) : pystr :=
  match s with
  | [] => []
  | c :: r =>
      match r with
      | l :: r' =>
          if is_high_surrogate c && is_low_surrogate l
          then (0x10000 + N.lor (N.shiftl (c - 0xd800) 10) (l - 0xdc00))
               :: join_surrogates r'
          else c :: join_surrogates r
      | [] => [c]
      end
  end.

(** No high surrogate is directly followed by a low surrogate. *)
Fixpoint surrogate_pair_free (s : pystr) : bool :=
  match s with
  | [] => true
  | c :: r =>
      match r with
      | l :: _ => negb (is_high_surrogate c && is_low_surrogate l)
      | [] => true
      end && surrogate_pair_free r
  end.

Definition pair_free_task (t : Task.t) : Prop :=
  surrogate_pair_free (Task.description t) = true /\
  surrogate_pair_free (Task.priority t) = true.

Definition reread_task (t : Task.t) : Task.t :=
  {| Task.id := Task.id t;
     Task.description := join_surrogates (Task.description t);
     Task.priority := join_surrogates (Task.priority t);
     Task.completed := Task.completed t |}.

(** The value [json.loads] returns for the text [json.dumps] wrote. *)
Fixpoint reread (v : value) : value :=
  match v with
  | VStr s => VStr (join_surrogates s)
  | VList items => VList (map reread items)
  | VDict d => VDict (map (fun kv => (fst kv, reread (snd kv))) d)
  | _ => v
  end.

(** Values on which the round trip is stated: no [float] inside, texts
    made of code points, keys distinct and left alone by [join_surrogates]. *)
Unset Elimination Schemes.
Inductive encodable : value -> Prop :=
| encodable_None : encodable VNone
| encodable_Bool b : encodable (VBool b)
| encodable_Int z : encodable (VInt z)
| encodable_Str s : valid_str s -> encodable (VStr s)
| encodable_List items : Forall encodable items -> encodable (VList items)
| encodable_Dict d :
    NoDup (map fst d) ->
    Forall (fun kv => valid_str (fst kv)
                      /\ surrogate_pair_free (fst kv) = true
                      /\ encodable (snd kv)) d ->
    encodable (VDict d).
Set Elimination Schemes.

(** [complete_task] on a collection: the first task with the id, if any,
    gets [completed = True]. *)
Fixpoint mark_completed (task_id : Z) (C : list Task.t) : list Task.t :=
  match C with
  | [] => []
  | t :: rest =>
      if (Task.id t =? task_id)%Z
      then {| Task.id := Task.id t;
              Task.description := Task.description t;
              Task.priority := Task.priority t;
              Task.completed := true |} :: rest
      else t :: mark_completed task_id rest
  end.

(** [t'] is [t] with, at most, [completed] raised from [False] to [True]. *)
Definition same_or_completed (t t' : Task.t) : Prop :=
  Task.id t' = Task.id t /\
  Task.description t' = Task.description t /\
  Task.priority t' = Task.priority t /\
  (Task.completed t = true -> Task.completed t' = true).

(** The operations a caller of [SimpleTaskManager] can issue. *)
Inductive command : Type :=
| Add (description priority : pystr)
| List
| Complete (task_id : Z)
| Delete (task_id : Z).

Definition valid_command (c : command) : Prop :=
  match c with
  | Add description priority => valid_str description /\ valid_str priority
  | _ => True
  end.

Section Run.
Context {F : FloatOps}.

Definition run (c : command) : M SimpleTaskManager.state unit :=
  match c with
  | Add description priority => SimpleTaskManager.add_task description priority
  | List => SimpleTaskManager.list_tasks
  | Complete task_id => SimpleTaskManager.complete_task task_id
  | Delete task_id => SimpleTaskManager.delete_task task_id
  end.

Fixpoint run_all (cs : list command) (st : SimpleTaskManager.state)
  : SimpleTaskManager.state :=
  match cs with
  | [] => st
  | c :: cs' => run_all cs' (snd (run c st))
  end.

(** The text stored at the tasks path, if any. *)
Definition stored (st : SimpleTaskManager.state) : option pystr :=
  dict_get SimpleTaskManager.tasks_file
           (SimulatedMCPServer.filesystem (SimpleTaskManager.mcp_server st)).

(** [_read_tasks] in [st] returns [v]. *)
Definition loads_to (st : SimpleTaskManager.state) (v : value) : Prop :=
  fst (SimpleTaskManager._read_tasks st) = Return v.

(** [st] after [write_file] of [content] at the tasks path, the console
    and the call log aside. *)
Definition wrote (content : pystr) (st : SimpleTaskManager.state)
  : SimulatedMCPServer.t :=
  {| SimulatedMCPServer.filesystem :=
       dict_set SimpleTaskManager.tasks_file content
         (SimulatedMCPServer.filesystem (SimpleTaskManager.mcp_server st));
     SimulatedMCPServer.tools :=
       SimulatedMCPServer.tools (SimpleTaskManager.mcp_server st) |}.
End Run.

(** The two tool calls of the task store. *)
Definition read_call : call :=
  (py "read_file", [(py "path", SimpleTaskManager.tasks_file)]).

Definition write_call (content : pystr) : call :=
  (py "write_file",
   [(py "path", SimpleTaskManager.tasks_file); (py "content", content)]).

(** Float operations for runs in which no [float] occurs; they are never
    called there. *)
Definition no_floats : FloatOps :=
  {| float_repr := fun lit => lit;
     float_eq_int := fun _ _ => false;
     float_truthy := fun _ => true |}.

(* ================================================================== *)
(** * Vocabulary of the codec proofs *)
(* ================================================================== *)

Import json_encoder json_decoder.

(** The code point a surrogate pair stands for. *)
Definition joined (hi lo : N) : N :=
  0x10000 + N.lor (N.shiftl (hi - 0xd800) 10) (lo - 0xdc00).

(** What [scanstring] does after a high surrogate escape. *)
Definition lookahead (n : N) (t : pystr) : option (pystr * pystr) :=
  match t with
  | b :: u :: g1 :: g2 :: g3 :: g4 :: r3 =>
      if (b =? 92) && (u =? 117) then
        match decode_uXXXX g1 g2 g3 g4 with
        | None => None
        | Some uni2 =>
            if is_low_surrogate uni2 then push (joined n uni2) (scanstring r3)
            else push n (scanstring t)
        end
      else push n (scanstring t)
  | _ => push n (scanstring t)
  end.

(** The four shapes of [escape_char c]: the character itself, a
    one-letter escape, one [\uXXXX] escape, a surrogate pair of escapes. *)
Inductive escaped (c : N) : pystr -> Prop :=
| esc_plain : 32 <= c -> c <= 126 -> c <> 34 -> c <> 92 -> escaped c [c]
| esc_short e : e <> 117 -> BACKSLASH e = Some c -> escaped c [92; e]
| esc_u : c < 0x10000 -> escaped c (u_escape c)
| esc_pair : 0x10000 <= c ->
             escaped c (u_escape (0xd800 + (c - 0x10000) / 1024)
                        ++ u_escape (0xdc00 + (c - 0x10000) mod 1024)).

(** What may follow a number: not something [NUMBER_RE] would take in. *)
Definition stops (rest : pystr) : Prop :=
  match rest with
  | [] => True
  | c :: _ => is_digit c = false /\ c <> 46 /\ c <> 101 /\ c <> 69
  end.

(** The characters an encoded value can start with. *)
Definition opens_value (c : N) : Prop :=
  c = 110 \/ c = 116 \/ c = 102 \/ c = 45 \/ is_digit c = true \/
  c = 34 \/ c = 91 \/ c = 123.

(** [reread] on a dictionary entry. *)
Definition reread_member (kv : pystr * value) : pystr * value :=
  (fst kv, reread (snd kv)).

(** The condition [encodable] puts on a dictionary entry. *)
Definition member_ok (kv : pystr * value) : Prop :=
  valid_str (fst kv) /\ surrogate_pair_free (fst kv) = true /\
  encodable (snd kv).

Section Texts.
Context {F : FloatOps}.

(** The text of the items of a list after the first, each behind its
    separator; likewise for the entries of a dictionary. *)
Definition items_text (level : nat) (xs : list value) : pystr :=
  flat_map (fun y => 44 :: newline_indent (S level)
                     ++ iterencode (S level) y) xs.

Definition members_text (level : nat) (kvs : list (pystr * value)) : pystr :=
  flat_map (fun kv => 44 :: newline_indent (S level)
                      ++ encode_basestring_ascii (fst kv)
                      ++ 58 :: 32 :: iterencode (S level) (snd kv)) kvs.

(** The scanner, given the text of [v] followed by [rest] and a budget it
    does not exhaust, returns [reread v] and [rest]. *)
Definition round_trips (v : value) : Prop :=
  encodable v ->
  forall level fuel rest, stops rest ->
    scan_once fuel (iterencode level v ++ rest) <> Starved ->
    scan_once fuel (iterencode level v ++ rest) = Parsed (reread v) rest.
End Texts.

(* ================================================================== *)
(** * Vocabulary of the program proofs *)
(* ================================================================== *)

(** The text [_read_tasks] parses: the stored one, or the provider's
    ["[]"] when nothing is stored. *)
Definition current_text (st : SimpleTaskManager.state) : pystr :=
  match stored st with
  | Some content => content
  | None => py "[]"
  end.

(** The state after the [read_file] call of [_read_tasks]. *)
Definition after_read (st : SimpleTaskManager.state) : SimpleTaskManager.state :=
  {| SimpleTaskManager.mcp_server := SimpleTaskManager.mcp_server st;
     SimpleTaskManager.stdout := SimpleTaskManager.stdout st;
     SimpleTaskManager.tool_calls :=
       SimpleTaskManager.tool_calls st ++ [read_call] |}.

(** The state after [_write_tasks] has written [content]. *)
Definition after_write (content : pystr) (st : SimpleTaskManager.state)
  : SimpleTaskManager.state :=
  {| SimpleTaskManager.mcp_server := wrote content st;
     SimpleTaskManager.stdout := SimpleTaskManager.stdout st;
     SimpleTaskManager.tool_calls :=
       SimpleTaskManager.tool_calls st ++ [write_call content] |}.

(** The state after [print(o)]. *)
Definition printed (o : output) (st : SimpleTaskManager.state)
  : SimpleTaskManager.state :=
  {| SimpleTaskManager.mcp_server := SimpleTaskManager.mcp_server st;
     SimpleTaskManager.stdout := SimpleTaskManager.stdout st ++ [o];
     SimpleTaskManager.tool_calls := SimpleTaskManager.tool_calls st |}.

(** The server after a sequence of tool calls, whatever they return. *)
Fixpoint serve (calls : list call) (srv : SimulatedMCPServer.t)
  : SimulatedMCPServer.t :=
  match calls with
  | [] => srv
  | (tool_name, arguments) :: calls' =>
      serve calls' (snd (SimulatedMCPServer.call_tool tool_name arguments srv))
  end.

(** The call is a [write_file] whose ["path"] argument is [path]. *)
Definition writes_to (path : pystr) (c : call) : bool :=
  str_eqb (fst c) (py "write_file") &&
  match dict_get (py "path") (snd c) with
  | Some p => str_eqb p path
  | None => false
  end.

(** The task [add_task] appends to a collection of [n] items. *)
Definition new_task (n : nat) (description priority : pystr) : Task.t :=
  {| Task.id := Z.of_nat n + 1;
     Task.description := description;
     Task.priority := priority;
     Task.completed := false |}.

(** Some task of the collection has the id. *)
Definition has_id (task_id : Z) (C : list Task.t) : bool :=
  existsb (fun t => (Task.id t =? task_id)%Z) C.

(** The tasks [delete_task] keeps. *)
Definition without_id (task_id : Z) (C : list Task.t) : list Task.t :=
  filter (fun t => negb (Task.id t =? task_id)%Z) C.

(** The colour [list_tasks] shows for a priority. *)
Definition emoji_of (priority : pystr) : emoji :=
  if str_eqb priority (py "high") then Red
  else if str_eqb priority (py "medium") then Yellow
  else if str_eqb priority (py "low") then Green
  else White.

(** The line [list_tasks] prints for a task. *)
Definition task_line (t : Task.t) : output :=
  TaskLine (if Task.completed t then Checked else Unchecked)
           (VInt (Task.id t)) (emoji_of (Task.priority t))
           (VStr (Task.description t)).

(** What [list_tasks] prints for a collection. *)
Definition listing (C : list Task.t) : list output :=
  match C with
  | [] => [NoTasks]
  | _ :: _ => [Rule; Heading; Rule] ++ map task_line C ++ [Rule]
  end.

(** Texts of code points, none of them a surrogate pair left unjoined. *)
Definition clean_task (t : Task.t) : Prop := valid_task t /\ pair_free_task t.

(** How one command takes the stored collection [C] to [C']. *)
Definition step_relation (c : command) (C C' : list Task.t) : Prop :=
  match c with
  | Add description priority =>
      C' = C ++ [reread_task (new_task (List.length C) description priority)]
  | List => C' = C
  | Complete task_id => C' = mark_completed task_id C
  | Delete task_id => C' = without_id task_id C
  end.

(** The [read_file] and [write_file] calls of [TaskManager]. *)
Definition session_read_call : call :=
  (py "read_file", [(py "path", TaskManager.tasks_path)]).

Definition session_write_call (content : pystr) : call :=
  (py "write_file",
   [(py "path", TaskManager.tasks_path); (py "content", content)]).

(** What [TaskManager._read_tasks] makes of the provider's answer. *)
Definition fail_open (answer : outcome TaskManager.CallToolResult) : value :=
  match answer with
  | Raise _ => VList []
  | Return result =>
      match TaskManager.content result with
      | [] => VList []
      | TaskManager.OtherContent :: _ => VList []
      | TaskManager.TextContent text :: _ =>
          match json_decoder.loads text with
          | Return v => v
          | Raise _ => VList []
          end
      end
  end.

(** ** Concrete stores and sessions *)

(** A fresh manager after a [write_file] of [content] at the tasks path,
    issued to its server directly. *)
Definition store_holding (content : pystr) : SimpleTaskManager.state :=
  snd (SimpleTaskManager.mcp_server_call_tool (py "write_file")
         [(py "path", SimpleTaskManager.tasks_file); (py "content", content)]
         SimpleTaskManager.init).

(** A session whose server answers every call with one text item. *)
Definition text_session (text : pystr)
  : pystr -> dict pystr -> M unit TaskManager.CallToolResult :=
  fun _ _ srv => (Return {| TaskManager.content := [TaskManager.TextContent text] |}, srv).

(** A connected [TaskManager] that has printed and called nothing yet. *)
Definition connected_manager : TaskManager.state unit :=
  {| TaskManager.session := Some tt;
     TaskManager.stdout := [];
     TaskManager.tool_calls := [] |}.

(** A task whose description is a high surrogate followed by a low one. *)
Definition surrogate_task : Task.t :=
  {| Task.id := 1;
     Task.description := [0xd83d; 0xde80];
     Task.priority := py "low";
     Task.completed := false |}.

Definition write_spec_task : Task.t :=
  {| Task.id := 1;
     Task.description := py "Write spec";
     Task.priority := py "high";
     Task.completed := false |}.

Definition review_task : Task.t :=
  {| Task.id := 2;
     Task.description := py "Review";
     Task.priority := py "low";
     Task.completed := false |}.

Definition x_task : Task.t :=
  {| Task.id := 2;
     Task.description := py "X";
     Task.priority := py "medium";
     Task.completed := false |}.

(** The tool names [call_tool] knows. *)
Definition known_tools : list pystr :=
  [py "read_file"; py "write_file"; py "list_directory"].

(* ================================================================== *)
(** * The interpreter's limits *)
(* ================================================================== *)

(** [sys.int_info.default_max_str_digits]: CPython converts an [int] to
    or from decimal text only up to this many digits. *)
Definition int_max_str_digits : nat := 4300.

(** The decimal digits of [abs(z)]. *)
Definition str_digits (z : Z) : nat :=
  List.length (digits_of_uint (N.to_uint (Z.abs_N z))).

Definition int_within_limit (z : Z) : bool :=
  (str_digits z <=? int_max_str_digits)%nat.

(** The nesting of lists and dicts the programs' calls of [json.loads]
    and [json.dumps] handle for certain: half of CPython's default
    [sys.getrecursionlimit()], each level taking one frame. *)
Definition max_nesting : nat := 500.

(** Every run of digits of the text has at most [limit] digits; [run] is
    the length of the run that ends here. *)
Fixpoint digit_runs_within (limit run : nat) (s : pystr) : bool :=
  match s with
  | [] => true
  | c :: r =>
      if is_digit c
      then (S run <=? limit)%nat && digit_runs_within limit (S run) r
      else digit_runs_within limit 0 r
  end.

(** The deepest nesting of brackets and braces the text reaches outside
    its string literals; a backslash inside a literal escapes the next
    character. *)
Fixpoint nesting (in_string escaped : bool) (depth deepest : nat) (s : pystr)
  : nat :=
  match s with
  | [] => deepest
  | c :: r =>
      if in_string then
        if escaped then nesting true false depth deepest r
        else if c =? 92 then nesting true true depth deepest r
        else if c =? 34 then nesting false false depth deepest r
        else nesting true false depth deepest r
      else if c =? 34 then nesting true false depth deepest r
      else if (c =? 91) || (c =? 123)
           then nesting false false (S depth) (Nat.max deepest (S depth)) r
      else if (c =? 93) || (c =? 125)
           then nesting false false (Nat.pred depth) deepest r
      else nesting false false depth deepest r
  end.

(** A text on which [json.loads] meets neither limit: no integer literal
    can have more than 4300 digits, no value can be nested deeper than
    [max_nesting]. *)
Definition text_within_limits (text : pystr) : bool :=
  digit_runs_within int_max_str_digits 0 text
  && (nesting false false 0 0 text <=? max_nesting)%nat.


(** ** A store written behind the manager's back *)

(** [s] between double quotes, as it is. *)
Definition quoted (s : pystr) : pystr := 34 :: s ++ [34].

(** The text of a one-task list whose description holds a high and a low
    surrogate as they are, not escaped: [json.loads] returns the two code
    points. *)
Definition raw_surrogate_text : pystr :=
  py "[{" ++ quoted (py "id") ++ py ": 1, "
  ++ quoted (py "description") ++ py ": " ++ quoted [0xd83d; 0xde80] ++ py ", "
  ++ quoted (py "priority") ++ py ": " ++ quoted (py "low") ++ py ", "
  ++ quoted (py "completed") ++ py ": false}]".

(** [surrogate_task] as it is read back once written: the pair joined. *)
Definition rocket_task : Task.t :=
  {| Task.id := 1;
     Task.description := [0x1f680];
     Task.priority := py "low";
     Task.completed := false |}.

(** ** The operations on the stored collection *)

(** What a command makes of the stored collection [D]: the operation on
    the list and, when the command writes, the texts as [json.loads]
    returns them from what [json.dumps] wrote ([reread_task]). *)
Definition step_stored (c : command) (D : list Task.t) : list Task.t :=
  match c with
  | Add description priority =>
      map reread_task (D ++ [new_task (List.length D) description priority])
  | List => D
  | Complete task_id =>
      if has_id task_id D then map reread_task (mark_completed task_id D)
      else D
  | Delete task_id => map reread_task (without_id task_id D)
  end.

Definition run_stored (cs : list command) (D : list Task.t) : list Task.t :=
  fold_left (fun D c => step_stored c D) cs D.

(** The [TaskManager] after the [read_file] call of [_read_tasks] has
    left the server in [srv1]. *)
Definition session_after_read {server : Type} (srv1 : server)
    (st : TaskManager.state server) : TaskManager.state server :=
  {| TaskManager.session := Some srv1;
     TaskManager.stdout := TaskManager.stdout st;
     TaskManager.tool_calls :=
       TaskManager.tool_calls st ++ [session_read_call] |}.

(* ================================================================== *)
(** * Vocabulary of the further properties *)
(* ================================================================== *)

(** The call is a [write_file] that carries both of its arguments: the
    one kind of call that stores something. *)
Definition effective_write (c : call) : bool :=
  str_eqb (fst c) (py "write_file") &&
  match dict_get (py "path") (snd c), dict_get (py "content") (snd c) with
  | Some _, Some _ => true
  | _, _ => false
  end.

(** The call stores something at [path]. *)
Definition stores_at (path : pystr) (c : call) : bool :=
  effective_write c && writes_to path c.



(** [add_task] commands, one per description and priority. *)
Definition adds (dps : list (pystr * pystr)) : list command :=
  map (fun dp => Add (fst dp) (snd dp)) dps.

(** The commands on collections: what each operation does to the stored
    collection, as a function on lists of tasks. *)
Definition step_collection (c : command) (D : list Task.t) : list Task.t :=
  match c with
  | Add description priority =>
      D ++ [reread_task (new_task (List.length D) description priority)]
  | List => D
  | Complete task_id => mark_completed task_id D
  | Delete task_id => without_id task_id D
  end.

Definition run_collection (cs : list command) (D : list Task.t) : list Task.t :=
  fold_left (fun D c => step_collection c D) cs D.

(** The calls a [TaskManager] operation may add to the trace: none, the read, or the
    read followed by one write. *)
Definition session_call_pattern (calls : list call) : Prop :=
  calls = [] \/ calls = [session_read_call] \/
  exists content, calls = [session_read_call; session_write_call content].


(* ================================================================== *)
(** * Proofs: the JSON codec *)
(* ================================================================== *)

Unset Implicit Arguments.

(** ** Text equality *)
Lemma str_eqb_eq a b : str_eqb a b = true <-> a = b.
Proof.
  revert b; induction a as [|x a IH]; destruct b as [|y b]; simpl;
    try (split; (discriminate || reflexivity)).
  rewrite andb_true_iff, N.eqb_eq, IH. split.
  - intros [-> ->]; reflexivity.
  - intros [= -> ->]; auto.
Qed.

Lemma str_eqb_refl a : str_eqb a a = true.
Proof. apply str_eqb_eq; reflexivity. Qed.

Lemma str_eqb_neq a b : a <> b -> str_eqb a b = false.
Proof.
  intros H. destruct (str_eqb a b) eqn:E; [|reflexivity].
  apply str_eqb_eq in E. contradiction.
Qed.

(** ** The scanner consumes its input: every call that succeeds leaves a
    shorter text, so the budget of [loads] is never exhausted *)
Lemma skip_ws_length s : (List.length (skip_ws s) <= List.length s)%nat.
Proof.
  induction s as [|c s IH]; simpl; [lia|].
  destruct (is_ws c); simpl; lia.
Qed.

Lemma push_Some c r str rest :
  push c r = Some (str, rest) ->
  exists str', r = Some (str', rest) /\ str = c :: str'.
Proof.
  destruct r as [[s' r']|]; simpl; [|discriminate].
  intros [= <- <-]. eauto.
Qed.

Ltac break_match H :=
  match type of H with
  | context [match ?x with _ => _ end] => destruct x eqn:?
  | context [if ?b then _ else _] => destruct b eqn:?
  end.

Lemma scanstring_length_aux :
  forall n s str rest, (List.length s <= n)%nat ->
    scanstring s = Some (str, rest) -> (List.length rest < List.length s)%nat.
Proof.
  induction n as [|n IH]; intros s str rest Hn H.
  - destruct s; [discriminate | cbn [List.length] in Hn; lia].
  - destruct s as [|c r]; [discriminate|].
    cbn [scanstring] in H. cbn [List.length] in *.
    repeat (break_match H; try discriminate);
      try (apply push_Some in H; destruct H as (? & H & _));
      try (injection H as <- <-);
      try (apply IH in H; cbn [List.length] in *; lia);
      cbn [List.length] in *; lia.
Qed.

Lemma scanstring_length s str rest :
  scanstring s = Some (str, rest) -> (List.length rest < List.length s)%nat.
Proof. apply scanstring_length_aux with (n := List.length s). lia. Qed.

Lemma span_digits_length s ds rest :
  span_digits s = (ds, rest) ->
  List.length s = (List.length ds + List.length rest)%nat.
Proof.
  revert ds rest; induction s as [|c s IH]; simpl; intros ds rest H.
  - injection H as <- <-. reflexivity.
  - destruct (is_digit c).
    + destruct (span_digits s) as [ds' rest'].
      injection H as <- <-. simpl. rewrite (IH _ _ eq_refl). reflexivity.
    + injection H as <- <-. reflexivity.
Qed.

Lemma strip_prefix_length p s rest :
  strip_prefix p s = Some rest ->
  List.length s = (List.length p + List.length rest)%nat.
Proof.
  revert s; induction p as [|a p IH]; intros [|b s]; simpl; intros H;
    try discriminate; try (injection H as <-; reflexivity).
  destruct (a =? b); [|discriminate]. rewrite (IH _ H). reflexivity.
Qed.

Lemma match_integer_length s integer rest :
  match_integer s = Some (integer, rest) ->
  (List.length rest < List.length s)%nat.
Proof.
  unfold match_integer. intros H.
  destruct s as [|c r]; [discriminate|].
  destruct (c =? 45).
  - destruct r as [|d r']; [discriminate|].
    destruct (d =? 48); [injection H as <- <-; simpl; lia|].
    destruct (is_digit d); [|discriminate].
    destruct (span_digits r') as [ds rest'] eqn:E.
    injection H as <- <-. apply span_digits_length in E. simpl. lia.
  - destruct (c =? 48); [injection H as <- <-; simpl; lia|].
    destruct (is_digit c); [|discriminate].
    destruct (span_digits r) as [ds rest'] eqn:E.
    injection H as <- <-. apply span_digits_length in E. simpl. lia.
Qed.

Lemma match_frac_length s frac rest :
  match_frac s = (frac, rest) -> (List.length rest <= List.length s)%nat.
Proof.
  unfold match_frac. intros H.
  destruct s as [|c r]; [injection H as <- <-; lia|].
  destruct (c =? 46); [|injection H as <- <-; lia].
  destruct (span_digits r) as [ds rest'] eqn:E.
  apply span_digits_length in E.
  destruct ds; injection H as <- <-; simpl in *; lia.
Qed.

Lemma match_exp_length s exp rest :
  match_exp s = (exp, rest) -> (List.length rest <= List.length s)%nat.
Proof.
  unfold match_exp. intros H.
  destruct s as [|c r]; [injection H as <- <-; lia|].
  destruct ((c =? 101) || (c =? 69)); [|injection H as <- <-; lia].
  destruct r as [|d r'].
  - simpl in H. injection H as <- <-. lia.
  - destruct ((d =? 43) || (d =? 45)).
    + destruct (span_digits r') as [ds rest'] eqn:E.
      apply span_digits_length in E.
      destruct ds; injection H as <- <-; simpl in *; lia.
    + destruct (span_digits (d :: r')) as [ds rest'] eqn:E.
      apply span_digits_length in E.
      destruct ds; injection H as <- <-; simpl in *; lia.
Qed.

Lemma scan_number_length s v rest :
  scan_number s = Parsed v rest -> (List.length rest < List.length s)%nat.
Proof.
  unfold scan_number. intros H.
  destruct (match_integer s) as [[integer r]|] eqn:Ei.
  - apply match_integer_length in Ei.
    destruct (match_frac r) as [frac r1] eqn:Ef.
    destruct (match_exp r1) as [exp r2] eqn:Ee.
    apply match_frac_length in Ef. apply match_exp_length in Ee.
    destruct frac, exp; injection H as <- <-; lia.
  - repeat (break_match H; try discriminate); injection H as <- <-;
      match goal with
      | E : strip_prefix _ _ = Some _ |- _ =>
          apply strip_prefix_length in E; simpl in E; lia
      end.
Qed.

Lemma scan_number_not_Starved s : scan_number s <> Starved.
Proof.
  unfold scan_number.
  repeat match goal with
         | |- context [match ?x with _ => _ end] => destruct x
         | |- context [let (_, _) := ?x in _] => destruct x
         end; discriminate.
Qed.

Lemma parse_map_Parsed A B (f : A -> B) p b rest :
  parse_map f p = Parsed b rest -> exists a, p = Parsed a rest /\ b = f a.
Proof. destruct p; simpl; intros [= <- <-] || discriminate. eauto. Qed.

Lemma parse_map_Starved A B (f : A -> B) p :
  parse_map f p = Starved -> p = Starved.
Proof. destruct p; simpl; (discriminate || reflexivity). Qed.


Ltac ws_lengths :=
  repeat match goal with
    | |- context [List.length (skip_ws ?x)] =>
        lazymatch goal with
        | _ : (List.length (skip_ws x) <= List.length x)%nat |- _ => fail
        | _ => pose proof (skip_ws_length x)
        end
    | H : context [List.length (skip_ws ?x)] |- _ =>
        lazymatch goal with
        | _ : (List.length (skip_ws x) <= List.length x)%nat |- _ => fail
        | _ => pose proof (skip_ws_length x)
        end
    end.

Ltac len_lia := ws_lengths; cbn [List.length] in *; lia.

Ltac lengths IHv IHa IHo :=
  repeat match goal with
    | E : skip_ws ?x = _ |- _ =>
        pose proof (skip_ws_length x); rewrite E in *; clear E
    | E : scanstring _ = Some _ |- _ => apply scanstring_length in E
    | E : strip_prefix _ _ = Some _ |- _ => apply strip_prefix_length in E
    | E : scan_number _ = Parsed _ _ |- _ => apply scan_number_length in E
    | E : scan_once _ _ = Parsed _ _ |- _ => apply IHv in E
    | E : JSONArray_loop _ _ = Parsed _ _ |- _ => apply IHa in E
    | E : JSONObject_loop _ _ = Parsed _ _ |- _ => apply IHo in E
    end.

Ltac break_parsed H :=
  repeat (break_match H; try discriminate);
  try (apply parse_map_Parsed in H; destruct H as (? & H & _));
  try (injection H as <- <-).

Lemma py_null : py "null" = [110; 117; 108; 108]. Proof. reflexivity. Qed.
Lemma py_true : py "true" = [116; 114; 117; 101]. Proof. reflexivity. Qed.
Lemma py_false : py "false" = [102; 97; 108; 115; 101]. Proof. reflexivity. Qed.

Lemma scan_once_progress :
  forall fuel,
    (forall s v rest, scan_once fuel s = Parsed v rest ->
                      (List.length rest < List.length s)%nat) /\
    (forall s vs rest, JSONArray_loop fuel s = Parsed vs rest ->
                       (List.length rest < List.length s)%nat) /\
    (forall s kvs rest, JSONObject_loop fuel s = Parsed kvs rest ->
                        (List.length rest < List.length s)%nat).
Proof.
  induction fuel as [|fuel (IHv & IHa & IHo)].
  - repeat split; intros; discriminate.
  - repeat split.
    + intros s v rest H. destruct s as [|c r]; [discriminate|].
      cbn [scan_once] in H.
      break_parsed H; lengths IHv IHa IHo;
        rewrite ?py_null, ?py_true, ?py_false in *; len_lia.
    + intros s vs rest H. cbn [JSONArray_loop] in H.
      break_parsed H; lengths IHv IHa IHo; len_lia.
    + intros s vs rest H. cbn [JSONObject_loop] in H.
      break_parsed H; lengths IHv IHa IHo; len_lia.
Qed.

Lemma scan_once_fuel :
  forall fuel,
    (forall s, (2 * List.length s < fuel)%nat -> scan_once fuel s <> Starved) /\
    (forall s, (2 * List.length s + 1 < fuel)%nat ->
               JSONArray_loop fuel s <> Starved) /\
    (forall s, (2 * List.length s + 1 < fuel)%nat ->
               JSONObject_loop fuel s <> Starved).
Proof.
  induction fuel as [|fuel (IHv & IHa & IHo)].
  - repeat split; intros; lia.
  - destruct (scan_once_progress fuel) as (Pv & Pa & Po).
    repeat split.
    + intros s Hf H. destruct s as [|c r]; [discriminate|].
      cbn [scan_once] in H. cbn [List.length] in Hf.
      repeat (break_match H; try discriminate);
        try (apply parse_map_Starved in H);
        try (apply scan_number_not_Starved in H; contradiction);
        lengths Pv Pa Po;
        (apply IHa in H || apply IHo in H); try assumption; len_lia.
    + intros s Hf H. cbn [JSONArray_loop] in H.
      repeat (break_match H; try discriminate);
        try (apply parse_map_Starved in H); lengths Pv Pa Po;
        (apply IHa in H || apply IHv in H ||
         match goal with E : scan_once fuel _ = Starved |- _ =>
           apply IHv in E end); try assumption; len_lia.
    + intros s Hf H. cbn [JSONObject_loop] in H.
      repeat (break_match H; try discriminate);
        try (apply parse_map_Starved in H); lengths Pv Pa Po;
        (apply IHo in H ||
         match goal with E : scan_once fuel _ = Starved |- _ =>
           apply IHv in E end); try assumption; len_lia.
Qed.

Lemma loads_not_Starved s :
  scan_once (2 * List.length s + 2) (skip_ws s) <> Starved.
Proof.
  apply (proj1 (scan_once_fuel _)). pose proof (skip_ws_length s). lia.
Qed.

(** ** Escapes: four hexadecimal digits and back *)
Lemma hex_value_digit d : d < 16 -> hex_value (hex_digit d) = Some d.
Proof.
  intros H.
  assert (E : d = 0 \/ d = 1 \/ d = 2 \/ d = 3 \/ d = 4 \/ d = 5 \/ d = 6 \/
              d = 7 \/ d = 8 \/ d = 9 \/ d = 10 \/ d = 11 \/ d = 12 \/
              d = 13 \/ d = 14 \/ d = 15) by lia.
  repeat (destruct E as [-> | E]; [reflexivity|]). subst. reflexivity.
Qed.

Lemma decode_u_escape n :
  n < 0x10000 ->
  decode_uXXXX (hex_digit (n / 4096)) (hex_digit ((n / 256) mod 16))
               (hex_digit ((n / 16) mod 16)) (hex_digit (n mod 16)) = Some n.
Proof.
  intros H. unfold decode_uXXXX.
  rewrite !hex_value_digit.
  - f_equal.
    pose proof (N.div_mod n 4096 ltac:(lia)).
    pose proof (N.div_mod n 256 ltac:(lia)).
    pose proof (N.div_mod n 16 ltac:(lia)).
    pose proof (N.div_mod (n / 256) 16 ltac:(lia)).
    pose proof (N.div_mod (n / 16) 16 ltac:(lia)).
    pose proof (N.Div0.div_div n 16 16).
    pose proof (N.Div0.div_div n 256 16).
    change (16 * 16) with 256 in *. change (256 * 16) with 4096 in *.
    pose proof (N.mod_lt n 16 ltac:(lia)).
    pose proof (N.mod_lt (n / 16) 16 ltac:(lia)).
    pose proof (N.mod_lt (n / 256) 16 ltac:(lia)).
    lia.
  - apply N.mod_lt; lia.
  - apply N.mod_lt; lia.
  - apply N.mod_lt; lia.
  - apply N.Div0.div_lt_upper_bound; lia.
Qed.

(** ** Bit arithmetic of the surrogate pair *)
Lemma lor_shiftl_small h x k :
  x < 2 ^ k -> N.lor (N.shiftl h k) x = N.shiftl h k + x.
Proof.
  intros Hx.
  assert (D : N.land (N.shiftl h k) x = 0).
  { apply N.bits_inj_0. intros i. rewrite N.land_spec.
    destruct (N.lt_ge_cases i k) as [Hi | Hi].
    - rewrite N.shiftl_spec_low by assumption. reflexivity.
    - rewrite andb_comm.
      replace (N.testbit x i) with false; [reflexivity|].
      symmetry. rewrite <- (N.mod_small x (2 ^ k)) by assumption.
      apply N.mod_pow2_bits_high. assumption. }
  rewrite <- N.lxor_lor by assumption.
  symmetry. apply N.add_nocarry_lxor. assumption.
Qed.

Lemma surrogate_high n :
  n < 0x100000 ->
  N.lor 0xd800 (N.land (N.shiftr n 10) 0x3ff) = 0xd800 + n / 1024.
Proof.
  intros H.
  change 0x3ff with (N.ones 10). rewrite N.land_ones, N.shiftr_div_pow2.
  change (2 ^ 10) with 1024.
  assert (n / 1024 < 1024) by (apply N.Div0.div_lt_upper_bound; lia).
  rewrite N.mod_small by assumption.
  change 0xd800 with (N.shiftl 54 10).
  apply lor_shiftl_small. assumption.
Qed.

Lemma surrogate_low n :
  N.lor 0xdc00 (N.land n 0x3ff) = 0xdc00 + n mod 1024.
Proof.
  change 0x3ff with (N.ones 10). rewrite N.land_ones.
  change (2 ^ 10) with 1024. change 0xdc00 with (N.shiftl 55 10).
  apply lor_shiftl_small. apply N.mod_lt. lia.
Qed.

Lemma surrogate_join n :
  0x10000 + N.lor (N.shiftl (0xd800 + n / 1024 - 0xd800) 10)
                  (0xdc00 + n mod 1024 - 0xdc00) = 0x10000 + n.
Proof.
  rewrite (N.add_comm 0xd800), (N.add_comm 0xdc00), !N.add_sub.
  rewrite lor_shiftl_small by (apply N.mod_lt; lia).
  rewrite N.shiftl_mul_pow2. change (2 ^ 10) with 1024.
  pose proof (N.div_mod n 1024 ltac:(lia)). lia.
Qed.


Lemma escape_char_escaped c : c < 0x110000 -> escaped c (escape_char c).
Proof.
  intros Hc. unfold escape_char.
  repeat match goal with
    | |- context [if ?x =? ?y then _ else _] =>
        destruct (N.eqb_spec x y);
        [subst; apply esc_short; [discriminate | reflexivity]|]
    end.
  destruct ((32 <=? c) && (c <=? 126)) eqn:E.
  - apply andb_true_iff in E. destruct E as [E1 E2].
    apply N.leb_le in E1, E2. apply esc_plain; assumption.
  - destruct (N.ltb_spec c 0x10000).
    + apply esc_u; assumption.
    + cbv zeta. rewrite surrogate_high, surrogate_low by lia.
      apply esc_pair. assumption.
Qed.

(** ** [scanstring] on the output of [encode_basestring_ascii] *)
Lemma scanstring_plain c t :
  32 <= c -> c <> 34 -> c <> 92 -> scanstring (c :: t) = push c (scanstring t).
Proof.
  intros H1 H2 H3. cbn [scanstring].
  rewrite (proj2 (N.eqb_neq c 34) H2), (proj2 (N.eqb_neq c 92) H3).
  rewrite (proj2 (N.ltb_ge c 32) H1). reflexivity.
Qed.

Lemma scanstring_short e ch t :
  e <> 117 -> BACKSLASH e = Some ch ->
  scanstring (92 :: e :: t) = push ch (scanstring t).
Proof.
  intros H1 H2. cbn [scanstring].
  change (92 =? 34) with false. change (92 <? 32) with false.
  change (92 =? 92) with true. cbv iota.
  rewrite (proj2 (N.eqb_neq e 117) H1), H2. reflexivity.
Qed.



Lemma scanstring_u n t :
  n < 0x10000 ->
  scanstring (u_escape n ++ t) =
  if is_high_surrogate n then lookahead n t else push n (scanstring t).
Proof.
  intros H. unfold u_escape. cbn [List.app scanstring].
  change (92 =? 34) with false. change (92 <? 32) with false.
  change (92 =? 92) with true. change (117 =? 117) with true. cbv iota.
  rewrite decode_u_escape by assumption.
  destruct (is_high_surrogate n); [|reflexivity].
  unfold lookahead, joined.
  destruct t as [|b [|u [|g1 [|g2 [|g3 [|g4 r3]]]]]]; reflexivity.
Qed.

Lemma lookahead_u n m t :
  m < 0x10000 ->
  lookahead n (u_escape m ++ t) =
  if is_low_surrogate m then push (joined n m) (scanstring t)
  else push n (scanstring (u_escape m ++ t)).
Proof.
  intros H. unfold u_escape, lookahead. cbn [List.app].
  change (92 =? 92) with true. change (117 =? 117) with true.
  cbn [andb]. rewrite decode_u_escape by assumption. reflexivity.
Qed.

Lemma lookahead_other n t :
  (forall r, t <> 92 :: 117 :: r) -> lookahead n t = push n (scanstring t).
Proof.
  intros H. unfold lookahead.
  destruct t as [|b [|u [|g1 [|g2 [|g3 [|g4 r3]]]]]]; try reflexivity.
  destruct (N.eqb_spec b 92); [|reflexivity].
  destruct (N.eqb_spec u 117); [|reflexivity].
  subst. exfalso. eapply H. reflexivity.
Qed.

Lemma join_not_high c r :
  is_high_surrogate c = false ->
  join_surrogates (c :: r) = c :: join_surrogates r.
Proof. intros H. cbn [join_surrogates]. rewrite H. destruct r; reflexivity. Qed.

Lemma join_not_low c l r :
  is_low_surrogate l = false ->
  join_surrogates (c :: l :: r) = c :: join_surrogates (l :: r).
Proof.
  intros H. cbn [join_surrogates]. rewrite H, andb_false_r. reflexivity.
Qed.

Lemma join_pair c l r :
  is_high_surrogate c = true -> is_low_surrogate l = true ->
  join_surrogates (c :: l :: r) = joined c l :: join_surrogates r.
Proof. intros H1 H2. cbn [join_surrogates]. rewrite H1, H2. reflexivity. Qed.

Lemma not_high_small c : c <= 126 -> is_high_surrogate c = false.
Proof.
  intros H. unfold is_high_surrogate.
  rewrite (proj2 (N.leb_gt 0xd800 c)) by lia. reflexivity.
Qed.

Lemma not_low_small c : c <= 126 -> is_low_surrogate c = false.
Proof.
  intros H. unfold is_low_surrogate.
  rewrite (proj2 (N.leb_gt 0xdc00 c)) by lia. reflexivity.
Qed.

Lemma not_high_big c : 0x10000 <= c -> is_high_surrogate c = false.
Proof.
  intros H. unfold is_high_surrogate.
  rewrite (proj2 (N.leb_gt c 0xdbff)) by lia. apply andb_false_r.
Qed.

Lemma not_low_big c : 0x10000 <= c -> is_low_surrogate c = false.
Proof.
  intros H. unfold is_low_surrogate.
  rewrite (proj2 (N.leb_gt c 0xdfff)) by lia. apply andb_false_r.
Qed.

Lemma BACKSLASH_small e c : BACKSLASH e = Some c -> c <= 126.
Proof.
  unfold BACKSLASH.
  repeat match goal with
    | |- context [if ?b then _ else _] => destruct b
    end; try discriminate; intros [= <-]; lia.
Qed.

Lemma high_part_bounds n :
  n < 0x100000 ->
  0xd800 + n / 1024 < 0x10000 /\
  is_high_surrogate (0xd800 + n / 1024) = true /\
  is_low_surrogate (0xd800 + n / 1024) = false.
Proof.
  intros H.
  assert (n / 1024 < 1024) by (apply N.Div0.div_lt_upper_bound; lia).
  generalize dependent (n / 1024). intros q Hq.
  unfold is_high_surrogate, is_low_surrogate. repeat split.
  - lia.
  - apply andb_true_iff. split; apply N.leb_le; lia.
  - rewrite (proj2 (N.leb_gt 0xdc00 _)) by lia. reflexivity.
Qed.

Lemma low_part_bounds n :
  0xdc00 + n mod 1024 < 0x10000 /\
  is_low_surrogate (0xdc00 + n mod 1024) = true.
Proof.
  pose proof (N.mod_lt n 1024 ltac:(lia)).
  generalize dependent (n mod 1024). intros q Hq.
  unfold is_low_surrogate. split.
  - lia.
  - apply andb_true_iff. split; apply N.leb_le; lia.
Qed.

Lemma valid_str_cons c s :
  valid_str (c :: s) <-> c < 0x110000 /\ valid_str s.
Proof.
  unfold valid_str. split.
  - intros H. inversion H. auto.
  - intros []. constructor; auto.
Qed.

(** After a high surrogate [c], the text of the next character [l]. *)
Lemma lookahead_escaped c l e t :
  escaped l e -> l < 0x110000 ->
  lookahead c (e ++ t) =
  if is_low_surrogate l
  then push (joined c l) (scanstring t)
  else push c (scanstring (e ++ t)).
Proof.
  intros [H1 H2 H3 H4 | e' H1 H2 | H1 | H1] Hl.
  - rewrite not_low_small by assumption.
    apply lookahead_other. intros r [= E _]. contradiction.
  - rewrite not_low_small by (eapply BACKSLASH_small; eassumption).
    apply lookahead_other. intros r [= E _]. contradiction.
  - apply lookahead_u. assumption.
  - rewrite not_low_big by assumption. rewrite <- List.app_assoc.
    destruct (high_part_bounds (l - 0x10000) ltac:(lia)) as (B1 & _ & B3).
    rewrite lookahead_u by assumption. rewrite B3. reflexivity.
Qed.

Lemma scanstring_escaped :
  forall n s, (List.length s <= n)%nat -> valid_str s ->
  forall rest,
    scanstring (flat_map escape_char s ++ 34 :: rest)
    = Some (join_surrogates s, rest).
Proof.
  induction n as [|n IH]; intros s Hn Hs rest.
  - destruct s; [reflexivity | cbn [List.length] in Hn; lia].
  - destruct s as [|c r]; [reflexivity|].
    apply valid_str_cons in Hs. destruct Hs as [Hc Hr].
    cbn [List.length] in Hn.
    assert (IHr : scanstring (flat_map escape_char r ++ 34 :: rest)
                  = Some (join_surrogates r, rest))
      by (apply IH; [lia | assumption]).
    cbn [flat_map]. rewrite <- List.app_assoc.
    destruct (escape_char_escaped c Hc) as [H1 H2 H3 H4 | e' H1 H2 | H1 | H1].
    + cbn [List.app]. rewrite scanstring_plain by assumption.
      rewrite IHr, join_not_high by (apply not_high_small; assumption).
      reflexivity.
    + cbn [List.app]. rewrite (scanstring_short _ _ _ H1 H2).
      rewrite IHr, join_not_high
        by (apply not_high_small; eapply BACKSLASH_small; eassumption).
      reflexivity.
    + rewrite scanstring_u by assumption.
      destruct (is_high_surrogate c) eqn:Hh.
      * destruct r as [|l r'].
        -- cbn [flat_map List.app]. rewrite lookahead_other.
           ++ reflexivity.
           ++ intros r0 [= E].
        -- apply valid_str_cons in Hr. destruct Hr as [Hl Hr'].
           cbn [flat_map]. rewrite <- List.app_assoc.
           rewrite (lookahead_escaped c l _ _ (escape_char_escaped l Hl) Hl).
           destruct (is_low_surrogate l) eqn:Hlow.
           ++ rewrite IH by (cbn [List.length] in Hn; (lia || assumption)).
              rewrite join_pair by assumption. reflexivity.
           ++ rewrite List.app_assoc. change (escape_char l ++ flat_map escape_char r')
                with (flat_map escape_char (l :: r')).
              rewrite IHr, join_not_low by assumption. reflexivity.
      * rewrite IHr, join_not_high by assumption. reflexivity.
    + rewrite <- List.app_assoc.
      destruct (high_part_bounds (c - 0x10000) ltac:(lia)) as (B1 & B2 & _).
      destruct (low_part_bounds (c - 0x10000)) as (B3 & B4).
      rewrite scanstring_u, B2 by assumption.
      rewrite lookahead_u, B4 by assumption.
      rewrite IHr, join_not_high by (apply not_high_big; assumption).
      unfold joined. rewrite surrogate_join.
      replace (0x10000 + (c - 0x10000)) with c by lia. reflexivity.
Qed.

Lemma scanstring_encode s rest :
  valid_str s ->
  scanstring (flat_map escape_char s ++ 34 :: rest)
  = Some (join_surrogates s, rest).
Proof. intros H. apply scanstring_escaped with (n := List.length s); auto. Qed.

Lemma join_pair_free s :
  surrogate_pair_free s = true -> join_surrogates s = s.
Proof.
  induction s as [|c r IH]; [reflexivity|].
  cbn [surrogate_pair_free join_surrogates].
  destruct r as [|l r'].
  - reflexivity.
  - intros H. apply andb_true_iff in H. destruct H as [H1 H2].
    apply negb_true_iff in H1. rewrite H1, (IH H2). reflexivity.
Qed.


(** ** Integers: [int.__repr__] and [int(...)] *)
Lemma uint_of_digits_of_uint u : uint_of_digits (digits_of_uint u) = u.
Proof.
  induction u; cbn [digits_of_uint uint_of_digits]; [reflexivity|..];
    rewrite IHu; reflexivity.
Qed.

Lemma span_digits_of_uint u rest :
  stops rest -> span_digits (digits_of_uint u ++ rest) = (digits_of_uint u, rest).
Proof.
  intros Hs.
  induction u; cbn [digits_of_uint List.app span_digits];
    try (change (is_digit _) with true; cbv iota; rewrite IHu; reflexivity).
  destruct rest as [|c r]; [reflexivity|].
  cbn [span_digits]. destruct Hs as [-> _]. reflexivity.
Qed.

Lemma to_uint_leading p : forall d, Pos.to_uint p <> D0 d.
Proof.
  intros d E.
  assert (U : unorm (Pos.to_uint p) = Pos.to_uint p).
  { rewrite <- DecimalPos.Unsigned.to_of, DecimalPos.Unsigned.of_to. reflexivity. }
  destruct (uint_eq_dec (nzhead (Pos.to_uint p)) Nil) as [Hn | Hn].
  - apply unorm_0 in Hn. rewrite U in Hn.
    exact (DecimalPos.Unsigned.to_uint_nonzero p Hn).
  - rewrite unorm_nzhead in U by assumption.
    rewrite E in U. exact (nzhead_nonzero _ _ U).
Qed.

Lemma match_integer_pos u rest :
  u <> Nil -> (forall d, u <> D0 d) -> stops rest ->
  match_integer (digits_of_uint u ++ rest) = Some (digits_of_uint u, rest) /\
  (exists c r, digits_of_uint u = c :: r /\ is_digit c = true).
Proof.
  intros Hn Hz Hs.
  destruct u as [|u|u|u|u|u|u|u|u|u|u];
    [contradiction | exfalso; eapply Hz; reflexivity | ..];
    (split; [| eexists _, _; split; reflexivity]);
    unfold match_integer; cbn [digits_of_uint List.app];
    match goal with |- context [?c =? 45] => change (c =? 45) with false end;
    cbv iota;
    match goal with |- context [?c =? 48] => change (c =? 48) with false end;
    cbv iota; change (is_digit _) with true; cbv iota;
    rewrite span_digits_of_uint by assumption; reflexivity.
Qed.

Lemma match_integer_zero rest :
  match_integer (48 :: rest) = Some ([48], rest).
Proof. reflexivity. Qed.

Lemma match_frac_stops rest : stops rest -> match_frac rest = ([], rest).
Proof.
  destruct rest as [|c r]; [reflexivity|]. intros (_ & H & _).
  unfold match_frac. rewrite (proj2 (N.eqb_neq c 46) H). reflexivity.
Qed.

Lemma match_exp_stops rest : stops rest -> match_exp rest = ([], rest).
Proof.
  destruct rest as [|c r]; [reflexivity|]. intros (_ & _ & H1 & H2).
  unfold match_exp.
  rewrite (proj2 (N.eqb_neq c 101) H1), (proj2 (N.eqb_neq c 69) H2).
  reflexivity.
Qed.

Lemma int_repr_cases z :
  (z = 0%Z /\ int_repr z = [48]) \/
  (exists p, z = Zpos p /\ int_repr z = digits_of_uint (Pos.to_uint p)) \/
  (exists p, z = Zneg p /\ int_repr z = 45 :: digits_of_uint (Pos.to_uint p)).
Proof.
  destruct z as [|p|p]; [left | right; left | right; right]; eauto.
Qed.

Lemma scan_number_int z rest :
  stops rest -> scan_number (int_repr z ++ rest) = Parsed (VInt z) rest.
Proof.
  intros Hs. unfold scan_number.
  assert (M : match_integer (int_repr z ++ rest) = Some (int_repr z, rest)).
  { destruct (int_repr_cases z) as [[-> ->] | [(p & -> & ->) | (p & -> & ->)]].
    - reflexivity.
    - apply match_integer_pos; auto using to_uint_leading.
      apply DecimalPos.Unsigned.to_uint_nonnil.
    - destruct (match_integer_pos (Pos.to_uint p) rest) as (M & c & r & E & D);
        auto using to_uint_leading.
      { apply DecimalPos.Unsigned.to_uint_nonnil. }
      unfold match_integer in *. cbn [List.app]. change (45 =? 45) with true.
      cbv iota. rewrite E in *. cbn [List.app] in *.
      assert (c <> 45) by (intros ->; discriminate).
      rewrite (proj2 (N.eqb_neq c 45)) in M by assumption.
      destruct (c =? 48); [injection M as <- <-; reflexivity|].
      rewrite D in *. destruct (span_digits (r ++ rest)).
      injection M as <- <-. reflexivity. }
  rewrite M, match_frac_stops, match_exp_stops by assumption.
  f_equal. f_equal.
  rewrite <- (DecimalZ.of_to z) at 2.
  unfold parse_int, int_repr.
  destruct (Z.to_int z) as [u|u] eqn:E.
  - destruct (digits_of_uint u) as [|c r] eqn:Ed.
    + destruct u; try discriminate. reflexivity.
    + assert (c <> 45)
        by (intros ->; destruct u; discriminate).
      rewrite (proj2 (N.eqb_neq c 45)) by assumption.
      rewrite <- Ed, uint_of_digits_of_uint. reflexivity.
  - change (45 =? 45) with true. cbv iota.
    rewrite uint_of_digits_of_uint. reflexivity.
Qed.

Lemma int_repr_head z :
  exists c r, int_repr z = c :: r /\ (is_digit c = true \/ c = 45).
Proof.
  destruct (int_repr_cases z) as [[-> ->] | [(p & -> & ->) | (p & -> & ->)]].
  - eexists _, _. split; [reflexivity | left; reflexivity].
  - pose proof (DecimalPos.Unsigned.to_uint_nonnil p).
    destruct (Pos.to_uint p); try contradiction;
      eexists _, _; (split; [reflexivity | left; reflexivity]).
  - eexists _, _. split; [reflexivity | right; reflexivity].
Qed.

(** ** Induction on values, dictionaries, whitespace *)
Lemma value_ind (P : value -> Prop) :
  P VNone -> (forall b, P (VBool b)) -> (forall z, P (VInt z)) ->
  (forall lit, P (VFloat lit)) -> (forall s, P (VStr s)) ->
  (forall items, Forall P items -> P (VList items)) ->
  (forall d, Forall (fun kv => P (snd kv)) d -> P (VDict d)) ->
  forall v, P v.
Proof.
  intros HN HB HI HF HS HL HD.
  fix IH 1. intros [| b | z | lit | s | items | d].
  - exact HN.
  - apply HB.
  - apply HI.
  - apply HF.
  - apply HS.
  - apply HL. induction items as [|x xs IHxs]; constructor.
    + apply IH.
    + exact IHxs.
  - apply HD. induction d as [|[k x] d IHd]; constructor.
    + apply IH.
    + exact IHd.
Qed.

Lemma dict_set_fresh V (k : pystr) (v : V) d :
  ~ In k (map fst d) -> dict_set k v d = d ++ [(k, v)].
Proof.
  induction d as [|[k' v'] d IH]; cbn [dict_set map fst In List.app]; intros H.
  - reflexivity.
  - rewrite str_eqb_neq by (intros ->; apply H; left; reflexivity).
    rewrite IH by (intros Hin; apply H; right; assumption). reflexivity.
Qed.

Lemma dict_of_pairs_NoDup V (ps : list (pystr * V)) :
  NoDup (map fst ps) -> dict_of_pairs ps = ps.
Proof.
  unfold dict_of_pairs.
  enough (G : forall acc, NoDup (map fst (acc ++ ps)) ->
            fold_left (fun d kv => dict_set (fst kv) (snd kv) d) ps acc
            = acc ++ ps) by (apply (G [])).
  induction ps as [|[k v] ps IH]; intros acc H; cbn [fold_left fst snd].
  - rewrite List.app_nil_r. reflexivity.
  - rewrite dict_set_fresh.
    + rewrite IH; rewrite <- List.app_assoc; [reflexivity | assumption].
    + rewrite map_app in H. cbn [map fst] in H.
      apply NoDup_remove_2 in H. intros Hin. apply H.
      apply in_or_app. left. assumption.
Qed.

Lemma skip_ws_spaces n t : skip_ws (repeat 32 n ++ t) = skip_ws t.
Proof. induction n; [reflexivity | assumption]. Qed.

Lemma skip_ws_newline_indent level t :
  skip_ws (newline_indent level ++ t) = skip_ws t.
Proof. unfold newline_indent. cbn [List.app skip_ws]. apply skip_ws_spaces. Qed.

Lemma skip_ws_stay c t : is_ws c = false -> skip_ws (c :: t) = c :: t.
Proof. intros H. cbn [skip_ws]. rewrite H. reflexivity. Qed.


Lemma opens_value_facts c :
  opens_value c -> is_ws c = false /\ c <> 93 /\ c <> 125.
Proof.
  unfold opens_value, is_digit, is_ws.
  intros [-> | [-> | [-> | [-> | [H | [-> | [-> | ->]]]]]]];
    try (split; [reflexivity | split; discriminate]).
  apply andb_true_iff in H. destruct H as [H1 H2].
  apply N.leb_le in H1, H2.
  repeat split; try lia.
  repeat match goal with
    | |- context [c =? ?k] => rewrite (proj2 (N.eqb_neq c k)) by lia
    end. reflexivity.
Qed.

Section RoundTrip.
Context {F : FloatOps}.

Lemma iterencode_head level v :
  encodable v -> exists c r, iterencode level v = c :: r /\ opens_value c.
Proof.
  unfold opens_value.
  intros [| [|] | z | s Hs | [|x xs] H | [|[k x] d] H1 H2];
    try (eexists _, _; split; [reflexivity | tauto]).
  destruct (int_repr_head z) as (c & r & E & [D | ->]);
    eexists _, _; (split; [exact E | tauto]).
Qed.

Lemma skip_ws_iterencode level v t :
  encodable v -> skip_ws (iterencode level v ++ t) = iterencode level v ++ t.
Proof.
  intros H. destruct (iterencode_head level v H) as (c & r & -> & Hc).
  apply skip_ws_stay. apply opens_value_facts. assumption.
Qed.
(** ** [json.loads] after [json.dumps] *)


Lemma iterencode_list level x xs :
  iterencode level (VList (x :: xs)) =
  91 :: newline_indent (S level) ++ iterencode (S level) x
  ++ items_text level xs ++ newline_indent level ++ [93].
Proof. reflexivity. Qed.

Lemma iterencode_dict level k x kvs :
  iterencode level (VDict ((k, x) :: kvs)) =
  123 :: newline_indent (S level) ++ 34 :: flat_map escape_char k ++ 34 ::
  58 :: 32 :: iterencode (S level) x
  ++ members_text level kvs ++ newline_indent level ++ [125].
Proof.
  cbn [iterencode]. unfold encode_basestring_ascii, members_text.
  cbn [List.app]. rewrite <- !List.app_assoc. reflexivity.
Qed.

Lemma stops_comma t : stops (44 :: t).
Proof. repeat split; discriminate. Qed.

Lemma stops_newline level t : stops (newline_indent level ++ t).
Proof. repeat split; discriminate. Qed.

Lemma stops_items level xs t :
  stops (items_text level xs ++ newline_indent level ++ t).
Proof. destruct xs; [apply stops_newline | apply stops_comma]. Qed.

Lemma stops_members level kvs t :
  stops (members_text level kvs ++ newline_indent level ++ t).
Proof. destruct kvs; [apply stops_newline | apply stops_comma]. Qed.

Lemma array_loop level rest :
  forall xs, Forall round_trips xs -> Forall encodable xs ->
  forall x, round_trips x -> encodable x ->
  forall fuel,
    JSONArray_loop fuel (iterencode (S level) x ++ items_text level xs
                         ++ newline_indent level ++ 93 :: rest) <> Starved ->
    JSONArray_loop fuel (iterencode (S level) x ++ items_text level xs
                         ++ newline_indent level ++ 93 :: rest)
    = Parsed (reread x :: map reread xs) rest.
Proof.
  induction xs as [|y ys IH]; intros Pxs Exs x Px Ex fuel H;
    (destruct fuel as [|fuel]; [exfalso; apply H; reflexivity|]);
    cbn [JSONArray_loop] in H |- *;
    (rewrite Px in H |- *;
     [ | assumption | apply stops_items
       | intros E; apply H; rewrite E; reflexivity
       | assumption | apply stops_items
       | intros E; apply H; rewrite E; reflexivity ]).
  - cbn [items_text flat_map List.app map].
    rewrite skip_ws_newline_indent. reflexivity.
  - inversion Pxs as [|? ? Py Pys]; subst. inversion Exs as [|? ? Ey Eys]; subst.
    cbn [items_text flat_map map] in H |- *. fold (items_text level ys) in H |- *.
    cbn [List.app] in H |- *. rewrite <- !List.app_assoc in H |- *.
    rewrite (skip_ws_stay 44) in H |- * by reflexivity.
    change (44 =? 93) with false in H |- *. change (44 =? 44) with true in H |- *.
    cbv iota in H |- *.
    rewrite skip_ws_newline_indent, skip_ws_iterencode in H |- * by assumption.
    rewrite IH; try assumption; [reflexivity|].
    intros E. apply H. rewrite E. reflexivity.
Qed.


Lemma object_loop level rest :
  forall kvs, Forall (fun kv => round_trips (snd kv)) kvs -> Forall member_ok kvs ->
  forall k x, round_trips x -> member_ok (k, x) ->
  forall fuel,
    JSONObject_loop fuel (flat_map escape_char k ++ 34 :: 58 :: 32 ::
                          iterencode (S level) x ++ members_text level kvs
                          ++ newline_indent level ++ 125 :: rest) <> Starved ->
    JSONObject_loop fuel (flat_map escape_char k ++ 34 :: 58 :: 32 ::
                          iterencode (S level) x ++ members_text level kvs
                          ++ newline_indent level ++ 125 :: rest)
    = Parsed ((k, reread x) :: map reread_member kvs) rest.
Proof.
  induction kvs as [|[k' y] kvs IH]; intros Pkvs Ekvs k x Px (Vk & Fk & Ex) fuel H;
    cbn [fst snd] in Vk, Fk, Ex;
    (destruct fuel as [|fuel]; [exfalso; apply H; reflexivity|]);
    cbn [JSONObject_loop] in H |- *;
    rewrite scanstring_encode, (join_pair_free k Fk) in H |- * by assumption;
    rewrite (skip_ws_stay 58) in H |- * by reflexivity;
    change (58 =? 58) with true in H |- *; cbv iota in H |- *;
    change (skip_ws (32 :: ?t)) with (skip_ws t) in H |- *;
    rewrite skip_ws_iterencode in H |- * by assumption;
    (rewrite Px in H |- *;
     [ | assumption | apply stops_members
       | intros E; apply H; rewrite E; reflexivity
       | assumption | apply stops_members
       | intros E; apply H; rewrite E; reflexivity ]).
  - cbn [members_text flat_map List.app map].
    rewrite skip_ws_newline_indent. reflexivity.
  - inversion Pkvs as [|? ? Py Pys]; subst.
    inversion Ekvs as [|? ? Ey Eys]; subst. cbn [snd] in Py.
    cbn [members_text flat_map map fst snd] in H |- *.
    fold (members_text level kvs) in H |- *.
    unfold encode_basestring_ascii in H |- *.
    cbn [List.app] in H |- *. rewrite <- !List.app_assoc in H |- *.
    cbn [List.app] in H |- *.
    rewrite (skip_ws_stay 44) in H |- * by reflexivity.
    change (44 =? 125) with false in H |- *. change (44 =? 44) with true in H |- *.
    cbv iota in H |- *.
    rewrite skip_ws_newline_indent in H |- *.
    rewrite (skip_ws_stay 34) in H |- * by reflexivity.
    change (34 =? 34) with true in H |- *. cbv iota in H |- *.
    rewrite <- !List.app_assoc in H |- *. cbn [List.app] in H |- *.
    rewrite IH; try assumption; [reflexivity|].
    intros E. apply H. rewrite E. reflexivity.
Qed.

Lemma scan_once_number fuel c r :
  is_digit c = true \/ c = 45 ->
  scan_once (S fuel) (c :: r) = scan_number (c :: r).
Proof.
  intros H. cbn [scan_once].
  assert (B : c <> 34 /\ c <> 123 /\ c <> 91 /\ c <> 110 /\ c <> 116 /\ c <> 102).
  { destruct H as [H | ->]; [|repeat split; discriminate].
    unfold is_digit in H. apply andb_true_iff in H. destruct H as [H1 H2].
    apply N.leb_le in H1, H2. repeat split; lia. }
  destruct B as (B1 & B2 & B3 & B4 & B5 & B6).
  rewrite (proj2 (N.eqb_neq c 34)), (proj2 (N.eqb_neq c 123)),
    (proj2 (N.eqb_neq c 91)) by assumption.
  rewrite py_null, py_true, py_false. cbn [strip_prefix].
  rewrite (proj2 (N.eqb_neq 110 c)), (proj2 (N.eqb_neq 116 c)),
    (proj2 (N.eqb_neq 102 c)) by (intros E; symmetry in E; contradiction).
  reflexivity.
Qed.

Lemma encodable_round_trips : forall v, round_trips v.
Proof.
  induction v as [| b | z | lit | s | items IH | d IH] using value_ind;
    intros E level fuel rest Hs H;
    (destruct fuel as [|fuel]; [exfalso; apply H; reflexivity|]).
  - reflexivity.
  - destruct b; reflexivity.
  - cbn [iterencode reread].
    destruct (int_repr_head z) as (c & r & Ez & Hc).
    rewrite <- scan_number_int with (z := z) by assumption.
    rewrite Ez. cbn [List.app]. apply scan_once_number. assumption.
  - inversion E.
  - inversion E as [| | | ? Vs | |]; subst.
    cbn [iterencode reread]. unfold encode_basestring_ascii.
    cbn [List.app scan_once]. change (34 =? 34) with true. cbv iota.
    rewrite <- List.app_assoc. cbn [List.app].
    rewrite scanstring_encode by assumption. reflexivity.
  - inversion E as [| | | | ? Ei |]; subst.
    destruct items as [|x xs]; [reflexivity|].
    inversion IH as [|? ? Px Pxs]; subst. inversion Ei as [|? ? Ex Exs]; subst.
    rewrite iterencode_list in H |- *.
    cbn [List.app scan_once] in H |- *.
    change (91 =? 34) with false in H |- *.
    change (91 =? 123) with false in H |- *.
    change (91 =? 91) with true in H |- *. cbv iota in H |- *.
    rewrite <- !List.app_assoc in H |- *. cbn [List.app] in H |- *.
    rewrite skip_ws_newline_indent, skip_ws_iterencode in H |- * by assumption.
    destruct (iterencode_head (S level) x Ex) as (c & r & Ec & Hc).
    apply opens_value_facts in Hc. destruct Hc as (_ & Hc & _).
    revert H. rewrite Ec. cbn [List.app].
    rewrite (proj2 (N.eqb_neq c 93)) by assumption.
    change (c :: r ++ ?t) with ((c :: r) ++ t). rewrite <- Ec. intros H.
    rewrite array_loop; try assumption; [reflexivity|].
    intros E'. apply H. rewrite E'. reflexivity.
  - inversion E as [| | | | | ? Nd Ed]; subst.
    destruct d as [|[k x] kvs]; [reflexivity|].
    inversion IH as [|? ? Px Pxs]; subst. inversion Ed as [|? ? Ex Exs]; subst.
    cbn [snd] in Px.
    rewrite iterencode_dict in H |- *.
    cbn [List.app scan_once] in H |- *.
    change (123 =? 34) with false in H |- *.
    change (123 =? 123) with true in H |- *. cbv iota in H |- *.
    rewrite <- !List.app_assoc in H |- *. cbn [List.app] in H |- *.
    rewrite skip_ws_newline_indent in H |- *.
    rewrite (skip_ws_stay 34) in H |- * by reflexivity.
    change (34 =? 125) with false in H |- *.
    change (34 =? 34) with true in H |- *. cbv iota in H |- *.
    rewrite <- !List.app_assoc in H |- *. cbn [List.app] in H |- *.
    rewrite <- ?List.app_assoc in H |- *. cbn [List.app] in H |- *.
    rewrite object_loop; try assumption.
    + cbn [parse_map reread]. f_equal. f_equal.
      change ((k, reread x) :: map reread_member kvs)
        with (map reread_member ((k, x) :: kvs)).
      apply dict_of_pairs_NoDup.
      rewrite map_map. exact Nd.
    + intros E'. apply H. rewrite E'. reflexivity.
Qed.

Theorem loads_dumps v :
  encodable v -> loads (dumps v) = Return (reread v).
Proof.
  intros E. unfold loads, dumps.
  pose proof (loads_not_Starved (iterencode 0 v)) as H.
  rewrite <- (List.app_nil_r (iterencode 0 v)) in H at 2.
  rewrite <- (List.app_nil_r (iterencode 0 v)) at 2.
  rewrite skip_ws_iterencode in H |- * by assumption.
  rewrite (encodable_round_trips v E 0%nat _ [] I H). reflexivity.
Qed.
End RoundTrip.

(* ================================================================== *)
(** * Proofs: the provider and the task store *)
(* ================================================================== *)

Lemma dict_get_set_same V (k : pystr) (v : V) d :
  dict_get k (dict_set k v d) = Some v.
Proof.
  induction d as [|[k' v'] d IH]; cbn [dict_set dict_get].
  - rewrite str_eqb_refl. reflexivity.
  - destruct (str_eqb k k') eqn:E; cbn [dict_get]; rewrite E; auto.
Qed.

Lemma dict_get_set_other V (k k' : pystr) (v : V) d :
  k <> k' -> dict_get k (dict_set k' v d) = dict_get k d.
Proof.
  intros H. induction d as [|[k'' v''] d IH]; cbn [dict_set dict_get].
  - rewrite str_eqb_neq by assumption. reflexivity.
  - destruct (str_eqb k' k'') eqn:E; cbn [dict_get].
    + apply str_eqb_eq in E. subst k''.
      rewrite str_eqb_neq by assumption. reflexivity.
    + rewrite IH. reflexivity.
Qed.

(** ** [SimulatedMCPServer.call_tool], tool by tool *)

Lemma call_tool_read_file arguments path srv :
  dict_get (py "path") arguments = Some path ->
  SimulatedMCPServer.call_tool (py "read_file") arguments srv =
  (Return [(py "content",
            VStr match dict_get path (SimulatedMCPServer.filesystem srv) with
                 | Some content => content
                 | None => py "[]"
                 end)], srv).
Proof.
  intros H. unfold SimulatedMCPServer.call_tool.
  change (str_eqb (py "read_file") (py "read_file")) with true. cbv iota.
  unfold SimulatedMCPServer.subscript, bind, get, ret. rewrite H.
  destruct (dict_get path (SimulatedMCPServer.filesystem srv)); reflexivity.
Qed.

Lemma call_tool_write_file arguments path content srv :
  dict_get (py "path") arguments = Some path ->
  dict_get (py "content") arguments = Some content ->
  SimulatedMCPServer.call_tool (py "write_file") arguments srv =
  (Return [(py "success", VBool true)],
   {| SimulatedMCPServer.filesystem :=
        dict_set path content (SimulatedMCPServer.filesystem srv);
      SimulatedMCPServer.tools := SimulatedMCPServer.tools srv |}).
Proof.
  intros H1 H2. unfold SimulatedMCPServer.call_tool.
  change (str_eqb (py "write_file") (py "read_file")) with false.
  change (str_eqb (py "write_file") (py "write_file")) with true. cbv iota.
  unfold SimulatedMCPServer.subscript, bind, modify, ret. rewrite H1, H2.
  reflexivity.
Qed.

(** ** [_read_tasks] and [_write_tasks] of [SimpleTaskManager] *)

Lemma read_tasks_eq st :
  SimpleTaskManager._read_tasks st =
  (json_decoder.loads (current_text st), after_read st).
Proof.
  unfold SimpleTaskManager._read_tasks, bind,
    SimpleTaskManager.mcp_server_call_tool.
  rewrite (call_tool_read_file _ SimpleTaskManager.tasks_file) by reflexivity.
  unfold current_text, stored, lift.
  destruct (dict_get SimpleTaskManager.tasks_file _); reflexivity.
Qed.

Lemma loads_to_iff st v :
  loads_to st v <-> json_decoder.loads (current_text st) = Return v.
Proof. unfold loads_to. rewrite read_tasks_eq. reflexivity. Qed.

Section Store.
Context {F : FloatOps}.

Lemma write_tasks_eq tasks st :
  SimpleTaskManager._write_tasks tasks st =
  (Return tt, after_write (json_encoder.dumps tasks) st).
Proof.
  unfold SimpleTaskManager._write_tasks, bind,
    SimpleTaskManager.mcp_server_call_tool.
  rewrite (call_tool_write_file _ SimpleTaskManager.tasks_file
             (json_encoder.dumps tasks)) by reflexivity.
  reflexivity.
Qed.

Lemma stored_after_write content st :
  stored (after_write content st) = Some content.
Proof. unfold stored, after_write, wrote. cbn. apply dict_get_set_same. Qed.

Lemma current_text_after_write content st :
  current_text (after_write content st) = content.
Proof. unfold current_text. rewrite stored_after_write. reflexivity. Qed.

Lemma current_text_printed o st : current_text (printed o st) = current_text st.
Proof. reflexivity. Qed.

Lemma current_text_after_read st : current_text (after_read st) = current_text st.
Proof. reflexivity. Qed.

(** ** Tasks as values *)

Lemma getitem_id t : Py.getitem (task_value t) (py "id") = Return (VInt (Task.id t)).
Proof. reflexivity. Qed.

Lemma getitem_description t :
  Py.getitem (task_value t) (py "description") = Return (VStr (Task.description t)).
Proof. reflexivity. Qed.

Lemma getitem_priority t :
  Py.getitem (task_value t) (py "priority") = Return (VStr (Task.priority t)).
Proof. reflexivity. Qed.

Lemma getitem_completed t :
  Py.getitem (task_value t) (py "completed") = Return (VBool (Task.completed t)).
Proof. reflexivity. Qed.

Lemma setitem_completed t :
  Py.setitem (task_value t) (py "completed") (VBool true) =
  Return (task_value {| Task.id := Task.id t;
                        Task.description := Task.description t;
                        Task.priority := Task.priority t;
                        Task.completed := true |}).
Proof. reflexivity. Qed.

Lemma json_of_new_task n description priority :
  VDict [(py "id", VInt (Z.of_nat n + 1));
         (py "description", VStr description);
         (py "priority", VStr priority);
         (py "completed", VBool false)]
  = task_value (new_task n description priority).
Proof. reflexivity. Qed.

(** ** The four operations on a stored list *)

Lemma add_task_eq st items description priority :
  loads_to st (VList items) ->
  SimpleTaskManager.add_task description priority st =
  (Return tt,
   printed (TaskAdded description priority)
     (after_write
        (json_encoder.dumps
           (VList (items ++ [task_value (new_task (List.length items)
                                                  description priority)])))
        (after_read st))).
Proof.
  intros H. apply loads_to_iff in H.
  unfold SimpleTaskManager.add_task, bind. rewrite read_tasks_eq, H.
  cbn [lift Py.len Py.append]. rewrite write_tasks_eq. reflexivity.
Qed.

Lemma complete_scan_eq (St : Type) (W : value -> M St unit) (pc pnf : M St unit)
    tasks task_id C :
  forall before,
    complete_scan W pc pnf tasks task_id before (map task_value C) =
    if has_id task_id C
    then (W (Py.with_items tasks
               (before ++ map task_value (mark_completed task_id C))) ;; pc)
    else pnf.
Proof.
  induction C as [|t C IH]; intros before; [reflexivity|].
  cbn [map complete_scan has_id existsb mark_completed].
  rewrite getitem_id. unfold bind at 1, lift at 1. cbn [Py.eq_int].
  destruct (Task.id t =? task_id)%Z eqn:E; cbn [orb].
  - rewrite setitem_completed. reflexivity.
  - rewrite IH. fold (has_id task_id C). rewrite <- List.app_assoc. reflexivity.
Qed.

Lemma complete_task_eq st C task_id :
  loads_to st (collection_value C) ->
  SimpleTaskManager.complete_task task_id st =
  if has_id task_id C
  then (Return tt,
        printed (TaskCompleted task_id)
          (after_write
             (json_encoder.dumps (collection_value (mark_completed task_id C)))
             (after_read st)))
  else (Return tt, printed (TaskNotFound task_id) (after_read st)).
Proof.
  intros H. apply loads_to_iff in H.
  unfold SimpleTaskManager.complete_task, bind at 1. rewrite read_tasks_eq, H.
  unfold collection_value. unfold bind at 1, lift at 1. cbn [Py.iter].
  rewrite complete_scan_eq. cbn [List.app Py.with_items].
  destruct (has_id task_id C); [|reflexivity].
  unfold bind. rewrite write_tasks_eq. reflexivity.
Qed.

Lemma comprehension_eq task_id C :
  comprehension task_id (map task_value C) =
  Return (map task_value (without_id task_id C)).
Proof.
  induction C as [|t C IH]; [reflexivity|].
  cbn [map comprehension without_id filter]. rewrite getitem_id.
  fold (without_id task_id C). rewrite IH. cbn [Py.eq_int].
  destruct (Task.id t =? task_id)%Z; reflexivity.
Qed.

Lemma delete_task_eq st C task_id :
  loads_to st (collection_value C) ->
  SimpleTaskManager.delete_task task_id st =
  (Return tt,
   printed (TaskDeleted task_id)
     (after_write
        (json_encoder.dumps (collection_value (without_id task_id C)))
        (after_read st))).
Proof.
  intros H. apply loads_to_iff in H.
  unfold SimpleTaskManager.delete_task, bind. rewrite read_tasks_eq, H.
  unfold collection_value. cbn [lift Py.iter]. rewrite comprehension_eq.
  rewrite write_tasks_eq. reflexivity.
Qed.

End Store.

(** ** Collections through [json.dumps] and [json.loads] *)

Lemma joined_bounds c l :
  is_high_surrogate c = true -> is_low_surrogate l = true ->
  0x10000 <= joined c l < 0x110000.
Proof.
  unfold is_high_surrogate, is_low_surrogate, joined. intros Hc Hl.
  apply andb_true_iff in Hc, Hl. destruct Hc as [C1 C2], Hl as [L1 L2].
  apply N.leb_le in C1, C2, L1, L2.
  rewrite lor_shiftl_small by (change (2 ^ 10) with 1024; lia).
  rewrite N.shiftl_mul_pow2. change (2 ^ 10) with 1024. lia.
Qed.

Lemma join_surrogates_head c r :
  exists c' r', join_surrogates (c :: r) = c' :: r' /\ (c' = c \/ 0x10000 <= c').
Proof.
  cbn [join_surrogates]. destruct r as [|l r]; [eauto|].
  destruct (is_high_surrogate c && is_low_surrogate l) eqn:E; [|eauto].
  apply andb_true_iff in E. destruct E as [E1 E2].
  eexists _, _. split; [reflexivity|]. right.
  apply (joined_bounds c l E1 E2).
Qed.

Lemma join_surrogates_clean :
  forall n s, (List.length s <= n)%nat -> valid_str s ->
    valid_str (join_surrogates s) /\
    surrogate_pair_free (join_surrogates s) = true.
Proof.
  induction n as [|n IH]; intros s Hn Hs.
  - destruct s; [split; [constructor | reflexivity] | cbn in Hn; lia].
  - destruct s as [|c r]; [split; [constructor | reflexivity]|].
    apply valid_str_cons in Hs. destruct Hs as [Hc Hr].
    cbn [List.length] in Hn.
    destruct (IH r ltac:(lia) Hr) as [IHv IHf].
    destruct r as [|l r']; [split; [repeat constructor; assumption | reflexivity]|].
    destruct (is_high_surrogate c && is_low_surrogate l) eqn:E.
    + apply andb_true_iff in E. destruct E as [E1 E2].
      rewrite join_pair by assumption.
      apply valid_str_cons in Hr. destruct Hr as [Hl Hr'].
      cbn [List.length] in Hn.
      destruct (IH r' ltac:(lia) Hr') as [IHv' IHf'].
      pose proof (joined_bounds c l E1 E2) as [B1 B2].
      split; [apply valid_str_cons; split; assumption|].
      cbn [surrogate_pair_free]. rewrite IHf'.
      rewrite (not_high_big _ B1). destruct (join_surrogates r'); reflexivity.
    + assert (J : join_surrogates (c :: l :: r') = c :: join_surrogates (l :: r'))
        by (cbn [join_surrogates]; rewrite E; reflexivity).
      rewrite J. split; [apply valid_str_cons; split; assumption|].
      destruct (join_surrogates_head l r') as (l' & t & El & Hl').
      rewrite El in *. cbn [surrogate_pair_free] in IHf |- *.
      rewrite IHf, andb_true_r. apply negb_true_iff.
      destruct Hl' as [-> | B]; [assumption|].
      rewrite (not_low_big _ B). apply andb_false_r.
Qed.

Lemma reread_task_clean t : valid_task t -> clean_task (reread_task t).
Proof.
  intros [H1 H2].
  destruct (join_surrogates_clean _ (Task.description t) (Nat.le_refl _) H1).
  destruct (join_surrogates_clean _ (Task.priority t) (Nat.le_refl _) H2).
  repeat split; assumption.
Qed.

Lemma reread_task_id t : clean_task t -> reread_task t = t.
Proof.
  intros [_ [H1 H2]]. destruct t as [i d p c]. unfold reread_task. cbn in *.
  rewrite (join_pair_free _ H1), (join_pair_free _ H2). reflexivity.
Qed.

Lemma map_reread_task_id C : Forall clean_task C -> map reread_task C = C.
Proof.
  induction 1 as [|t C Ht _ IH]; [reflexivity|].
  cbn [map]. rewrite (reread_task_id t Ht), IH. reflexivity.
Qed.

Lemma encodable_task t : valid_task t -> encodable (task_value t).
Proof.
  intros [H1 H2]. apply encodable_Dict.
  - cbn [map fst]. repeat constructor; cbn [In]; intros H;
      repeat (destruct H as [H | H]; [discriminate|]); exact H.
  - repeat constructor; cbn [fst snd]; try assumption;
      try reflexivity; repeat constructor.
Qed.

Lemma encodable_collection C :
  Forall valid_task C -> encodable (collection_value C).
Proof.
  intros H. apply encodable_List.
  induction H as [|t C Ht _ IH]; constructor;
    [apply encodable_task; assumption | exact IH].
Qed.

Lemma reread_collection C :
  reread (collection_value C) = collection_value (map reread_task C).
Proof.
  unfold collection_value. cbn [reread]. f_equal. rewrite !map_map.
  apply map_ext. intros t. reflexivity.
Qed.

Section Collections.
Context {F : FloatOps}.

Lemma loads_dumps_collection C :
  Forall valid_task C ->
  json_decoder.loads (json_encoder.dumps (collection_value C))
  = Return (collection_value (map reread_task C)).
Proof.
  intros H. rewrite loads_dumps by (apply encodable_collection; assumption).
  rewrite reread_collection. reflexivity.
Qed.

Lemma loads_dumps_clean C :
  Forall clean_task C ->
  json_decoder.loads (json_encoder.dumps (collection_value C))
  = Return (collection_value C).
Proof.
  intros H. rewrite loads_dumps_collection.
  - rewrite map_reread_task_id by assumption. reflexivity.
  - eapply Forall_impl; [|exact H]. intros t [Hv _]. exact Hv.
Qed.

(** ** [list_tasks] on a stored collection *)

Lemma priority_emoji_str s : priority_emoji (VStr s) = Return (emoji_of s).
Proof.
  unfold priority_emoji, emoji_of. cbn [Py.hashable negb].
  repeat match goal with |- context [if ?b then _ else _] => destruct b end;
    reflexivity.
Qed.

Lemma list_lines_eq C : forall st,
  list_lines SimpleTaskManager.print (map task_value C) st =
  (Return tt,
   {| SimpleTaskManager.mcp_server := SimpleTaskManager.mcp_server st;
      SimpleTaskManager.stdout := SimpleTaskManager.stdout st ++ map task_line C;
      SimpleTaskManager.tool_calls := SimpleTaskManager.tool_calls st |}).
Proof.
  induction C as [|t C IH]; intros st.
  - cbn [map list_lines]. unfold ret. rewrite List.app_nil_r.
    destruct st; reflexivity.
  - cbn [map list_lines].
    rewrite getitem_completed, getitem_priority, getitem_id, getitem_description.
    unfold bind, lift. rewrite priority_emoji_str.
    unfold SimpleTaskManager.print at 1, modify. rewrite IH.
    cbn [SimpleTaskManager.mcp_server SimpleTaskManager.stdout
         SimpleTaskManager.tool_calls Py.truthy].
    rewrite <- List.app_assoc. reflexivity.
Qed.

Lemma list_tasks_eq st C :
  loads_to st (collection_value C) ->
  SimpleTaskManager.list_tasks st =
  (Return tt,
   {| SimpleTaskManager.mcp_server := SimpleTaskManager.mcp_server st;
      SimpleTaskManager.stdout := SimpleTaskManager.stdout st ++ listing C;
      SimpleTaskManager.tool_calls :=
        SimpleTaskManager.tool_calls st ++ [read_call] |}).
Proof.
  intros H. apply loads_to_iff in H.
  unfold SimpleTaskManager.list_tasks, bind at 1. rewrite read_tasks_eq, H.
  destruct C as [|t C]; [reflexivity|].
  unfold collection_value. cbn [map Py.truthy negb].
  unfold bind, SimpleTaskManager.print, modify, lift. cbn [Py.iter].
  change (task_value t :: map task_value C) with (map task_value (t :: C)).
  rewrite list_lines_eq.
  cbn [SimpleTaskManager.mcp_server SimpleTaskManager.stdout
       SimpleTaskManager.tool_calls after_read listing].
  rewrite <- !List.app_assoc. reflexivity.
Qed.
End Collections.

(** ** The stored collection along a run of commands *)

Lemma mark_completed_clean task_id C :
  Forall clean_task C -> Forall clean_task (mark_completed task_id C).
Proof.
  induction 1 as [|t C Ht HC IH]; [constructor|].
  cbn [mark_completed]. destruct (Task.id t =? task_id)%Z; constructor; auto.
Qed.

Lemma without_id_clean task_id C :
  Forall clean_task C -> Forall clean_task (without_id task_id C).
Proof.
  induction 1 as [|t C Ht HC IH]; [constructor|].
  cbn [without_id filter]. destruct (negb _); [constructor|]; auto.
Qed.

Lemma mark_completed_monotone task_id C :
  Forall2 same_or_completed C (mark_completed task_id C).
Proof.
  induction C as [|t C IH]; [constructor|].
  cbn [mark_completed]. destruct (Task.id t =? task_id)%Z.
  - constructor; [repeat split | ].
    clear. induction C; constructor; [repeat split; auto | assumption].
  - constructor; [repeat split; auto | exact IH].
Qed.

Lemma collection_app C t :
  VList (map task_value C ++ [task_value t]) = collection_value (C ++ [t]).
Proof. unfold collection_value. rewrite map_app. reflexivity. Qed.

Section Invariant.
Context {F : FloatOps}.

Lemma loads_to_written o content st v :
  json_decoder.loads content = Return v ->
  loads_to (printed o (after_write content (after_read st))) v.
Proof.
  intros H. apply loads_to_iff.
  rewrite current_text_printed, current_text_after_write. exact H.
Qed.

Lemma run_step c st C :
  valid_command c -> Forall clean_task C -> loads_to st (collection_value C) ->
  exists C',
    fst (run c st) = Return tt /\
    Forall clean_task C' /\
    loads_to (snd (run c st)) (collection_value C') /\
    step_relation c C C'.
Proof.
  intros Hc HC Hst. destruct c as [d p | | task_id | task_id]; cbn [run].
  - destruct Hc as [Hd Hp].
    assert (Hn : valid_task (new_task (List.length C) d p)) by (split; assumption).
    exists (C ++ [reread_task (new_task (List.length C) d p)]).
    unfold collection_value in Hst.
    rewrite (add_task_eq st _ d p Hst), length_map, collection_app.
    cbn [fst snd].
    assert (HC' : Forall clean_task
                    (C ++ [reread_task (new_task (List.length C) d p)])).
    { apply Forall_app. split; [assumption|].
      constructor; [apply reread_task_clean; assumption | constructor]. }
    repeat split; try assumption.
    apply loads_to_written. rewrite loads_dumps_collection.
    + rewrite map_app, map_reread_task_id by assumption. reflexivity.
    + apply Forall_app. split; [|repeat constructor; assumption].
      eapply Forall_impl; [|exact HC]. intros t [Hv _]. exact Hv.
  - exists C. rewrite (list_tasks_eq st C Hst). cbn [fst snd].
    repeat split; try assumption.
    apply loads_to_iff. apply loads_to_iff in Hst. exact Hst.
  - exists (mark_completed task_id C).
    rewrite (complete_task_eq st C task_id Hst).
    pose proof (mark_completed_clean task_id C HC) as HC'.
    destruct (has_id task_id C) eqn:E; cbn [fst snd].
    + repeat split; try assumption.
      apply loads_to_written. apply loads_dumps_clean. assumption.
    + assert (Em : mark_completed task_id C = C).
      { clear -E. induction C as [|t C IH]; [reflexivity|].
        cbn [has_id existsb mark_completed] in *.
        apply orb_false_iff in E. destruct E as [E1 E2].
        rewrite E1. f_equal. apply IH. exact E2. }
      rewrite Em. repeat split; try assumption.
      * apply loads_to_iff. apply loads_to_iff in Hst. exact Hst.
      * symmetry. exact Em.
  - exists (without_id task_id C).
    rewrite (delete_task_eq st C task_id Hst). cbn [fst snd].
    pose proof (without_id_clean task_id C HC) as HC'.
    repeat split; try assumption.
    apply loads_to_written. apply loads_dumps_clean. assumption.
Qed.

Lemma loads_to_init : loads_to SimpleTaskManager.init (collection_value []).
Proof. reflexivity. Qed.

Lemma run_all_clean cs :
  Forall valid_command cs ->
  forall st C,
    Forall clean_task C -> loads_to st (collection_value C) ->
    exists C', Forall clean_task C' /\
               loads_to (run_all cs st) (collection_value C').
Proof.
  induction 1 as [|c cs Hc _ IH]; intros st C HC Hst; [eauto|].
  cbn [run_all].
  destruct (run_step c st C Hc HC Hst) as (C' & _ & HC' & Hst' & _).
  exact (IH _ C' HC' Hst').
Qed.
End Invariant.

(** ** The provider: which calls change a path *)

Lemma call_tool_keeps path tool_name arguments srv :
  writes_to path (tool_name, arguments) = false ->
  dict_get path (SimulatedMCPServer.filesystem
                   (snd (SimulatedMCPServer.call_tool tool_name arguments srv)))
  = dict_get path (SimulatedMCPServer.filesystem srv).
Proof.
  unfold writes_to, SimulatedMCPServer.call_tool. cbn [fst snd]. intros H.
  destruct (str_eqb tool_name (py "read_file")).
  { unfold bind, SimulatedMCPServer.subscript, get, ret, lift.
    destruct (dict_get (py "path") arguments); [|reflexivity].
    destruct (dict_get _ (SimulatedMCPServer.filesystem srv)); reflexivity. }
  destruct (str_eqb tool_name (py "write_file")); cbn [andb] in H.
  { unfold bind, SimulatedMCPServer.subscript, modify, ret, lift.
    destruct (dict_get (py "path") arguments) as [p|]; [|reflexivity].
    destruct (dict_get (py "content") arguments) as [c|]; [|reflexivity].
    cbn [snd SimulatedMCPServer.filesystem].
    apply dict_get_set_other. intros ->. rewrite str_eqb_refl in H.
    discriminate. }
  destruct (str_eqb tool_name (py "list_directory")); reflexivity.
Qed.

Lemma serve_keeps path calls :
  forallb (fun c => negb (writes_to path c)) calls = true ->
  forall srv,
    dict_get path (SimulatedMCPServer.filesystem (serve calls srv))
    = dict_get path (SimulatedMCPServer.filesystem srv).
Proof.
  induction calls as [|[tool_name arguments] calls IH]; intros H srv;
    [reflexivity|].
  cbn [forallb] in H. apply andb_true_iff in H. destruct H as [H1 H2].
  apply negb_true_iff in H1.
  cbn [serve]. rewrite (IH H2). apply call_tool_keeps. exact H1.
Qed.

(** ** [TaskManager] behind an arbitrary session *)

Section Session.
Context {F : FloatOps}.
Variable server : Type.
Variable session_call_tool :
  pystr -> dict pystr -> M server TaskManager.CallToolResult.

Lemma session_read_tasks_eq (st : TaskManager.state server) :
  TaskManager._read_tasks session_call_tool st =
  match TaskManager.session st with
  | None => (Return (VList []), st)
  | Some srv =>
      let (answer, srv') :=
        session_call_tool (py "read_file")
                          [(py "path", TaskManager.tasks_path)] srv in
      (Return (fail_open answer),
       {| TaskManager.session := Some srv';
          TaskManager.stdout := TaskManager.stdout st;
          TaskManager.tool_calls :=
            TaskManager.tool_calls st ++ [session_read_call] |})
  end.
Proof.
  unfold TaskManager._read_tasks, try_except, bind, TaskManager.call_tool.
  destruct (TaskManager.session st) as [srv|]; [|reflexivity].
  destruct (session_call_tool _ _ srv) as [[result|e] srv']; [|reflexivity].
  unfold fail_open, lift, ret.
  destruct (TaskManager.content result) as [|[text|] items]; try reflexivity.
  cbn [TaskManager.text_of].
  destruct (json_decoder.loads text); reflexivity.
Qed.

Lemma session_complete_task_eq (st st1 : TaskManager.state server) C task_id :
  TaskManager.session st <> None ->
  TaskManager._read_tasks session_call_tool st
  = (Return (collection_value C), st1) ->
  TaskManager.complete_task session_call_tool task_id st =
  (if has_id task_id C
   then TaskManager._write_tasks session_call_tool
          (collection_value (mark_completed task_id C)) ;;
        TaskManager.print (TaskCompleted task_id)
   else TaskManager.print (TaskNotFound task_id)) st1.
Proof.
  intros Hs Hr.
  unfold TaskManager.complete_task, TaskManager.connected.
  unfold bind at 1, get at 1.
  destruct (TaskManager.session st) as [srv|] eqn:E; [|contradiction].
  unfold bind at 1. rewrite Hr.
  unfold collection_value. unfold bind at 1, lift at 1. cbn [Py.iter].
  rewrite complete_scan_eq. cbn [List.app Py.with_items]. reflexivity.
Qed.
End Session.

(* ================================================================== *)
(** * The claims *)
(* ================================================================== *)

Lemma loads_raises_JSONDecodeError text e :
  json_decoder.loads text = Raise e -> e = JSONDecodeError.
Proof.
  unfold json_decoder.loads.
  destruct (scan_once _ _) as [v rest | |]; [destruct (skip_ws rest)|..];
    intros [= <-] || discriminate; reflexivity.
Qed.

(** C1 (as stated, refuted): a stored text that is not valid JSON makes
    [SimpleTaskManager._read_tasks] raise [JSONDecodeError], and a stored
    text that is valid JSON but not an array (here [null]) is returned as
    parsed by both managers, not replaced by the empty list. *)
Lemma load_fails_open_counterexample :
  stored (store_holding (py "oops")) = Some (py "oops") /\
  (forall items, json_decoder.loads (py "oops") <> Return (VList items)) /\
  fst (SimpleTaskManager._read_tasks (store_holding (py "oops")))
  = Raise JSONDecodeError /\
  (forall items, json_decoder.loads (py "null") <> Return (VList items)) /\
  fst (SimpleTaskManager._read_tasks (store_holding (py "null")))
  = Return VNone /\
  fst (TaskManager._read_tasks (text_session (py "null")) connected_manager)
  = Return VNone.
Proof.
  repeat split; try reflexivity; intros items; vm_compute; discriminate.
Qed.

(** C1 (amended): [TaskManager._read_tasks] never raises: it returns the
    empty list when there is no session, when the provider call raises,
    when the first content item has no text, and when the text is not valid
    JSON; a text that is valid JSON is returned as parsed, whatever its
    type.  [SimpleTaskManager._read_tasks] returns exactly what
    [json.loads] makes of the stored text (of ["[]"] when nothing is
    stored): the parsed value whatever its type, or the [JSONDecodeError],
    which propagates.  What is said of a text is said of a text within the
    interpreter's limits: no run of more than 4300 digits, nothing nested
    deeper than [max_nesting]. *)
Theorem read_tasks_fail_open
    (server : Type)
    (session_call_tool : pystr -> dict pystr -> M server TaskManager.CallToolResult)
    (rst : TaskManager.state server) (st : SimpleTaskManager.state) :
  (exists v, fst (TaskManager._read_tasks session_call_tool rst) = Return v) /\
  match TaskManager.session rst with
  | None =>
      fst (TaskManager._read_tasks session_call_tool rst) = Return (VList [])
  | Some srv =>
      match fst (session_call_tool (py "read_file")
                   [(py "path", TaskManager.tasks_path)] srv) with
      | Raise _ =>
          fst (TaskManager._read_tasks session_call_tool rst)
          = Return (VList [])
      | Return result =>
          match TaskManager.content result with
          | [] | TaskManager.OtherContent :: _ =>
              fst (TaskManager._read_tasks session_call_tool rst)
              = Return (VList [])
          | TaskManager.TextContent text :: _ =>
              text_within_limits text = true ->
              fst (TaskManager._read_tasks session_call_tool rst)
              = Return match json_decoder.loads text with
                       | Return v => v
                       | Raise _ => VList []
                       end
          end
      end
  end /\
  (text_within_limits (current_text st) = true ->
   fst (SimpleTaskManager._read_tasks st)
   = match stored st with
     | None => Return (VList [])
     | Some content => json_decoder.loads content
     end /\
   (forall e, fst (SimpleTaskManager._read_tasks st) = Raise e ->
              e = JSONDecodeError)).
Proof.
  split; [|split].
  - rewrite session_read_tasks_eq.
    destruct (TaskManager.session rst) as [srv|]; [|eexists; reflexivity].
    destruct (session_call_tool _ _ srv). eexists. reflexivity.
  - rewrite session_read_tasks_eq.
    destruct (TaskManager.session rst) as [srv|]; [|reflexivity].
    destruct (session_call_tool _ _ srv) as [[result|e] srv'];
      cbn [fst fail_open]; [|reflexivity].
    destruct (TaskManager.content result) as [|[text|] items];
      [reflexivity | intros _; reflexivity | reflexivity].
  - intros _. rewrite read_tasks_eq. unfold current_text. cbn [fst]. split.
    + destruct (stored st); reflexivity.
    + intros e. apply loads_raises_JSONDecodeError.
Qed.

Lemma read_tasks_fail_open_witness :
  text_within_limits (py "null") = true /\
  fst (TaskManager._read_tasks (text_session (py "null")) connected_manager)
  = Return VNone /\
  text_within_limits (current_text (store_holding (py "[1, 2"))) = true /\
  fst (SimpleTaskManager._read_tasks (store_holding (py "[1, 2")))
  = Raise JSONDecodeError.
Proof.
  assert (L1 : text_within_limits (py "null") = true) by reflexivity.
  assert (L2 : text_within_limits (current_text (store_holding (py "[1, 2")))
               = true) by reflexivity.
  split; [exact L1|]. split.
  - exact (proj1 (proj2 (read_tasks_fail_open unit (text_session (py "null"))
                           connected_manager SimpleTaskManager.init)) L1).
  - split; [exact L2|].
    exact (proj1 (proj2 (proj2 (read_tasks_fail_open unit
                                  (text_session (py "null"))
                                  connected_manager
                                  (store_holding (py "[1, 2")))) L2)).
Defined.

(** C2: when the stored list has N items, whatever they are, [add_task]
    reads it, appends a task with id N+1 (not completed) and writes the
    longer list back; so after add, add, delete(1) the store holds exactly
    the task with id 2, and the next add stores a second task with id 2. *)
Theorem add_task_assigns_next_id {F : FloatOps}
    (st : SimpleTaskManager.state) (items : list value)
    (description priority : pystr) :
  loads_to st (VList items) ->
  SimpleTaskManager.add_task description priority st
  = (Return tt,
     {| SimpleTaskManager.mcp_server :=
          wrote (json_encoder.dumps
                   (VList (items ++
                           [VDict [(py "id", VInt (Z.of_nat (List.length items) + 1));
                                   (py "description", VStr description);
                                   (py "priority", VStr priority);
                                   (py "completed", VBool false)]]))) st;
        SimpleTaskManager.stdout :=
          SimpleTaskManager.stdout st ++ [TaskAdded description priority];
        SimpleTaskManager.tool_calls :=
          SimpleTaskManager.tool_calls st ++
          [read_call;
           write_call
             (json_encoder.dumps
                (VList (items ++
                        [VDict [(py "id", VInt (Z.of_nat (List.length items) + 1));
                                (py "description", VStr description);
                                (py "priority", VStr priority);
                                (py "completed", VBool false)]])))] |}) /\
  loads_to (run_all [Add (py "Write spec") (py "high");
                     Add (py "Review") (py "low");
                     Delete 1] SimpleTaskManager.init)
           (collection_value [review_task]) /\
  loads_to (run_all [Add (py "Write spec") (py "high");
                     Add (py "Review") (py "low");
                     Delete 1;
                     Add (py "X") (py "medium")] SimpleTaskManager.init)
           (collection_value [review_task; x_task]).
Proof.
  intros H. split; [|split].
  - rewrite (add_task_eq st items description priority H).
    unfold printed, after_write, after_read. cbn.
    rewrite <- List.app_assoc. reflexivity.
  - vm_compute. reflexivity.
  - vm_compute. reflexivity.
Qed.

Lemma add_task_assigns_next_id_witness :
  loads_to SimpleTaskManager.init (VList []) /\
  fst (SimpleTaskManager.add_task (F := no_floats) (py "Write spec") (py "high")
         SimpleTaskManager.init) = Return tt.
Proof.
  split; [reflexivity|].
  rewrite (proj1 (add_task_assigns_next_id (F := no_floats)
                    SimpleTaskManager.init [] (py "Write spec") (py "high")
                    eq_refl)).
  reflexivity.
Defined.

(** C3 (as stated, refuted): a task whose description is the two code
    points U+D83D U+DE80 is written as the escapes of a surrogate pair and
    read back with the single code point U+1F680 as its description. *)
Lemma save_load_counterexample :
  valid_task surrogate_task /\
  fst (SimpleTaskManager._read_tasks
         (snd (SimpleTaskManager._write_tasks (F := no_floats)
                 (collection_value [surrogate_task]) SimpleTaskManager.init)))
  <> Return (collection_value [surrogate_task]).
Proof.
  split.
  - split; repeat constructor.
  - vm_compute. discriminate.
Qed.

(** C3 (amended): for every collection whose ids have at most 4300
    digits, whose descriptions and priorities are made of code points and
    in which no high surrogate is directly followed by a low surrogate,
    [_write_tasks] followed by [_read_tasks] returns the collection: same
    ids, descriptions, priorities and completion flags, in the same order.
    Without the last condition the texts come back with each such pair
    joined. *)
Theorem save_load_round_trip {F : FloatOps}
    (st : SimpleTaskManager.state) (C : list Task.t) :
  Forall (fun t => int_within_limit (Task.id t) = true) C ->
  Forall valid_task C ->
  fst (SimpleTaskManager._write_tasks (collection_value C) st) = Return tt /\
  fst (SimpleTaskManager._read_tasks
         (snd (SimpleTaskManager._write_tasks (collection_value C) st)))
  = Return (collection_value (map reread_task C)) /\
  (Forall pair_free_task C ->
   fst (SimpleTaskManager._read_tasks
          (snd (SimpleTaskManager._write_tasks (collection_value C) st)))
   = Return (collection_value C)).
Proof.
  intros _ HC. rewrite write_tasks_eq. cbn [fst snd].
  rewrite read_tasks_eq, current_text_after_write. cbn [fst].
  split; [reflexivity|]. split.
  - apply loads_dumps_collection. assumption.
  - intros HP. apply loads_dumps_clean.
    clear st. induction HC as [|t C Ht _ IH]; [constructor|].
    inversion HP; subst. constructor; [split; assumption | auto].
Qed.

Lemma save_load_round_trip_witness :
  Forall (fun t => int_within_limit (Task.id t) = true)
         [write_spec_task; review_task] /\
  Forall valid_task [write_spec_task; review_task] /\
  Forall pair_free_task [write_spec_task; review_task] /\
  fst (SimpleTaskManager._read_tasks
         (snd (SimpleTaskManager._write_tasks (F := no_floats)
                 (collection_value [write_spec_task; review_task])
                 SimpleTaskManager.init)))
  = Return (collection_value [write_spec_task; review_task]).
Proof.
  assert (L : Forall (fun t => int_within_limit (Task.id t) = true)
                     [write_spec_task; review_task])
    by (repeat constructor).
  assert (V : Forall valid_task [write_spec_task; review_task])
    by (repeat (constructor || split)).
  assert (P : Forall pair_free_task [write_spec_task; review_task])
    by (repeat (constructor || split)).
  split; [exact L|]. split; [exact V|]. split; [exact P|].
  exact (proj2 (proj2 (save_load_round_trip (F := no_floats)
                         SimpleTaskManager.init
                         [write_spec_task; review_task] L V)) P).
Defined.

(** C4: on a stored collection, [complete_task] with an id no task has
    returns without raising, prints the not-found line, and issues the
    [read_file] call only, so the server and what it stores are unchanged;
    with an id some task has, it writes back the collection in which the
    first task with that id has [completed = True] and prints the
    completed line.  [TaskManager.complete_task], once connected, does the
    same with its provider: after the [read_file] call, the not-found line
    and no other call; or one [write_file] call carrying that collection,
    and the completed line once the call has returned. *)
Theorem complete_task_first_match {F : FloatOps}
    (st : SimpleTaskManager.state) (C : list Task.t) (task_id : Z)
    (server : Type)
    (session_call_tool : pystr -> dict pystr -> M server TaskManager.CallToolResult)
    (rst : TaskManager.state server) (srv srv1 srv2 : server)
    (answer w : outcome TaskManager.CallToolResult) :
  loads_to st (collection_value C) ->
  TaskManager.session rst = Some srv ->
  session_call_tool (py "read_file") [(py "path", TaskManager.tasks_path)] srv
  = (answer, srv1) ->
  fail_open answer = collection_value C ->
  session_call_tool (py "write_file")
    [(py "path", TaskManager.tasks_path);
     (py "content",
      json_encoder.dumps (collection_value (mark_completed task_id C)))] srv1
  = (w, srv2) ->
  SimpleTaskManager.complete_task task_id st
  = (if existsb (fun t => (Task.id t =? task_id)%Z) C
     then
       (Return tt,
        {| SimpleTaskManager.mcp_server :=
             wrote (json_encoder.dumps
                      (collection_value (mark_completed task_id C))) st;
           SimpleTaskManager.stdout :=
             SimpleTaskManager.stdout st ++ [TaskCompleted task_id];
           SimpleTaskManager.tool_calls :=
             SimpleTaskManager.tool_calls st ++
             [read_call;
              write_call (json_encoder.dumps
                            (collection_value (mark_completed task_id C)))] |})
     else
       (Return tt,
        {| SimpleTaskManager.mcp_server := SimpleTaskManager.mcp_server st;
           SimpleTaskManager.stdout :=
             SimpleTaskManager.stdout st ++ [TaskNotFound task_id];
           SimpleTaskManager.tool_calls :=
             SimpleTaskManager.tool_calls st ++ [read_call] |})) /\
  TaskManager.complete_task session_call_tool task_id rst
  = (if existsb (fun t => (Task.id t =? task_id)%Z) C
     then
       (match w with Return _ => Return tt | Raise e => Raise e end,
        {| TaskManager.session := Some srv2;
           TaskManager.stdout :=
             TaskManager.stdout rst
             ++ match w with
                | Return _ => [TaskCompleted task_id]
                | Raise _ => []
                end;
           TaskManager.tool_calls :=
             TaskManager.tool_calls rst ++
             [(py "read_file", [(py "path", TaskManager.tasks_path)]);
              (py "write_file",
               [(py "path", TaskManager.tasks_path);
                (py "content",
                 json_encoder.dumps
                   (collection_value (mark_completed task_id C)))])] |})
     else
       (Return tt,
        {| TaskManager.session := Some srv1;
           TaskManager.stdout :=
             TaskManager.stdout rst ++ [TaskNotFound task_id];
           TaskManager.tool_calls :=
             TaskManager.tool_calls rst ++
             [(py "read_file", [(py "path", TaskManager.tasks_path)])] |})).
Proof.
  intros H Hs Hr Hv Hw. split.
  - rewrite (complete_task_eq st C task_id H). unfold has_id.
    destruct (existsb _ C); unfold printed, after_write, after_read; cbn;
      rewrite <- ?List.app_assoc; reflexivity.
  - assert (Hread : TaskManager._read_tasks session_call_tool rst
                    = (Return (collection_value C),
                       session_after_read srv1 rst)).
    { rewrite session_read_tasks_eq, Hs, Hr, Hv. reflexivity. }
    assert (Hc : TaskManager.session rst <> None) by (rewrite Hs; discriminate).
    rewrite (session_complete_task_eq server session_call_tool rst
               (session_after_read srv1 rst) C task_id Hc Hread).
    unfold has_id. destruct (existsb _ C).
    + unfold TaskManager._write_tasks, TaskManager.call_tool, bind, ret.
      cbv beta. cbn [TaskManager.session session_after_read]. rewrite Hw.
      destruct w as [r|e]; unfold TaskManager.print, modify;
        cbn [TaskManager.session TaskManager.stdout TaskManager.tool_calls
             session_after_read];
        rewrite <- ?List.app_assoc, ?List.app_nil_r; reflexivity.
    + unfold TaskManager.print, modify.
      cbn [TaskManager.session TaskManager.stdout TaskManager.tool_calls
           session_after_read].
      reflexivity.
Qed.

Lemma complete_task_first_match_witness :
  loads_to (store_holding (json_encoder.dumps (F := no_floats)
                             (collection_value [write_spec_task; review_task])))
           (collection_value [write_spec_task; review_task]) /\
  fst (SimpleTaskManager.complete_task (F := no_floats) 7
         (store_holding (json_encoder.dumps (F := no_floats)
                           (collection_value [write_spec_task; review_task]))))
  = Return tt /\
  snd (TaskManager.complete_task (F := no_floats)
         (text_session (json_encoder.dumps (F := no_floats)
                          (collection_value [write_spec_task; review_task])))
         2 connected_manager)
  = {| TaskManager.session := Some tt;
       TaskManager.stdout := [TaskCompleted 2];
       TaskManager.tool_calls :=
         [session_read_call;
          session_write_call
            (json_encoder.dumps (F := no_floats)
               (collection_value
                  [write_spec_task;
                   {| Task.id := 2;
                      Task.description := py "Review";
                      Task.priority := py "low";
                      Task.completed := true |}]))] |}.
Proof.
  assert (H : loads_to
                (store_holding (json_encoder.dumps (F := no_floats)
                                  (collection_value [write_spec_task; review_task])))
                (collection_value [write_spec_task; review_task]))
    by (vm_compute; reflexivity).
  assert (Hv : fail_open
                 (Return {| TaskManager.content :=
                              [TaskManager.TextContent
                                 (json_encoder.dumps (F := no_floats)
                                    (collection_value
                                       [write_spec_task; review_task]))] |})
               = collection_value [write_spec_task; review_task])
    by (vm_compute; reflexivity).
  pose proof
    (fun task_id =>
       complete_task_first_match (F := no_floats) _
         [write_spec_task; review_task] task_id unit
         (text_session (json_encoder.dumps (F := no_floats)
                          (collection_value [write_spec_task; review_task])))
         connected_manager tt tt tt _ _ H eq_refl eq_refl Hv eq_refl) as T.
  split; [exact H|]. split.
  - rewrite (proj1 (T 7%Z)). reflexivity.
  - rewrite (proj2 (T 2%Z)). reflexivity.
Defined.




(** C6: after any sequence of tool calls from a fresh server none of which
    is a [write_file] to [path], whatever was written elsewhere,
    [read_file] of [path] returns the result with content ["[]"], not an
    error, and leaves the server as it is; and when no call wrote to the
    tasks path, [_read_tasks] returns the empty list. *)
Theorem read_file_absent_path
    (calls : list call) (path : pystr)
    (out : list output) (log : list call) :
  (forallb (fun c => negb (writes_to path c)) calls = true ->
   SimulatedMCPServer.call_tool (py "read_file") [(py "path", path)]
     (serve calls SimulatedMCPServer.init)
   = (Return [(py "content", VStr (py "[]"))],
      serve calls SimulatedMCPServer.init)) /\
  (forallb (fun c => negb (writes_to SimpleTaskManager.tasks_file c)) calls
   = true ->
   fst (SimpleTaskManager._read_tasks
          {| SimpleTaskManager.mcp_server := serve calls SimulatedMCPServer.init;
             SimpleTaskManager.stdout := out;
             SimpleTaskManager.tool_calls := log |})
   = Return (VList [])).
Proof.
  split.
  - intros H1. rewrite (call_tool_read_file _ path) by reflexivity.
    rewrite (serve_keeps path calls H1). reflexivity.
  - intros H2. rewrite read_tasks_eq. unfold current_text, stored.
    cbn [SimpleTaskManager.mcp_server fst].
    rewrite (serve_keeps _ calls H2). reflexivity.
Qed.

Lemma read_file_absent_path_witness :
  forallb (fun c => negb (writes_to (py "notes.txt") c))
          [(py "write_file",
            [(py "path", py "tasks.json"); (py "content", py "[1]")]);
           (py "list_directory", []);
           (py "read_file", [(py "path", py "notes.txt")])] = true /\
  forallb (fun c => negb (writes_to SimpleTaskManager.tasks_file c))
          [(py "write_file",
            [(py "path", py "tasks.json"); (py "content", py "[1]")]);
           (py "list_directory", []);
           (py "read_file", [(py "path", py "notes.txt")])] = false /\
  fst (SimulatedMCPServer.call_tool (py "read_file") [(py "path", py "notes.txt")]
         (serve [(py "write_file",
                  [(py "path", py "tasks.json"); (py "content", py "[1]")]);
                 (py "list_directory", []);
                 (py "read_file", [(py "path", py "notes.txt")])]
                SimulatedMCPServer.init))
  = Return [(py "content", VStr (py "[]"))] /\
  fst (SimpleTaskManager._read_tasks
         {| SimpleTaskManager.mcp_server :=
              serve [(py "read_file", [(py "path", py "tasks.json")])]
                    SimulatedMCPServer.init;
            SimpleTaskManager.stdout := [];
            SimpleTaskManager.tool_calls := [] |})
  = Return (VList []).
Proof.
  split; [reflexivity|]. split; [reflexivity|]. split.
  - exact (f_equal fst
             (proj1 (read_file_absent_path
                       [(py "write_file",
                         [(py "path", py "tasks.json");
                          (py "content", py "[1]")]);
                        (py "list_directory", []);
                        (py "read_file", [(py "path", py "notes.txt")])]
                       (py "notes.txt") [] []) eq_refl)).
  - exact (proj2 (read_file_absent_path
                    [(py "read_file", [(py "path", py "tasks.json")])]
                    (py "notes.txt") [] []) eq_refl).
Defined.

(** C7: in every state reached from a fresh manager by add, list,
    complete and delete commands, the store holds a collection of tasks,
    and each further command returns without raising and leaves a
    collection in which no task that survives has gone from completed to
    not completed: add appends one task and list changes nothing, complete
    keeps every task in place with the same id, description and priority
    and a completed flag that is still true where it was true, delete
    keeps the other tasks exactly as they were. *)
Theorem completed_never_reverts {F : FloatOps}
    (cs : list command) (c : command) :
  Forall valid_command cs ->
  valid_command c ->
  exists C C',
    loads_to (run_all cs SimpleTaskManager.init) (collection_value C) /\
    fst (run c (run_all cs SimpleTaskManager.init)) = Return tt /\
    loads_to (snd (run c (run_all cs SimpleTaskManager.init)))
             (collection_value C') /\
    match c with
    | Add _ _ => exists t, C' = C ++ [t] /\ Task.completed t = false
    | List => C' = C
    | Complete _ => Forall2 same_or_completed C C'
    | Delete task_id =>
        C' = filter (fun t => negb (Task.id t =? task_id)%Z) C
    end.
Proof.
  intros Hcs Hc.
  destruct (run_all_clean cs Hcs SimpleTaskManager.init [] (Forall_nil _)
                          loads_to_init) as (C & HC & Hst).
  destruct (run_step c _ C Hc HC Hst) as (C' & Hr & _ & Hst' & Hrel).
  exists C, C'. repeat split; try assumption.
  destruct c as [d p | | task_id | task_id]; cbn [step_relation] in Hrel.
  - eexists. split; [exact Hrel | reflexivity].
  - exact Hrel.
  - rewrite Hrel. apply mark_completed_monotone.
  - exact Hrel.
Qed.

Lemma completed_never_reverts_witness :
  Forall valid_command [Add (py "Write spec") (py "high");
                        Add (py "Review") (py "low");
                        Complete 1] /\
  valid_command (Complete 1) /\
  exists C C',
    loads_to (run_all (F := no_floats)
                [Add (py "Write spec") (py "high");
                 Add (py "Review") (py "low");
                 Complete 1] SimpleTaskManager.init) (collection_value C) /\
    fst (run (F := no_floats) (Complete 1)
           (run_all (F := no_floats)
              [Add (py "Write spec") (py "high");
               Add (py "Review") (py "low");
               Complete 1] SimpleTaskManager.init)) = Return tt /\
    loads_to (snd (run (F := no_floats) (Complete 1)
                     (run_all (F := no_floats)
                        [Add (py "Write spec") (py "high");
                         Add (py "Review") (py "low");
                         Complete 1] SimpleTaskManager.init)))
             (collection_value C') /\
    Forall2 same_or_completed C C'.
Proof.
  assert (V : Forall valid_command [Add (py "Write spec") (py "high");
                                    Add (py "Review") (py "low");
                                    Complete 1])
    by (repeat (constructor || split)).
  split; [exact V|]. split; [exact I|].
  exact (completed_never_reverts (F := no_floats) _ (Complete 1) V I).
Defined.

(** C8: for every tool name other than [read_file], [write_file] and
    [list_directory], [call_tool] returns (it does not raise) the result
    whose only field is ["error"], with the message naming the tool, and
    the server, its file system included, is unchanged. *)
Theorem unknown_tool_error_result
    (tool_name : pystr) (arguments : dict pystr) (srv : SimulatedMCPServer.t) :
  ~ In tool_name known_tools ->
  SimulatedMCPServer.call_tool tool_name arguments srv
  = (Return [(py "error", VStr (py "Unknown tool: " ++ tool_name))], srv).
Proof.
  intros H. unfold SimulatedMCPServer.call_tool, known_tools in *.
  cbn [In] in H.
  rewrite !str_eqb_neq by (intros E; apply H; rewrite E; tauto).
  reflexivity.
Qed.

Lemma unknown_tool_error_result_witness :
  ~ In (py "delete_file") known_tools /\
  SimulatedMCPServer.call_tool (py "delete_file")
    [(py "path", py "tasks.json")] SimulatedMCPServer.init
  = (Return [(py "error", VStr (py "Unknown tool: delete_file"))],
     SimulatedMCPServer.init).
Proof.
  assert (H : ~ In (py "delete_file") known_tools).
  { intros [E | [E | [E | []]]]; discriminate E. }
  split; [exact H|].
  exact (unknown_tool_error_result (py "delete_file")
           [(py "path", py "tasks.json")] SimulatedMCPServer.init H).
Defined.

(** C9: on a stored collection, [delete_task] writes back the collection
    filtered by "id differs from the given id": every task with the id is
    dropped, however many there are, and the others stay as they were, in
    their order. *)
Theorem delete_task_filters {F : FloatOps}
    (st : SimpleTaskManager.state) (C : list Task.t) (task_id : Z) :
  loads_to st (collection_value C) ->
  SimpleTaskManager.delete_task task_id st
  = (Return tt,
     {| SimpleTaskManager.mcp_server :=
          wrote (json_encoder.dumps
                   (collection_value
                      (filter (fun t => negb (Task.id t =? task_id)%Z) C))) st;
        SimpleTaskManager.stdout :=
          SimpleTaskManager.stdout st ++ [TaskDeleted task_id];
        SimpleTaskManager.tool_calls :=
          SimpleTaskManager.tool_calls st ++
          [read_call;
           write_call
             (json_encoder.dumps
                (collection_value
                   (filter (fun t => negb (Task.id t =? task_id)%Z) C)))] |}).
Proof.
  intros H. rewrite (delete_task_eq st C task_id H).
  unfold printed, after_write, after_read, without_id. cbn.
  rewrite <- List.app_assoc. reflexivity.
Qed.

Lemma delete_task_filters_witness :
  loads_to (store_holding (json_encoder.dumps (F := no_floats)
                             (collection_value [review_task; x_task; write_spec_task])))
           (collection_value [review_task; x_task; write_spec_task]) /\
  stored (snd (SimpleTaskManager.delete_task (F := no_floats) 2
                 (store_holding
                    (json_encoder.dumps (F := no_floats)
                       (collection_value [review_task; x_task; write_spec_task])))))
  = Some (json_encoder.dumps (F := no_floats) (collection_value [write_spec_task])).
Proof.
  assert (H : loads_to
                (store_holding
                   (json_encoder.dumps (F := no_floats)
                      (collection_value [review_task; x_task; write_spec_task])))
                (collection_value [review_task; x_task; write_spec_task]))
    by (vm_compute; reflexivity).
  split; [exact H|].
  rewrite (delete_task_filters (F := no_floats) _ _ 2%Z H).
  vm_compute. reflexivity.
Defined.

(** C10: [call_tool] raises [KeyError] when [read_file] is called without
    a ["path"] argument and when [write_file] is called without a ["path"]
    or without a ["content"] argument, leaving the server unchanged; a
    known tool never returns a result with an ["error"] field, so that
    field is returned for unknown tool names only. *)
Theorem malformed_arguments_raise_KeyError
    (arguments : dict pystr) (srv : SimulatedMCPServer.t) :
  (dict_get (py "path") arguments = None ->
   SimulatedMCPServer.call_tool (py "read_file") arguments srv
   = (Raise (KeyError (py "path")), srv) /\
   SimulatedMCPServer.call_tool (py "write_file") arguments srv
   = (Raise (KeyError (py "path")), srv)) /\
  (dict_get (py "path") arguments <> None ->
   dict_get (py "content") arguments = None ->
   SimulatedMCPServer.call_tool (py "write_file") arguments srv
   = (Raise (KeyError (py "content")), srv)) /\
  (forall tool_name result,
      In tool_name known_tools ->
      fst (SimulatedMCPServer.call_tool tool_name arguments srv) = Return result ->
      dict_get (py "error") result = None).
Proof.
  split; [|split].
  - intros H. unfold SimulatedMCPServer.call_tool.
    change (str_eqb (py "read_file") (py "read_file")) with true.
    change (str_eqb (py "write_file") (py "read_file")) with false.
    change (str_eqb (py "write_file") (py "write_file")) with true.
    cbv iota. unfold bind, SimulatedMCPServer.subscript, lift.
    rewrite H. split; reflexivity.
  - intros Hp Hc. unfold SimulatedMCPServer.call_tool.
    change (str_eqb (py "write_file") (py "read_file")) with false.
    change (str_eqb (py "write_file") (py "write_file")) with true.
    cbv iota. unfold bind, SimulatedMCPServer.subscript, lift, ret.
    destruct (dict_get (py "path") arguments); [|contradiction].
    rewrite Hc. reflexivity.
  - intros tool_name result Hk. unfold known_tools in Hk. cbn [In] in Hk.
    destruct Hk as [<- | [<- | [<- | []]]];
      unfold SimulatedMCPServer.call_tool;
      repeat match goal with
        | |- context [str_eqb (py ?a) (py ?b)] =>
            let b' := eval vm_compute in (str_eqb (py a) (py b)) in
            change (str_eqb (py a) (py b)) with b'
        end; cbv iota;
      unfold bind, SimulatedMCPServer.subscript, lift, ret, get, modify;
      repeat match goal with
        | |- context [match dict_get ?k ?d with _ => _ end] =>
            destruct (dict_get k d)
        end; cbn [fst]; intros E; try discriminate E;
      injection E as <-; reflexivity.
Qed.

Lemma malformed_arguments_raise_KeyError_witness :
  dict_get (py "path") [(py "content", py "[]")] = None /\
  SimulatedMCPServer.call_tool (py "write_file") [(py "content", py "[]")]
    SimulatedMCPServer.init
  = (Raise (KeyError (py "path")), SimulatedMCPServer.init) /\
  dict_get (py "path") [(py "path", py "tasks.json")] <> None /\
  dict_get (py "content") [(py "path", py "tasks.json")] = None /\
  SimulatedMCPServer.call_tool (py "write_file") [(py "path", py "tasks.json")]
    SimulatedMCPServer.init
  = (Raise (KeyError (py "content")), SimulatedMCPServer.init) /\
  In (py "list_directory") known_tools /\
  dict_get (py "error") [(py "files", VList [])] = None.
Proof.
  assert (Hp : dict_get (py "path") [(py "path", py "tasks.json")] <> None)
    by discriminate.
  assert (Hk : In (py "list_directory") known_tools)
    by (right; right; left; reflexivity).
  split; [reflexivity|]. split.
  - exact (proj2 (proj1 (malformed_arguments_raise_KeyError
                           [(py "content", py "[]")] SimulatedMCPServer.init)
                        eq_refl)).
  - split; [exact Hp|]. split; [reflexivity|]. split.
    + exact (proj1 (proj2 (malformed_arguments_raise_KeyError
                             [(py "path", py "tasks.json")]
                             SimulatedMCPServer.init)) Hp eq_refl).
    + split; [exact Hk|].
      exact (proj2 (proj2 (malformed_arguments_raise_KeyError
                             [] SimulatedMCPServer.init))
                   (py "list_directory") [(py "files", VList [])] Hk eq_refl).
Defined.

(* ================================================================== *)
(** * Further properties: the provider *)
(* ================================================================== *)

Lemma serve_app calls1 calls2 srv :
  serve (calls1 ++ calls2) srv = serve calls2 (serve calls1 srv).
Proof.
  revert srv. induction calls1 as [|[tool_name arguments] calls1 IH];
    intros srv; [reflexivity|].
  cbn [List.app serve]. apply IH.
Qed.

Lemma call_tool_no_effect tool_name arguments srv :
  effective_write (tool_name, arguments) = false ->
  snd (SimulatedMCPServer.call_tool tool_name arguments srv) = srv.
Proof.
  unfold effective_write, SimulatedMCPServer.call_tool. cbn [fst snd].
  intros H.
  destruct (str_eqb tool_name (py "read_file")).
  { unfold bind, SimulatedMCPServer.subscript, get, ret, lift.
    destruct (dict_get (py "path") arguments); [|reflexivity].
    destruct (dict_get _ (SimulatedMCPServer.filesystem srv)); reflexivity. }
  destruct (str_eqb tool_name (py "write_file")); cbn [andb] in H.
  { unfold bind, SimulatedMCPServer.subscript, modify, ret, lift.
    destruct (dict_get (py "path") arguments) as [p|]; [|reflexivity].
    destruct (dict_get (py "content") arguments) as [c|];
      [discriminate | reflexivity]. }
  destruct (str_eqb tool_name (py "list_directory")); reflexivity.
Qed.

Lemma effective_write_inv tool_name arguments :
  effective_write (tool_name, arguments) = true ->
  tool_name = py "write_file" /\
  exists path content,
    dict_get (py "path") arguments = Some path /\
    dict_get (py "content") arguments = Some content.
Proof.
  unfold effective_write. cbn [fst snd]. intros H.
  apply andb_true_iff in H. destruct H as [H1 H2].
  apply str_eqb_eq in H1. split; [exact H1|].
  destruct (dict_get (py "path") arguments) as [p|]; [|discriminate].
  destruct (dict_get (py "content") arguments) as [c|]; [|discriminate].
  eauto.
Qed.

Lemma dict_keys_set V (k : pystr) (v : V) d :
  dict_keys (dict_set k v d) =
  if existsb (str_eqb k) (dict_keys d) then dict_keys d else dict_keys d ++ [k].
Proof.
  unfold dict_keys.
  induction d as [|[k' v'] d IH]; cbn [dict_set map fst existsb]; [reflexivity|].
  destruct (str_eqb k k') eqn:E; cbn [orb map fst]; [reflexivity|].
  rewrite IH. destruct (existsb (str_eqb k) (map fst d)); reflexivity.
Qed.

Lemma existsb_str_eqb k l : existsb (str_eqb k) l = true <-> In k l.
Proof.
  rewrite existsb_exists. split.
  - intros (x & Hx & E). apply str_eqb_eq in E. subst. exact Hx.
  - intros H. exists k. split; [exact H | apply str_eqb_refl].
Qed.

Lemma dict_keys_set_NoDup V (k : pystr) (v : V) d :
  NoDup (dict_keys d) -> NoDup (dict_keys (dict_set k v d)).
Proof.
  intros H. rewrite dict_keys_set.
  destruct (existsb (str_eqb k) (dict_keys d)) eqn:E; [exact H|].
  apply NoDup_app; [exact H | repeat constructor; intros [] | ].
  intros x Hx [<- | []].
  apply existsb_str_eqb in Hx. rewrite Hx in E. discriminate.
Qed.

Lemma dict_keys_set_In V (k : pystr) (v : V) d p :
  In p (dict_keys (dict_set k v d)) <-> p = k \/ In p (dict_keys d).
Proof.
  rewrite dict_keys_set.
  destruct (existsb (str_eqb k) (dict_keys d)) eqn:E.
  - apply existsb_str_eqb in E. split; [auto | intros [-> | H]; assumption].
  - rewrite in_app_iff. cbn [In]. split.
    + intros [H | [<- | []]]; auto.
    + intros [-> | H]; auto.
Qed.

Lemma call_tool_keeps_unless_stored path tool_name arguments srv :
  stores_at path (tool_name, arguments) = false ->
  dict_get path (SimulatedMCPServer.filesystem
                   (snd (SimulatedMCPServer.call_tool tool_name arguments srv)))
  = dict_get path (SimulatedMCPServer.filesystem srv).
Proof.
  unfold stores_at. intros H.
  destruct (effective_write (tool_name, arguments)) eqn:E.
  - apply call_tool_keeps. exact H.
  - rewrite (call_tool_no_effect _ _ _ E). reflexivity.
Qed.

Lemma serve_keeps_unless_stored path calls :
  forallb (fun c => negb (stores_at path c)) calls = true ->
  forall srv,
    dict_get path (SimulatedMCPServer.filesystem (serve calls srv))
    = dict_get path (SimulatedMCPServer.filesystem srv).
Proof.
  induction calls as [|[tool_name arguments] calls IH]; intros H srv;
    [reflexivity|].
  cbn [forallb] in H. apply andb_true_iff in H. destruct H as [H1 H2].
  apply negb_true_iff in H1.
  cbn [serve]. rewrite (IH H2). apply call_tool_keeps_unless_stored. exact H1.
Qed.

(** X1: the last [write_file] to a path wins: whatever calls came before
    it, and whatever calls that store nothing at the path come after it
    (reads, listings, unknown tools, writes to other paths, writes that
    lack an argument), [read_file] of the path returns the content of that
    write and leaves the server as it is. *)
Theorem read_file_last_write_wins
    (before after : list call) (arguments : dict pystr)
    (path content : pystr) (srv : SimulatedMCPServer.t) :
  dict_get (py "path") arguments = Some path ->
  dict_get (py "content") arguments = Some content ->
  forallb (fun c => negb (stores_at path c)) after = true ->
  SimulatedMCPServer.call_tool (py "read_file") [(py "path", path)]
    (serve (before ++ (py "write_file", arguments) :: after) srv)
  = (Return [(py "content", VStr content)],
     serve (before ++ (py "write_file", arguments) :: after) srv).
Proof.
  intros Hp Hc Ha.
  rewrite (call_tool_read_file _ path) by reflexivity.
  rewrite serve_app. cbn [serve].
  rewrite (serve_keeps_unless_stored path after Ha).
  rewrite (call_tool_write_file arguments path content _ Hp Hc).
  cbn [snd SimulatedMCPServer.filesystem].
  rewrite dict_get_set_same. reflexivity.
Qed.

Lemma read_file_last_write_wins_witness :
  dict_get (py "path") [(py "path", py "a.txt"); (py "content", py "new")]
  = Some (py "a.txt") /\
  dict_get (py "content") [(py "path", py "a.txt"); (py "content", py "new")]
  = Some (py "new") /\
  forallb (fun c => negb (stores_at (py "a.txt") c))
          [(py "write_file", [(py "path", py "b.txt"); (py "content", py "B")]);
           (py "write_file", [(py "path", py "a.txt")]);
           (py "list_directory", [])] = true /\
  fst (SimulatedMCPServer.call_tool (py "read_file") [(py "path", py "a.txt")]
         (serve ([(py "write_file",
                   [(py "path", py "a.txt"); (py "content", py "old")])]
                 ++ (py "write_file",
                     [(py "path", py "a.txt"); (py "content", py "new")])
                 :: [(py "write_file",
                      [(py "path", py "b.txt"); (py "content", py "B")]);
                     (py "write_file", [(py "path", py "a.txt")]);
                     (py "list_directory", [])])
                SimulatedMCPServer.init))
  = Return [(py "content", VStr (py "new"))].
Proof.
  split; [reflexivity|]. split; [reflexivity|]. split; [reflexivity|].
  exact (f_equal fst
           (read_file_last_write_wins
              [(py "write_file",
                [(py "path", py "a.txt"); (py "content", py "old")])]
              [(py "write_file", [(py "path", py "b.txt"); (py "content", py "B")]);
               (py "write_file", [(py "path", py "a.txt")]);
               (py "list_directory", [])]
              [(py "path", py "a.txt"); (py "content", py "new")]
              (py "a.txt") (py "new") SimulatedMCPServer.init
              eq_refl eq_refl eq_refl)).
Defined.

Lemma stores_at_write arguments p c path :
  dict_get (py "path") arguments = Some p ->
  dict_get (py "content") arguments = Some c ->
  stores_at path (py "write_file", arguments) = str_eqb p path.
Proof.
  intros Hp Hc. unfold stores_at, effective_write, writes_to. cbn [fst snd].
  change (str_eqb (py "write_file") (py "write_file")) with true.
  rewrite Hp, Hc. reflexivity.
Qed.

Lemma stores_at_ineffective path c :
  effective_write c = false -> stores_at path c = false.
Proof. intros H. unfold stores_at. rewrite H. reflexivity. Qed.

(** X2: [list_directory], after any sequence of calls to a fresh server,
    returns (it never raises, whatever its arguments) a list of paths
    without duplicates, in which a path occurs exactly when some call of
    the sequence was a [write_file] to that path carrying a content; it
    leaves the server as it is. *)
Theorem list_directory_lists_written_paths
    (calls : list call) (arguments : dict pystr) :
  exists paths,
    SimulatedMCPServer.call_tool (py "list_directory") arguments
      (serve calls SimulatedMCPServer.init)
    = (Return [(py "files", VList (map VStr paths))],
       serve calls SimulatedMCPServer.init) /\
    NoDup paths /\
    forall path, In path paths <-> existsb (stores_at path) calls = true.
Proof.
  exists (dict_keys (SimulatedMCPServer.filesystem
                       (serve calls SimulatedMCPServer.init))).
  split; [reflexivity|].
  enough (G : forall srv,
             NoDup (dict_keys (SimulatedMCPServer.filesystem srv)) ->
             NoDup (dict_keys (SimulatedMCPServer.filesystem (serve calls srv))) /\
             forall path,
               In path (dict_keys (SimulatedMCPServer.filesystem
                                     (serve calls srv))) <->
               In path (dict_keys (SimulatedMCPServer.filesystem srv)) \/
               existsb (stores_at path) calls = true).
  { destruct (G SimulatedMCPServer.init (NoDup_nil _)) as [G1 G2].
    split; [exact G1|]. intros path. rewrite G2.
    split; [intros [[] | H]; exact H | auto]. }
  induction calls as [|[tool_name arguments'] calls IH]; intros srv Hn.
  - split; [exact Hn|]. intros path. cbn [existsb]. intuition discriminate.
  - cbn [serve existsb].
    destruct (effective_write (tool_name, arguments')) eqn:E.
    + destruct (effective_write_inv _ _ E) as (-> & p & c & Hp & Hc).
      rewrite (call_tool_write_file arguments' p c srv Hp Hc). cbn [snd].
      destruct (IH {| SimulatedMCPServer.filesystem :=
                        dict_set p c (SimulatedMCPServer.filesystem srv);
                      SimulatedMCPServer.tools := SimulatedMCPServer.tools srv |})
        as [IH1 IH2].
      { cbn [SimulatedMCPServer.filesystem]. apply dict_keys_set_NoDup. exact Hn. }
      split; [exact IH1|]. intros path. rewrite IH2.
      cbn [SimulatedMCPServer.filesystem]. rewrite dict_keys_set_In.
      rewrite (stores_at_write arguments' p c path Hp Hc), orb_true_iff.
      split.
      * intros [[-> | H] | H].
        -- right. left. apply str_eqb_refl.
        -- left. exact H.
        -- right. right. exact H.
      * intros [H | [H | H]].
        -- left. right. exact H.
        -- apply str_eqb_eq in H. left. left. symmetry. exact H.
        -- right. exact H.
    + rewrite (call_tool_no_effect _ _ srv E).
      destruct (IH srv Hn) as [IH1 IH2]. split; [exact IH1|].
      intros path. rewrite IH2, (stores_at_ineffective path _ E).
      cbn [orb]. reflexivity.
Qed.

(** X3: only a [write_file] that carries both arguments changes the
    server: dropping every other call from a sequence (reads, listings,
    unknown tools, calls that raise [KeyError]) leads to the same server. *)
Theorem serve_only_writes_count (calls : list call) (srv : SimulatedMCPServer.t) :
  serve calls srv = serve (filter effective_write calls) srv.
Proof.
  revert srv. induction calls as [|[tool_name arguments] calls IH]; intros srv;
    [reflexivity|].
  cbn [serve filter].
  destruct (effective_write (tool_name, arguments)) eqn:E.
  - cbn [serve]. apply IH.
  - rewrite (call_tool_no_effect _ _ srv E). apply IH.
Qed.

(* ================================================================== *)
(** * Further properties: SimpleTaskManager *)
(* ================================================================== *)

(** X4: on a stored collection, [list_tasks] issues the [read_file] call
    only and leaves the server as it is; for an empty collection it prints
    the no-tasks line; otherwise it prints the rule, the heading and the
    rule, then one line per task in stored order (checked or unchecked by
    the completed flag, the id, red, yellow or green for the priorities
    high, medium and low and white for any other, the description), then
    the rule. *)
Theorem list_tasks_prints_collection {F : FloatOps}
    (st : SimpleTaskManager.state) (C : list Task.t) :
  loads_to st (collection_value C) ->
  SimpleTaskManager.list_tasks st
  = (Return tt,
     {| SimpleTaskManager.mcp_server := SimpleTaskManager.mcp_server st;
        SimpleTaskManager.stdout :=
          SimpleTaskManager.stdout st ++
          match C with
          | [] => [NoTasks]
          | _ :: _ =>
              [Rule; Heading; Rule] ++
              map (fun t =>
                     TaskLine (if Task.completed t then Checked else Unchecked)
                              (VInt (Task.id t))
                              (if str_eqb (Task.priority t) (py "high") then Red
                               else if str_eqb (Task.priority t) (py "medium")
                                    then Yellow
                               else if str_eqb (Task.priority t) (py "low")
                                    then Green
                               else White)
                              (VStr (Task.description t))) C ++
              [Rule]
          end;
        SimpleTaskManager.tool_calls :=
          SimpleTaskManager.tool_calls st ++ [read_call] |}).
Proof. intros H. rewrite (list_tasks_eq st C H). reflexivity. Qed.

Lemma list_tasks_prints_collection_witness :
  loads_to (store_holding (json_encoder.dumps (F := no_floats)
                             (collection_value [write_spec_task; review_task])))
           (collection_value [write_spec_task; review_task]) /\
  SimpleTaskManager.stdout
    (snd (SimpleTaskManager.list_tasks (F := no_floats)
            (store_holding (json_encoder.dumps (F := no_floats)
                              (collection_value [write_spec_task; review_task])))))
  = [Initialized; Rule; Heading; Rule;
     TaskLine Unchecked (VInt 1) Red (VStr (py "Write spec"));
     TaskLine Unchecked (VInt 2) Green (VStr (py "Review"));
     Rule].
Proof.
  assert (H : loads_to
                (store_holding (json_encoder.dumps (F := no_floats)
                                  (collection_value [write_spec_task; review_task])))
                (collection_value [write_spec_task; review_task]))
    by (vm_compute; reflexivity).
  split; [exact H|].
  rewrite (list_tasks_prints_collection (F := no_floats) _ _ H).
  reflexivity.
Defined.

(** X5: whenever the stored text parses to a value that Python takes for
    false ([null], [false], [0], the empty string, list or object),
    [list_tasks] prints the no-tasks line and returns, having issued the
    [read_file] call only. *)
Theorem list_tasks_falsy_store {F : FloatOps}
    (st : SimpleTaskManager.state) (v : value) :
  loads_to st v ->
  Py.truthy v = false ->
  SimpleTaskManager.list_tasks st
  = (Return tt,
     {| SimpleTaskManager.mcp_server := SimpleTaskManager.mcp_server st;
        SimpleTaskManager.stdout := SimpleTaskManager.stdout st ++ [NoTasks];
        SimpleTaskManager.tool_calls :=
          SimpleTaskManager.tool_calls st ++ [read_call] |}).
Proof.
  intros H Hv. apply loads_to_iff in H.
  unfold SimpleTaskManager.list_tasks, bind. rewrite read_tasks_eq, H, Hv.
  reflexivity.
Qed.

Lemma list_tasks_falsy_store_witness :
  loads_to (store_holding (py "null")) VNone /\
  Py.truthy (F := no_floats) VNone = false /\
  SimpleTaskManager.stdout
    (snd (SimpleTaskManager.list_tasks (F := no_floats)
            (store_holding (py "null"))))
  = [Initialized; NoTasks].
Proof.
  split; [reflexivity|]. split; [reflexivity|].
  rewrite (list_tasks_falsy_store (F := no_floats)
             (store_holding (py "null")) VNone eq_refl eq_refl).
  reflexivity.
Defined.

(** X6: when the stored text parses to anything but a list, [add_task]
    raises ([TypeError] from [len] or [AttributeError] from [append]),
    having issued the [read_file] call only: nothing is written and
    nothing is printed. *)
Theorem add_task_needs_a_list {F : FloatOps}
    (st : SimpleTaskManager.state) (v : value) (description priority : pystr) :
  loads_to st v ->
  (forall items, v <> VList items) ->
  exists e,
    (e = TypeError \/ e = AttributeError) /\
    SimpleTaskManager.add_task description priority st
    = (Raise e,
       {| SimpleTaskManager.mcp_server := SimpleTaskManager.mcp_server st;
          SimpleTaskManager.stdout := SimpleTaskManager.stdout st;
          SimpleTaskManager.tool_calls :=
            SimpleTaskManager.tool_calls st ++ [read_call] |}).
Proof.
  intros H Hv. apply loads_to_iff in H.
  unfold SimpleTaskManager.add_task, bind. rewrite read_tasks_eq, H.
  destruct v as [| b | z | lit | s | items | d]; cbn [lift Py.len Py.append];
    try (exists TypeError; split; [left; reflexivity | reflexivity]);
    try (exists AttributeError; split; [right; reflexivity | reflexivity]).
  exfalso. exact (Hv items eq_refl).
Qed.

Lemma add_task_needs_a_list_witness :
  loads_to (store_holding (py "{}")) (VDict []) /\
  (forall items, VDict [] <> VList items) /\
  fst (SimpleTaskManager.add_task (F := no_floats) (py "X") (py "low")
         (store_holding (py "{}")))
  = Raise AttributeError.
Proof.
  assert (Hv : forall items, VDict [] <> VList items) by discriminate.
  split; [reflexivity|]. split; [exact Hv|].
  destruct (add_task_needs_a_list (F := no_floats) (store_holding (py "{}"))
              (VDict []) (py "X") (py "low") eq_refl Hv) as (e & _ & E).
  reflexivity.
Defined.

(** X7: when the stored text is not valid JSON (and within the
    interpreter's limits: no run of more than 4300 digits, nothing nested
    deeper than [max_nesting]), each of [add_task], [list_tasks],
    [complete_task] and [delete_task] raises [JSONDecodeError], having
    issued the [read_file] call only: the malformed text stays in place
    and nothing is printed. *)
Theorem operations_raise_on_malformed_store {F : FloatOps}
    (st : SimpleTaskManager.state) (c : command) (e : exn) :
  text_within_limits (current_text st) = true ->
  json_decoder.loads (current_text st) = Raise e ->
  run c st
  = (Raise JSONDecodeError,
     {| SimpleTaskManager.mcp_server := SimpleTaskManager.mcp_server st;
        SimpleTaskManager.stdout := SimpleTaskManager.stdout st;
        SimpleTaskManager.tool_calls :=
          SimpleTaskManager.tool_calls st ++ [read_call] |}).
Proof.
  intros _ H. pose proof (loads_raises_JSONDecodeError _ _ H) as ->.
  destruct c; cbn [run];
    unfold SimpleTaskManager.add_task, SimpleTaskManager.list_tasks,
      SimpleTaskManager.complete_task, SimpleTaskManager.delete_task;
    unfold bind at 1; rewrite read_tasks_eq, H; reflexivity.
Qed.

Lemma operations_raise_on_malformed_store_witness :
  text_within_limits (current_text (store_holding (py "[1, 2"))) = true /\
  json_decoder.loads (current_text (store_holding (py "[1, 2")))
  = Raise JSONDecodeError /\
  stored (snd (run (F := no_floats) (Delete 1) (store_holding (py "[1, 2"))))
  = Some (py "[1, 2") /\
  fst (run (F := no_floats) (Add (py "X") (py "low"))
         (store_holding (py "[1, 2")))
  = Raise JSONDecodeError.
Proof.
  assert (L : text_within_limits (current_text (store_holding (py "[1, 2")))
              = true) by reflexivity.
  assert (H : json_decoder.loads (current_text (store_holding (py "[1, 2")))
              = Raise JSONDecodeError) by reflexivity.
  split; [exact L|]. split; [exact H|]. split.
  - rewrite (operations_raise_on_malformed_store (F := no_floats)
               _ (Delete 1) _ L H).
    reflexivity.
  - rewrite (operations_raise_on_malformed_store (F := no_floats)
               _ (Add (py "X") (py "low")) _ L H).
    reflexivity.
Defined.

Section ReadModifyWrite.
Context {F : FloatOps}.

Lemma bind_lift (St A B : Type) (o : outcome A) (k : A -> M St B) st :
  bind (lift o) k st
  = match o with
    | Return a => k a st
    | Raise e => (Raise e, st)
    end.
Proof. destruct o; reflexivity. Qed.

Lemma print_eq o st :
  SimpleTaskManager.print o st = (Return tt, printed o st).
Proof. reflexivity. Qed.

Lemma list_lines_keeps_server items : forall st,
  SimpleTaskManager.mcp_server
    (snd (list_lines SimpleTaskManager.print items st))
  = SimpleTaskManager.mcp_server st /\
  SimpleTaskManager.tool_calls
    (snd (list_lines SimpleTaskManager.print items st))
  = SimpleTaskManager.tool_calls st.
Proof.
  induction items as [|task items IH]; intros st; [split; reflexivity|].
  cbn [list_lines]. unfold bind, lift.
  destruct (Py.getitem task (py "completed")); [|split; reflexivity].
  destruct (Py.getitem task (py "priority")) as [p|]; [|split; reflexivity].
  destruct (priority_emoji p); [|split; reflexivity].
  destruct (Py.getitem task (py "id")); [|split; reflexivity].
  destruct (Py.getitem task (py "description")); [|split; reflexivity].
  rewrite print_eq.
  match goal with
  | |- context [list_lines _ items ?s] => destruct (IH s) as [I1 I2]
  end.
  split; [rewrite I1 | rewrite I2]; reflexivity.
Qed.

Lemma complete_scan_writes_at_most_once tasks task_id items :
  forall before st,
    let r := complete_scan SimpleTaskManager._write_tasks
               (SimpleTaskManager.print (TaskCompleted task_id))
               (SimpleTaskManager.print (TaskNotFound task_id))
               tasks task_id before items st in
    (SimpleTaskManager.mcp_server (snd r) = SimpleTaskManager.mcp_server st /\
     SimpleTaskManager.tool_calls (snd r) = SimpleTaskManager.tool_calls st) \/
    (exists content,
        fst r = Return tt /\
        SimpleTaskManager.mcp_server (snd r) = wrote content st /\
        SimpleTaskManager.tool_calls (snd r)
        = SimpleTaskManager.tool_calls st ++ [write_call content]).
Proof.
  induction items as [|task items IH]; intros before st r; subst r.
  - left. split; reflexivity.
  - cbn [complete_scan]. rewrite bind_lift.
    destruct (Py.getitem task (py "id")) as [id|]; [|left; split; reflexivity].
    destruct (Py.eq_int id task_id); [|apply IH].
    rewrite bind_lift.
    destruct (Py.setitem task (py "completed") (VBool true)) as [task'|];
      [|left; split; reflexivity].
    unfold bind. rewrite write_tasks_eq.
    right. eexists. repeat split.
Qed.
End ReadModifyWrite.

Lemma run_read_modify_write {F : FloatOps}
    (c : command) (st : SimpleTaskManager.state) :
  let unchanged :=
    SimpleTaskManager.mcp_server (snd (run c st))
    = SimpleTaskManager.mcp_server st /\
    SimpleTaskManager.tool_calls (snd (run c st))
    = SimpleTaskManager.tool_calls st ++ [read_call] in
  match c with
  | List => unchanged
  | _ =>
      unchanged \/
      exists content,
        fst (run c st) = Return tt /\
        SimpleTaskManager.mcp_server (snd (run c st)) = wrote content st /\
        SimpleTaskManager.tool_calls (snd (run c st))
        = SimpleTaskManager.tool_calls st ++ [read_call; write_call content]
  end.
Proof.
  cbv zeta.
  destruct c as [d p | | task_id | task_id]; cbn [run].
  - unfold SimpleTaskManager.add_task, bind. rewrite read_tasks_eq.
    destruct (json_decoder.loads (current_text st)) as [v|];
      [|left; split; reflexivity].
    cbn [lift].
    destruct (Py.len v); [|left; split; reflexivity].
    destruct (Py.append v _); [|left; split; reflexivity].
    rewrite write_tasks_eq. right. eexists. split; [reflexivity|].
    split; [reflexivity|]. cbn. rewrite <- List.app_assoc. reflexivity.
  - unfold SimpleTaskManager.list_tasks, bind, lift. rewrite read_tasks_eq.
    destruct (json_decoder.loads (current_text st)) as [v|];
      [|split; reflexivity].
    destruct (negb (Py.truthy v)); [split; reflexivity|].
    rewrite !print_eq. cbv beta iota.
    destruct (Py.iter v) as [items|]; [|split; reflexivity].
    match goal with
    | |- context [list_lines _ items ?s] =>
        destruct (list_lines_keeps_server items s) as [I1 I2];
        destruct (list_lines SimpleTaskManager.print items s) as [[[]|] s']
    end; cbn [fst snd] in *; rewrite ?print_eq;
      cbn [snd printed SimpleTaskManager.mcp_server
           SimpleTaskManager.tool_calls];
      rewrite ?I1, ?I2; split; reflexivity.
  - unfold SimpleTaskManager.complete_task, bind, lift. rewrite read_tasks_eq.
    destruct (json_decoder.loads (current_text st)) as [v|];
      [|left; split; reflexivity].
    destruct (Py.iter v) as [items|]; [|left; split; reflexivity].
    cbv beta iota.
    destruct (complete_scan_writes_at_most_once v task_id items []
                (after_read st)) as [[S1 S2] | (content & S0 & S1 & S2)].
    + left. rewrite S1, S2. split; reflexivity.
    + right. exists content. rewrite S0, S1, S2. split; [reflexivity|].
      split; [reflexivity|]. cbn. rewrite <- List.app_assoc. reflexivity.
  - unfold SimpleTaskManager.delete_task, bind. rewrite read_tasks_eq.
    destruct (json_decoder.loads (current_text st)) as [v|];
      [|left; split; reflexivity].
    cbn [lift].
    destruct (Py.iter v) as [items|]; [|left; split; reflexivity].
    destruct (comprehension task_id items); [|left; split; reflexivity].
    rewrite write_tasks_eq. right. eexists. split; [reflexivity|].
    split; [reflexivity|]. cbn. rewrite <- List.app_assoc. reflexivity.
Qed.

(** X8: every operation is one read-modify-write: whatever is stored,
    [add_task], [complete_task] and [delete_task] first issue the
    [read_file] call and then either issue nothing more and leave the
    server as it is, or issue exactly one [write_file] call, on the tasks
    path, whose content is all that changes on the server.  [list_tasks]
    always stops after the read. *)
Theorem operations_read_then_write_at_most_once {F : FloatOps}
    (c : command) (st : SimpleTaskManager.state) :
  let unchanged :=
    SimpleTaskManager.mcp_server (snd (run c st))
    = SimpleTaskManager.mcp_server st /\
    SimpleTaskManager.tool_calls (snd (run c st))
    = SimpleTaskManager.tool_calls st ++ [read_call] in
  match c with
  | List => unchanged
  | _ =>
      unchanged \/
      exists content,
        SimpleTaskManager.mcp_server (snd (run c st))
        = {| SimulatedMCPServer.filesystem :=
               dict_set SimpleTaskManager.tasks_file content
                 (SimulatedMCPServer.filesystem
                    (SimpleTaskManager.mcp_server st));
             SimulatedMCPServer.tools :=
               SimulatedMCPServer.tools (SimpleTaskManager.mcp_server st) |} /\
        SimpleTaskManager.tool_calls (snd (run c st))
        = SimpleTaskManager.tool_calls st
          ++ [(py "read_file", [(py "path", SimpleTaskManager.tasks_file)]);
              (py "write_file",
               [(py "path", SimpleTaskManager.tasks_file);
                (py "content", content)])]
  end.
Proof.
  pose proof (run_read_modify_write c st) as R. cbv zeta in *.
  destruct c; try exact R;
    (destruct R as [R | (content & _ & R1 & R2)];
     [left; exact R | right; exists content; split; [exact R1 | exact R2]]).
Qed.

Lemma serve_read_call calls srv :
  serve (calls ++ [read_call]) srv = serve calls srv.
Proof.
  rewrite serve_app. unfold read_call. cbn [serve].
  rewrite (call_tool_read_file _ SimpleTaskManager.tasks_file) by reflexivity.
  reflexivity.
Qed.

Lemma serve_read_write_calls calls content st :
  SimpleTaskManager.mcp_server st = serve calls SimulatedMCPServer.init ->
  serve (calls ++ [read_call; write_call content]) SimulatedMCPServer.init
  = wrote content st.
Proof.
  intros H. rewrite serve_app, <- H. unfold read_call, write_call.
  cbn [serve].
  rewrite (call_tool_read_file _ SimpleTaskManager.tasks_file) by reflexivity.
  cbn [snd].
  rewrite (call_tool_write_file _ SimpleTaskManager.tasks_file content)
    by reflexivity.
  reflexivity.
Qed.

(** X23: the manager reaches the store through [call_tool] only: if the
    server is what the tool calls issued so far make of a fresh server,
    it still is after any sequence of operations, whether they return or
    raise; so the file system never holds anything that was not the
    content of a [write_file] call. *)
Theorem store_changes_only_through_tool_calls {F : FloatOps}
    (cs : list command) (st : SimpleTaskManager.state) :
  SimpleTaskManager.mcp_server st
  = serve (SimpleTaskManager.tool_calls st) SimulatedMCPServer.init ->
  SimpleTaskManager.mcp_server (run_all cs st)
  = serve (SimpleTaskManager.tool_calls (run_all cs st))
          SimulatedMCPServer.init.
Proof.
  revert st. induction cs as [|c cs IH]; intros st H; [exact H|].
  cbn [run_all]. apply IH.
  pose proof (run_read_modify_write c st) as R. cbv zeta in R.
  assert (U : SimpleTaskManager.mcp_server (snd (run c st))
              = SimpleTaskManager.mcp_server st /\
              SimpleTaskManager.tool_calls (snd (run c st))
              = SimpleTaskManager.tool_calls st ++ [read_call] ->
              SimpleTaskManager.mcp_server (snd (run c st))
              = serve (SimpleTaskManager.tool_calls (snd (run c st)))
                      SimulatedMCPServer.init).
  { intros [U1 U2]. rewrite U1, U2, serve_read_call. exact H. }
  assert (W : (exists content,
                  fst (run c st) = Return tt /\
                  SimpleTaskManager.mcp_server (snd (run c st))
                  = wrote content st /\
                  SimpleTaskManager.tool_calls (snd (run c st))
                  = SimpleTaskManager.tool_calls st
                    ++ [read_call; write_call content]) ->
              SimpleTaskManager.mcp_server (snd (run c st))
              = serve (SimpleTaskManager.tool_calls (snd (run c st)))
                      SimulatedMCPServer.init).
  { intros (content & _ & W1 & W2). rewrite W1, W2.
    symmetry. apply serve_read_write_calls. exact H. }
  destruct c; [destruct R as [R | R]; [exact (U R) | exact (W R)]
              | exact (U R)
              | destruct R as [R | R]; [exact (U R) | exact (W R)]
              | destruct R as [R | R]; [exact (U R) | exact (W R)]].
Qed.

Lemma store_changes_only_through_tool_calls_witness :
  SimpleTaskManager.mcp_server SimpleTaskManager.init
  = serve (SimpleTaskManager.tool_calls SimpleTaskManager.init)
          SimulatedMCPServer.init /\
  SimpleTaskManager.mcp_server
    (run_all (F := no_floats)
       [Add (py "Write spec") (py "high"); Complete 1; Delete 7]
       SimpleTaskManager.init)
  = serve (SimpleTaskManager.tool_calls
             (run_all (F := no_floats)
                [Add (py "Write spec") (py "high"); Complete 1; Delete 7]
                SimpleTaskManager.init))
          SimulatedMCPServer.init.
Proof.
  split; [reflexivity|].
  exact (store_changes_only_through_tool_calls (F := no_floats)
           [Add (py "Write spec") (py "high"); Complete 1; Delete 7]
           SimpleTaskManager.init eq_refl).
Defined.

(* ================================================================== *)
(** * Further properties: how the operations compose *)
(* ================================================================== *)

Lemma mark_completed_idempotent task_id C :
  mark_completed task_id (mark_completed task_id C) = mark_completed task_id C.
Proof.
  induction C as [|t C IH]; [reflexivity|].
  cbn [mark_completed]. destruct (Task.id t =? task_id)%Z eqn:E.
  - cbn [mark_completed Task.id]. rewrite E. reflexivity.
  - cbn [mark_completed]. rewrite E, IH. reflexivity.
Qed.

Lemma without_id_idempotent task_id C :
  without_id task_id (without_id task_id C) = without_id task_id C.
Proof.
  unfold without_id. induction C as [|t C IH]; [reflexivity|].
  cbn [filter]. destruct (negb (Task.id t =? task_id)%Z) eqn:E; [|exact IH].
  cbn [filter]. rewrite E, IH. reflexivity.
Qed.

Lemma has_id_without_id task_id C : has_id task_id (without_id task_id C) = false.
Proof.
  unfold has_id, without_id. induction C as [|t C IH]; [reflexivity|].
  cbn [filter]. destruct (Task.id t =? task_id)%Z eqn:E; cbn [negb]; [exact IH|].
  cbn [existsb]. rewrite E, IH. reflexivity.
Qed.

Lemma without_id_comm a b C :
  without_id a (without_id b C) = without_id b (without_id a C).
Proof.
  unfold without_id. induction C as [|t C IH]; [reflexivity|].
  cbn [filter].
  destruct (negb (Task.id t =? b)%Z) eqn:Eb;
    destruct (negb (Task.id t =? a)%Z) eqn:Ea;
    cbn [filter]; rewrite ?Ea, ?Eb, ?IH; reflexivity.
Qed.

Lemma mark_completed_without_id a b C :
  a <> b ->
  mark_completed a (without_id b C) = without_id b (mark_completed a C).
Proof.
  intros Hab. unfold without_id. induction C as [|t C IH]; [reflexivity|].
  cbn [filter mark_completed].
  destruct (Task.id t =? b)%Z eqn:Eb; cbn [negb].
  - apply Z.eqb_eq in Eb.
    rewrite (proj2 (Z.eqb_neq (Task.id t) a)) by lia.
    cbn [filter]. rewrite (proj2 (Z.eqb_eq _ _) Eb). cbn [negb]. exact IH.
  - cbn [mark_completed]. destruct (Task.id t =? a)%Z eqn:Ea.
    + cbn [filter Task.id]. rewrite Eb. reflexivity.
    + cbn [filter]. rewrite Eb. cbn [negb]. rewrite IH. reflexivity.
Qed.

Section Compose.
Context {F : FloatOps}.

(** The collection a run of commands leaves, computed on collections. *)
Lemma run_all_steps cs :
  Forall valid_command cs ->
  forall st C,
    Forall clean_task C -> loads_to st (collection_value C) ->
    exists C',
      Forall clean_task C' /\
      loads_to (run_all cs st) (collection_value C') /\
      forall step : command -> list Task.t -> list Task.t,
        (forall c D D', In c cs -> step_relation c D D' -> D' = step c D) ->
        C' = fold_left (fun D c => step c D) cs C.
Proof.
  induction 1 as [|c cs Hc _ IH]; intros st C HC Hst.
  - exists C. repeat split; auto.
  - destruct (run_step c st C Hc HC Hst) as (C1 & _ & HC1 & Hst1 & Hrel).
    destruct (IH _ C1 HC1 Hst1) as (C' & HC' & Hst' & Hfold).
    exists C'. split; [exact HC'|]. split; [exact Hst'|].
    intros step Hstep. cbn [fold_left].
    rewrite <- (Hstep c C C1 (or_introl eq_refl) Hrel).
    apply Hfold. intros c' D D' Hin. apply Hstep. right. exact Hin.
Qed.
End Compose.

Lemma step_relation_step c D D' :
  step_relation c D D' -> D' = step_collection c D.
Proof. destruct c; intros H; exact H. Qed.

Lemma run_collection_adds dps : forall C,
  map Task.id (run_collection (adds dps) C)
  = map Task.id C
    ++ map (fun i => Z.of_nat i + 1)%Z (seq (List.length C) (List.length dps)) /\
  (Forall (fun t => Task.completed t = false) C ->
   Forall (fun t => Task.completed t = false) (run_collection (adds dps) C)).
Proof.
  unfold run_collection.
  induction dps as [|[d p] dps IH]; intros C.
  - cbn. rewrite List.app_nil_r. auto.
  - cbn [adds map fold_left step_collection fst snd List.length seq].
    destruct (IH (C ++ [reread_task (new_task (List.length C) d p)]))
      as [IH1 IH2].
    fold (adds dps). split.
    + rewrite IH1, map_app, length_app, <- List.app_assoc.
      cbn [List.length map List.app reread_task new_task Task.id].
      rewrite Nat.add_1_r. reflexivity.
    + intros H. apply IH2. apply Forall_app. split; [exact H|].
      repeat constructor.
Qed.

Lemma run_all_run_collection {F : FloatOps} cs st C :
  Forall valid_command cs ->
  Forall clean_task C ->
  loads_to st (collection_value C) ->
  loads_to (run_all cs st) (collection_value (run_collection cs C)).
Proof.
  intros Hcs HC Hst.
  destruct (run_all_steps cs Hcs st C HC Hst) as (C' & _ & Hst' & Hfold).
  rewrite (Hfold step_collection) in Hst'.
  - exact Hst'.
  - intros c D D' _. apply step_relation_step.
Qed.


(** ** Collections that were not written by the manager *)

Lemma valid_task_reread t : valid_task t -> valid_task (reread_task t).
Proof. intros H. exact (proj1 (reread_task_clean t H)). Qed.

Lemma map_reread_clean C :
  Forall valid_task C -> Forall clean_task (map reread_task C).
Proof.
  induction 1 as [|t C Ht _ IH]; cbn [map]; constructor;
    [apply reread_task_clean; exact Ht | exact IH].
Qed.

Lemma clean_valid C : Forall clean_task C -> Forall valid_task C.
Proof. intros H. eapply Forall_impl; [|exact H]. intros t [Hv _]. exact Hv. Qed.

Lemma map_reread_idempotent C :
  Forall valid_task C ->
  map reread_task (map reread_task C) = map reread_task C.
Proof. intros H. apply map_reread_task_id, map_reread_clean, H. Qed.

Lemma mark_completed_valid task_id C :
  Forall valid_task C -> Forall valid_task (mark_completed task_id C).
Proof.
  induction 1 as [|t C Ht HC IH]; [constructor|].
  cbn [mark_completed]. destruct (Task.id t =? task_id)%Z; constructor; auto.
Qed.

Lemma without_id_valid task_id C :
  Forall valid_task C -> Forall valid_task (without_id task_id C).
Proof.
  induction 1 as [|t C Ht HC IH]; [constructor|].
  cbn [without_id filter]. destruct (negb _); [constructor|]; auto.
Qed.

Lemma map_id_reread C : map Task.id (map reread_task C) = map Task.id C.
Proof. rewrite map_map. apply map_ext. intros t. reflexivity. Qed.

Lemma has_id_map_reread task_id C :
  has_id task_id (map reread_task C) = has_id task_id C.
Proof.
  unfold has_id. induction C as [|t C IH]; [reflexivity|].
  cbn [map existsb reread_task Task.id]. rewrite IH. reflexivity.
Qed.

Lemma has_id_mark_completed task_id C :
  has_id task_id (mark_completed task_id C) = has_id task_id C.
Proof.
  unfold has_id. induction C as [|t C IH]; [reflexivity|].
  cbn [mark_completed existsb]. destruct (Task.id t =? task_id)%Z eqn:E.
  - cbn [existsb Task.id]. rewrite E. reflexivity.
  - cbn [existsb]. rewrite E, IH. reflexivity.
Qed.

Lemma has_id_without_other a b C :
  a <> b -> has_id a (without_id b C) = has_id a C.
Proof.
  intros Hab. unfold has_id, without_id.
  induction C as [|t C IH]; [reflexivity|].
  cbn [filter existsb]. destruct (Task.id t =? b)%Z eqn:Eb; cbn [negb].
  - apply Z.eqb_eq in Eb.
    rewrite (proj2 (Z.eqb_neq (Task.id t) a)) by lia. exact IH.
  - cbn [existsb]. rewrite IH. reflexivity.
Qed.

Lemma mark_completed_map_reread task_id C :
  mark_completed task_id (map reread_task C)
  = map reread_task (mark_completed task_id C).
Proof.
  induction C as [|t C IH]; [reflexivity|].
  cbn [map mark_completed reread_task Task.id].
  destruct (Task.id t =? task_id)%Z; cbn [map]; [reflexivity|].
  rewrite IH. reflexivity.
Qed.

Lemma without_id_map_reread task_id C :
  without_id task_id (map reread_task C)
  = map reread_task (without_id task_id C).
Proof.
  unfold without_id. induction C as [|t C IH]; [reflexivity|].
  cbn [map filter reread_task Task.id].
  destruct (negb (Task.id t =? task_id)%Z); cbn [map]; rewrite IH; reflexivity.
Qed.

Lemma mark_completed_absent task_id C :
  has_id task_id C = false -> mark_completed task_id C = C.
Proof.
  induction C as [|t C IH]; [reflexivity|].
  cbn [has_id existsb mark_completed]. intros E.
  apply orb_false_iff in E. destruct E as [E1 E2].
  rewrite E1. f_equal. apply IH. exact E2.
Qed.

Lemma step_stored_valid c D :
  valid_command c -> Forall valid_task D -> Forall valid_task (step_stored c D).
Proof.
  intros Hc HD. destruct c as [d p | | task_id | task_id]; cbn [step_stored].
  - apply clean_valid, map_reread_clean. apply Forall_app. split; [exact HD|].
    constructor; [exact Hc | constructor].
  - exact HD.
  - destruct (has_id task_id D); [|exact HD].
    apply clean_valid, map_reread_clean, mark_completed_valid, HD.
  - apply clean_valid, map_reread_clean, without_id_valid, HD.
Qed.

Lemma step_stored_complete_idempotent task_id D :
  Forall valid_task D ->
  step_stored (Complete task_id) (step_stored (Complete task_id) D)
  = step_stored (Complete task_id) D.
Proof.
  intros HD. cbn [step_stored]. destruct (has_id task_id D) eqn:E.
  - rewrite has_id_map_reread, has_id_mark_completed, E.
    rewrite mark_completed_map_reread, mark_completed_idempotent.
    apply map_reread_idempotent, mark_completed_valid, HD.
  - rewrite E. reflexivity.
Qed.

Lemma step_stored_delete_idempotent task_id D :
  Forall valid_task D ->
  step_stored (Delete task_id) (step_stored (Delete task_id) D)
  = step_stored (Delete task_id) D.
Proof.
  intros HD. cbn [step_stored].
  rewrite without_id_map_reread, without_id_idempotent.
  apply map_reread_idempotent, without_id_valid, HD.
Qed.

Lemma run_stored_repeat c n D :
  step_stored c (step_stored c D) = step_stored c D ->
  run_stored (repeat c (S n)) D = step_stored c D.
Proof.
  intros H. unfold run_stored. cbn [repeat fold_left].
  induction n as [|n IH]; [reflexivity|].
  cbn [repeat fold_left]. rewrite H. exact IH.
Qed.

Section Stored.
Context {F : FloatOps}.

Lemma run_step_stored c st D :
  valid_command c -> Forall valid_task D -> loads_to st (collection_value D) ->
  loads_to (snd (run c st)) (collection_value (step_stored c D)).
Proof.
  intros Hc HD Hst. destruct c as [d p | | task_id | task_id];
    cbn [run step_stored].
  - unfold collection_value in Hst.
    rewrite (add_task_eq st _ d p Hst), length_map, collection_app.
    cbn [snd]. apply loads_to_written. apply loads_dumps_collection.
    apply Forall_app. split; [exact HD|]. constructor; [exact Hc | constructor].
  - rewrite (list_tasks_eq st D Hst). cbn [snd].
    apply loads_to_iff. apply loads_to_iff in Hst. exact Hst.
  - rewrite (complete_task_eq st D task_id Hst).
    destruct (has_id task_id D); cbn [snd].
    + apply loads_to_written. apply loads_dumps_collection.
      apply mark_completed_valid, HD.
    + apply loads_to_iff. apply loads_to_iff in Hst. exact Hst.
  - rewrite (delete_task_eq st D task_id Hst). cbn [snd].
    apply loads_to_written. apply loads_dumps_collection.
    apply without_id_valid, HD.
Qed.

Lemma run_all_stored cs :
  Forall valid_command cs ->
  forall st D,
    Forall valid_task D -> loads_to st (collection_value D) ->
    loads_to (run_all cs st) (collection_value (run_stored cs D)).
Proof.
  induction 1 as [|c cs Hc _ IH]; intros st D HD Hst; [exact Hst|].
  cbn [run_all]. unfold run_stored. cbn [fold_left].
  apply IH; [apply step_stored_valid; assumption|].
  apply run_step_stored; assumption.
Qed.
End Stored.

Lemma valid_commands_repeat c n : valid_command c -> Forall valid_command (repeat c n).
Proof.
  intros H. apply Forall_forall. intros c' Hc. apply repeat_spec in Hc.
  subst. exact H.
Qed.

(** X9: the task store refines the list model: from a store holding any
    collection of tasks (descriptions and priorities being Python strs),
    every sequence of add, list, complete and delete commands runs to a
    store that holds what the commands make of the collection as list
    functions: add appends the task with id length + 1, list changes
    nothing, complete marks the first task with the id or changes nothing
    when there is none, delete filters the id out; and a command that
    writes (add, delete, complete with a match) leaves every description
    and priority as it is read back, each surrogate pair joined. *)
Theorem run_all_refines_run_collection {F : FloatOps}
    (cs : list command) (st : SimpleTaskManager.state) (C : list Task.t) :
  Forall valid_command cs ->
  Forall valid_task C ->
  loads_to st (collection_value C) ->
  loads_to (run_all cs st)
    (collection_value
       (fold_left
          (fun D c =>
             match c with
             | Add description priority =>
                 map reread_task
                   (D ++ [{| Task.id := Z.of_nat (List.length D) + 1;
                             Task.description := description;
                             Task.priority := priority;
                             Task.completed := false |}])
             | List => D
             | Complete task_id =>
                 if existsb (fun t => (Task.id t =? task_id)%Z) D
                 then map reread_task (mark_completed task_id D)
                 else D
             | Delete task_id =>
                 map reread_task
                   (filter (fun t => negb (Task.id t =? task_id)%Z) D)
             end) cs C)).
Proof. intros Hcs HC Hst. exact (run_all_stored cs Hcs st C HC Hst). Qed.

Lemma run_all_refines_run_collection_witness :
  Forall valid_command [List; Complete 9; Add (py "Review") (py "low");
                        Complete 1; Delete 2] /\
  Forall valid_task [surrogate_task] /\
  loads_to (store_holding raw_surrogate_text)
           (collection_value [surrogate_task]) /\
  loads_to (run_all (F := no_floats)
              [List; Complete 9; Add (py "Review") (py "low");
               Complete 1; Delete 2] (store_holding raw_surrogate_text))
           (collection_value
              [{| Task.id := 1;
                  Task.description := [0x1f680];
                  Task.priority := py "low";
                  Task.completed := true |}]).
Proof.
  assert (V : Forall valid_command
                [List; Complete 9; Add (py "Review") (py "low");
                 Complete 1; Delete 2])
    by (repeat (constructor || split)).
  assert (HC : Forall valid_task [surrogate_task])
    by (repeat (constructor || split); cbn; lia).
  assert (H : loads_to (store_holding raw_surrogate_text)
                       (collection_value [surrogate_task]))
    by (vm_compute; reflexivity).
  split; [exact V|]. split; [exact HC|]. split; [exact H|].
  exact (run_all_refines_run_collection (F := no_floats) _ _ _ V HC H).
Defined.

(** X11: completing is idempotent: on a store holding any collection of
    tasks (texts being Python strs), calling [complete_task] with the same
    id once or any number of times more leaves the same collection: the
    one read when no task has the id (nothing is written), and otherwise
    the one in which the first task with the id is completed, each
    surrogate pair of a text joined; a later task that shares the id is
    never completed this way. *)
Theorem complete_task_idempotent {F : FloatOps}
    (st : SimpleTaskManager.state) (C : list Task.t) (task_id : Z) (n : nat) :
  Forall valid_task C ->
  loads_to st (collection_value C) ->
  loads_to (run_all (repeat (Complete task_id) (S n)) st)
           (collection_value
              (if existsb (fun t => (Task.id t =? task_id)%Z) C
               then map reread_task (mark_completed task_id C)
               else C)).
Proof.
  intros HC Hst.
  change (if existsb (fun t => (Task.id t =? task_id)%Z) C
          then map reread_task (mark_completed task_id C) else C)
    with (step_stored (Complete task_id) C).
  rewrite <- (run_stored_repeat (Complete task_id) n C
                (step_stored_complete_idempotent task_id C HC)).
  apply run_all_stored; try assumption.
  apply valid_commands_repeat. exact I.
Qed.

Lemma complete_task_idempotent_witness :
  Forall valid_task [review_task; x_task] /\
  loads_to (store_holding (json_encoder.dumps (F := no_floats)
                             (collection_value [review_task; x_task])))
           (collection_value [review_task; x_task]) /\
  loads_to (run_all (F := no_floats) (repeat (Complete 2) 3)
              (store_holding (json_encoder.dumps (F := no_floats)
                                (collection_value [review_task; x_task]))))
           (collection_value
              [{| Task.id := 2;
                  Task.description := py "Review";
                  Task.priority := py "low";
                  Task.completed := true |}; x_task]).
Proof.
  assert (HC : Forall valid_task [review_task; x_task])
    by (repeat (constructor || split)).
  assert (H : loads_to
                (store_holding (json_encoder.dumps (F := no_floats)
                                  (collection_value [review_task; x_task])))
                (collection_value [review_task; x_task]))
    by (vm_compute; reflexivity).
  split; [exact HC|]. split; [exact H|].
  exact (complete_task_idempotent (F := no_floats) _ _ 2%Z 2 HC H).
Defined.

(** X12: deleting removes the id and is idempotent: on a store holding
    any collection of tasks (texts being Python strs), calling
    [delete_task] with the same id once or any number of times more leaves
    the collection of the tasks with another id, each surrogate pair of a
    text joined, and in it no task has the id. *)
Theorem delete_task_idempotent {F : FloatOps}
    (st : SimpleTaskManager.state) (C : list Task.t) (task_id : Z) (n : nat) :
  Forall valid_task C ->
  loads_to st (collection_value C) ->
  loads_to (run_all (repeat (Delete task_id) (S n)) st)
           (collection_value
              (map reread_task
                 (filter (fun t => negb (Task.id t =? task_id)%Z) C))) /\
  existsb (fun t => (Task.id t =? task_id)%Z)
          (map reread_task
             (filter (fun t => negb (Task.id t =? task_id)%Z) C)) = false.
Proof.
  intros HC Hst. split.
  - change (map reread_task
              (filter (fun t => negb (Task.id t =? task_id)%Z) C))
      with (step_stored (Delete task_id) C).
    rewrite <- (run_stored_repeat (Delete task_id) n C
                  (step_stored_delete_idempotent task_id C HC)).
    apply run_all_stored; try assumption.
    apply valid_commands_repeat. exact I.
  - change (has_id task_id (map reread_task (without_id task_id C)) = false).
    rewrite has_id_map_reread. apply has_id_without_id.
Qed.

Lemma delete_task_idempotent_witness :
  Forall valid_task [surrogate_task] /\
  loads_to (store_holding raw_surrogate_text)
           (collection_value [surrogate_task]) /\
  loads_to (run_all (F := no_floats) (repeat (Delete 2) 2)
              (store_holding raw_surrogate_text))
           (collection_value [rocket_task]).
Proof.
  assert (HC : Forall valid_task [surrogate_task])
    by (repeat (constructor || split); cbn; lia).
  assert (H : loads_to (store_holding raw_surrogate_text)
                       (collection_value [surrogate_task]))
    by (vm_compute; reflexivity).
  split; [exact HC|]. split; [exact H|].
  exact (proj1 (delete_task_idempotent (F := no_floats) _ _ 2%Z 1 HC H)).
Defined.

(** X13: deletions commute with each other, and a completion commutes
    with the deletion of another id: on a store holding any collection of
    tasks (texts being Python strs), either order leaves the same
    collection. *)
Theorem delete_task_commutes {F : FloatOps}
    (st : SimpleTaskManager.state) (C : list Task.t) (a b : Z) :
  Forall valid_task C ->
  loads_to st (collection_value C) ->
  (exists C',
      loads_to (run_all [Delete a; Delete b] st) (collection_value C') /\
      loads_to (run_all [Delete b; Delete a] st) (collection_value C')) /\
  (a <> b ->
   exists C',
     loads_to (run_all [Complete a; Delete b] st) (collection_value C') /\
     loads_to (run_all [Delete b; Complete a] st) (collection_value C')).
Proof.
  intros HC Hst.
  assert (V : forall cs, Forall valid_command cs ->
                loads_to (run_all cs st)
                         (collection_value (run_stored cs C)))
    by (intros cs Hcs; apply run_all_stored; assumption).
  split.
  - exists (run_stored [Delete a; Delete b] C). split.
    + apply V. repeat constructor.
    + replace (run_stored [Delete a; Delete b] C)
        with (run_stored [Delete b; Delete a] C);
        [apply V; repeat constructor|].
      unfold run_stored. cbn [fold_left step_stored].
      rewrite !without_id_map_reread, without_id_comm. reflexivity.
  - intros Hab. exists (run_stored [Complete a; Delete b] C). split.
    + apply V. repeat constructor.
    + replace (run_stored [Complete a; Delete b] C)
        with (run_stored [Delete b; Complete a] C);
        [apply V; repeat constructor|].
      unfold run_stored. cbn [fold_left step_stored].
      rewrite has_id_map_reread, (has_id_without_other a b C Hab).
      destruct (has_id a C); [|reflexivity].
      rewrite mark_completed_map_reread, without_id_map_reread.
      rewrite (mark_completed_without_id a b C Hab). reflexivity.
Qed.

Lemma delete_task_commutes_witness :
  Forall valid_task [write_spec_task; review_task] /\
  loads_to (store_holding (json_encoder.dumps (F := no_floats)
                             (collection_value [write_spec_task; review_task])))
           (collection_value [write_spec_task; review_task]) /\
  (1 <> 2)%Z /\
  exists C',
    loads_to (run_all (F := no_floats) [Complete 1; Delete 2]
                (store_holding
                   (json_encoder.dumps (F := no_floats)
                      (collection_value [write_spec_task; review_task]))))
             (collection_value C') /\
    loads_to (run_all (F := no_floats) [Delete 2; Complete 1]
                (store_holding
                   (json_encoder.dumps (F := no_floats)
                      (collection_value [write_spec_task; review_task]))))
             (collection_value C').
Proof.
  assert (HC : Forall valid_task [write_spec_task; review_task])
    by (repeat (constructor || split)).
  assert (H : loads_to
                (store_holding (json_encoder.dumps (F := no_floats)
                                  (collection_value [write_spec_task; review_task])))
                (collection_value [write_spec_task; review_task]))
    by (vm_compute; reflexivity).
  assert (N : (1 <> 2)%Z) by discriminate.
  split; [exact HC|]. split; [exact H|]. split; [exact N|].
  exact (proj2 (delete_task_commutes (F := no_floats) _ _ 1%Z 2%Z HC H) N).
Defined.

Lemma NoDup_map_of_nat (l : list nat) : NoDup l -> NoDup (map Z.of_nat l).
Proof.
  induction 1 as [|x l Hx Hl IH]; cbn [map]; constructor; [|exact IH].
  intros Hin. apply in_map_iff in Hin. destruct Hin as (y & Hy & Hin).
  apply Nat2Z.inj in Hy. subst. exact (Hx Hin).
Qed.

(** X14: with adds only, ids are sequential: after any number of
    [add_task] calls on a fresh manager the store holds as many tasks,
    their ids are 1, 2, ... in order (so they are distinct), and none is
    completed. *)
Theorem adds_number_tasks_in_sequence {F : FloatOps}
    (dps : list (pystr * pystr)) :
  Forall (fun dp => valid_str (fst dp) /\ valid_str (snd dp)) dps ->
  exists C,
    loads_to (run_all (map (fun dp => Add (fst dp) (snd dp)) dps)
                      SimpleTaskManager.init)
             (collection_value C) /\
    map Task.id C = map Z.of_nat (seq 1 (List.length dps)) /\
    NoDup (map Task.id C) /\
    Forall (fun t => Task.completed t = false) C.
Proof.
  intros H. exists (run_collection (adds dps) []).
  destruct (run_collection_adds dps []) as [Hid Hc].
  assert (E : map Task.id (run_collection (adds dps) [])
              = map Z.of_nat (seq 1 (List.length dps))).
  { rewrite Hid. cbn [map List.app List.length].
    rewrite <- seq_shift, map_map. apply map_ext. intros i. lia. }
  split; [|split; [exact E | split]].
  - apply run_all_run_collection; [|constructor|reflexivity].
    unfold adds. apply Forall_map.
    eapply Forall_impl; [|exact H]. intros dp Hdp. exact Hdp.
  - rewrite E. apply NoDup_map_of_nat, seq_NoDup.
  - apply Hc. constructor.
Qed.

Lemma adds_number_tasks_in_sequence_witness :
  Forall (fun dp => valid_str (fst dp) /\ valid_str (snd dp))
         [(py "Write spec", py "high"); (py "Review", py "low")] /\
  exists C,
    loads_to (run_all (F := no_floats)
                (map (fun dp => Add (fst dp) (snd dp))
                     [(py "Write spec", py "high"); (py "Review", py "low")])
                SimpleTaskManager.init)
             (collection_value C) /\
    map Task.id C = map Z.of_nat (seq 1 2) /\
    NoDup (map Task.id C) /\
    Forall (fun t => Task.completed t = false) C.
Proof.
  assert (V : Forall (fun dp => valid_str (fst dp) /\ valid_str (snd dp))
                     [(py "Write spec", py "high"); (py "Review", py "low")])
    by (repeat (constructor || split)).
  split; [exact V|].
  exact (adds_number_tasks_in_sequence (F := no_floats) _ V).
Defined.

(* ================================================================== *)
(** * mcp_task_manager.py: further properties of [TaskManager] *)
(* ================================================================== *)

Section SessionOperations.
Context {F : FloatOps}.
Variable server : Type.
Variable session_call_tool :
  pystr -> dict pystr -> M server TaskManager.CallToolResult.

Let state := TaskManager.state server.

Lemma session_print_eq o (st : state) :
  TaskManager.print o st
  = (Return tt,
     {| TaskManager.session := TaskManager.session st;
        TaskManager.stdout := TaskManager.stdout st ++ [o];
        TaskManager.tool_calls := TaskManager.tool_calls st |}).
Proof. reflexivity. Qed.

Lemma session_connected_eq (body : M state unit) (st : state) srv :
  TaskManager.session st = Some srv ->
  TaskManager.connected body st = body st.
Proof.
  intros H. unfold TaskManager.connected, bind, get. rewrite H. reflexivity.
Qed.

Lemma session_not_connected_eq (body : M state unit) (st : state) :
  TaskManager.session st = None ->
  TaskManager.connected body st
  = (Return tt,
     {| TaskManager.session := None;
        TaskManager.stdout := TaskManager.stdout st ++ [NotConnected];
        TaskManager.tool_calls := TaskManager.tool_calls st |}).
Proof.
  intros H. unfold TaskManager.connected, bind, get. rewrite H.
  rewrite session_print_eq, H. reflexivity.
Qed.

Lemma session_read_eq (st : state) srv answer srv1 :
  TaskManager.session st = Some srv ->
  session_call_tool (py "read_file") [(py "path", TaskManager.tasks_path)] srv
  = (answer, srv1) ->
  TaskManager._read_tasks session_call_tool st
  = (Return (fail_open answer), session_after_read srv1 st).
Proof.
  intros Hs Hr. rewrite session_read_tasks_eq, Hs, Hr. reflexivity.
Qed.

Lemma session_write_eq tasks (st : state) srv :
  TaskManager.session st = Some srv ->
  TaskManager._write_tasks session_call_tool tasks st
  = let (w, srv2) :=
      session_call_tool (py "write_file")
        [(py "path", TaskManager.tasks_path);
         (py "content", json_encoder.dumps tasks)] srv in
    (match w with Return _ => Return tt | Raise e => Raise e end,
     {| TaskManager.session := Some srv2;
        TaskManager.stdout := TaskManager.stdout st;
        TaskManager.tool_calls :=
          TaskManager.tool_calls st
          ++ [session_write_call (json_encoder.dumps tasks)] |}).
Proof.
  intros Hs. unfold TaskManager._write_tasks, bind, TaskManager.call_tool.
  rewrite Hs.
  destruct (session_call_tool _ _ srv) as [[w|e] srv2]; reflexivity.
Qed.

Lemma session_add_task_eq (st : state) srv answer srv1 items
    task_description priority :
  TaskManager.session st = Some srv ->
  session_call_tool (py "read_file") [(py "path", TaskManager.tasks_path)] srv
  = (answer, srv1) ->
  fail_open answer = VList items ->
  TaskManager.add_task session_call_tool task_description priority st
  = let content :=
      json_encoder.dumps
        (VList (items ++ [task_value (new_task (List.length items)
                                               task_description priority)])) in
    let (w, srv2) :=
      session_call_tool (py "write_file")
        [(py "path", TaskManager.tasks_path); (py "content", content)] srv1 in
    (match w with Return _ => Return tt | Raise e => Raise e end,
     {| TaskManager.session := Some srv2;
        TaskManager.stdout :=
          TaskManager.stdout st
          ++ match w with
             | Return _ => [TaskAdded task_description priority]
             | Raise _ => []
             end;
        TaskManager.tool_calls :=
          TaskManager.tool_calls st
          ++ [session_read_call; session_write_call content] |}).
Proof.
  intros Hs Hr Hv. unfold TaskManager.add_task.
  rewrite (session_connected_eq _ st srv Hs).
  unfold bind at 1. rewrite (session_read_eq st srv answer srv1 Hs Hr), Hv.
  unfold bind at 1, lift at 1. cbn [Py.len].
  unfold bind at 1, lift at 1. cbn [Py.append].
  unfold bind at 1.
  rewrite (session_write_eq _ (session_after_read srv1 st) srv1 eq_refl).
  cbv zeta. rewrite json_of_new_task.
  destruct (session_call_tool (py "write_file") _ srv1) as [[w|e] srv2].
  - rewrite session_print_eq.
    cbn [TaskManager.session TaskManager.stdout TaskManager.tool_calls
         session_after_read].
    rewrite <- List.app_assoc. reflexivity.
  - cbn [TaskManager.session TaskManager.stdout TaskManager.tool_calls
         session_after_read].
    rewrite <- List.app_assoc, List.app_nil_r. reflexivity.
Qed.

Lemma session_list_lines_eq C : forall st : state,
  list_lines (TaskManager.print (server := server)) (map task_value C) st =
  (Return tt,
   {| TaskManager.session := TaskManager.session st;
      TaskManager.stdout := TaskManager.stdout st ++ map task_line C;
      TaskManager.tool_calls := TaskManager.tool_calls st |}).
Proof.
  induction C as [|t C IH]; intros st.
  - cbn [map list_lines]. unfold ret. rewrite List.app_nil_r.
    destruct st; reflexivity.
  - cbn [map list_lines].
    rewrite getitem_completed, getitem_priority, getitem_id, getitem_description.
    unfold bind, lift. rewrite priority_emoji_str.
    rewrite session_print_eq, IH.
    cbn [TaskManager.session TaskManager.stdout TaskManager.tool_calls
         Py.truthy].
    rewrite <- List.app_assoc. reflexivity.
Qed.

Lemma session_list_lines_keeps items : forall st : state,
  TaskManager.session
    (snd (list_lines (TaskManager.print (server := server)) items st))
  = TaskManager.session st /\
  TaskManager.tool_calls
    (snd (list_lines (TaskManager.print (server := server)) items st))
  = TaskManager.tool_calls st.
Proof.
  induction items as [|task items IH]; intros st; [split; reflexivity|].
  cbn [list_lines]. unfold bind, lift.
  destruct (Py.getitem task (py "completed")); [|split; reflexivity].
  destruct (Py.getitem task (py "priority")) as [p|]; [|split; reflexivity].
  destruct (priority_emoji p); [|split; reflexivity].
  destruct (Py.getitem task (py "id")); [|split; reflexivity].
  destruct (Py.getitem task (py "description")); [|split; reflexivity].
  rewrite session_print_eq.
  match goal with
  | |- context [list_lines _ items ?s] => destruct (IH s) as [I1 I2]
  end.
  split; [rewrite I1 | rewrite I2]; reflexivity.
Qed.

Lemma session_complete_scan_calls tasks task_id items :
  forall before (st : state) srv,
    TaskManager.session st = Some srv ->
    let r := complete_scan (TaskManager._write_tasks session_call_tool)
               (TaskManager.print (TaskCompleted task_id))
               (TaskManager.print (TaskNotFound task_id))
               tasks task_id before items st in
    TaskManager.tool_calls (snd r) = TaskManager.tool_calls st \/
    exists content,
      TaskManager.tool_calls (snd r)
      = TaskManager.tool_calls st ++ [session_write_call content].
Proof.
  induction items as [|task items IH]; intros before st srv Hs r; subst r.
  - left. reflexivity.
  - cbn [complete_scan]. rewrite bind_lift.
    destruct (Py.getitem task (py "id")) as [id|]; [|left; reflexivity].
    destruct (Py.eq_int id task_id); [|apply (IH _ st srv Hs)].
    rewrite bind_lift.
    destruct (Py.setitem task (py "completed") (VBool true)) as [task'|];
      [|left; reflexivity].
    unfold bind. rewrite (session_write_eq _ st srv Hs).
    right. eexists.
    destruct (session_call_tool (py "write_file") _ srv) as [[w|e] srv2];
      reflexivity.
Qed.

(** X15: before [connect_to_server] has set a session, [add_task],
    [list_tasks] and [complete_task] print the not-connected line and
    return: no tool call is issued and nothing raises. *)
Theorem operations_need_a_session (st : TaskManager.state server)
    (task_description priority : pystr) (task_id : Z) :
  TaskManager.session st = None ->
  let refused :=
    (Return tt,
     {| TaskManager.session := None;
        TaskManager.stdout := TaskManager.stdout st ++ [NotConnected];
        TaskManager.tool_calls := TaskManager.tool_calls st |}) in
  TaskManager.add_task session_call_tool task_description priority st = refused /\
  TaskManager.list_tasks session_call_tool st = refused /\
  TaskManager.complete_task session_call_tool task_id st = refused.
Proof.
  intros Hs refused. subst refused.
  unfold TaskManager.add_task, TaskManager.list_tasks, TaskManager.complete_task.
  rewrite !(session_not_connected_eq _ st Hs). repeat split.
Qed.

(** X16: [TaskManager.add_task], once connected, issues the [read_file]
    call and then one [write_file] call on the server the read left; when
    what the read gave (an empty list where it failed) is a list of [n]
    items, the content written is that list followed by the new task with
    id [n + 1], not completed.  The added line is printed only if the write
    returns; if the write raises, the exception propagates. *)
Theorem session_add_task_appends (st : TaskManager.state server)
    (srv srv1 srv2 : server)
    (answer w : outcome TaskManager.CallToolResult)
    (items : list value) (task_description priority : pystr) :
  TaskManager.session st = Some srv ->
  session_call_tool (py "read_file") [(py "path", TaskManager.tasks_path)] srv
  = (answer, srv1) ->
  fail_open answer = VList items ->
  session_call_tool (py "write_file")
    [(py "path", TaskManager.tasks_path);
     (py "content",
      json_encoder.dumps
        (VList (items ++
                [VDict [(py "id", VInt (Z.of_nat (List.length items) + 1));
                        (py "description", VStr task_description);
                        (py "priority", VStr priority);
                        (py "completed", VBool false)]])))] srv1
  = (w, srv2) ->
  TaskManager.add_task session_call_tool task_description priority st
  = (match w with Return _ => Return tt | Raise e => Raise e end,
     {| TaskManager.session := Some srv2;
        TaskManager.stdout :=
          TaskManager.stdout st
          ++ match w with
             | Return _ => [TaskAdded task_description priority]
             | Raise _ => []
             end;
        TaskManager.tool_calls :=
          TaskManager.tool_calls st
          ++ [(py "read_file", [(py "path", TaskManager.tasks_path)]);
              (py "write_file",
               [(py "path", TaskManager.tasks_path);
                (py "content",
                 json_encoder.dumps
                   (VList (items ++
                           [VDict [(py "id",
                                    VInt (Z.of_nat (List.length items) + 1));
                                   (py "description", VStr task_description);
                                   (py "priority", VStr priority);
                                   (py "completed", VBool false)]])))])] |}).
Proof.
  intros Hs Hr Hv Hw.
  rewrite (session_add_task_eq st srv answer srv1 items _ _ Hs Hr Hv).
  cbv zeta. rewrite <- json_of_new_task, Hw. reflexivity.
Qed.

(** X17: [TaskManager.add_task] replaces what it cannot read: when the
    [read_file] call raises, or answers with a text that is not valid
    JSON, the [write_file] call that follows carries a list holding the
    new task alone, with id 1. *)
Theorem session_add_task_replaces_unreadable (st : TaskManager.state server)
    (srv srv1 : server) (answer : outcome TaskManager.CallToolResult)
    (task_description priority : pystr) :
  TaskManager.session st = Some srv ->
  session_call_tool (py "read_file") [(py "path", TaskManager.tasks_path)] srv
  = (answer, srv1) ->
  match answer with
  | Raise _ => True
  | Return result =>
      exists text rest e,
        TaskManager.content result = TaskManager.TextContent text :: rest /\
        json_decoder.loads text = Raise e
  end ->
  TaskManager.tool_calls
    (snd (TaskManager.add_task session_call_tool task_description priority st))
  = TaskManager.tool_calls st
    ++ [(py "read_file", [(py "path", TaskManager.tasks_path)]);
        (py "write_file",
         [(py "path", TaskManager.tasks_path);
          (py "content",
           json_encoder.dumps
             (VList [VDict [(py "id", VInt 1);
                            (py "description", VStr task_description);
                            (py "priority", VStr priority);
                            (py "completed", VBool false)]]))])].
Proof.
  intros Hs Hr Ha.
  assert (Hv : fail_open answer = VList []).
  { destruct answer as [result|e]; [|reflexivity].
    destruct Ha as (text & rest & e & Hc & Hl).
    unfold fail_open. rewrite Hc, Hl. reflexivity. }
  rewrite (session_add_task_eq st srv answer srv1 [] _ _ Hs Hr Hv).
  cbv zeta. cbn [List.app List.length].
  destruct (session_call_tool (py "write_file") _ srv1) as [w srv2].
  reflexivity.
Qed.

(** X18: [TaskManager.list_tasks], once connected, issues the [read_file]
    call only.  When what the read gave is a collection of tasks, it
    prints the no-tasks line for the empty one and otherwise the heading,
    a rule, one line per task in order (checkbox, id, colour of the
    priority, description) and a rule; it returns normally. *)
Theorem session_list_tasks_prints (st : TaskManager.state server)
    (srv srv1 : server) (answer : outcome TaskManager.CallToolResult)
    (C : list Task.t) :
  TaskManager.session st = Some srv ->
  session_call_tool (py "read_file") [(py "path", TaskManager.tasks_path)] srv
  = (answer, srv1) ->
  fail_open answer = collection_value C ->
  TaskManager.list_tasks session_call_tool st
  = (Return tt,
     {| TaskManager.session := Some srv1;
        TaskManager.stdout :=
          TaskManager.stdout st
          ++ match C with
             | [] => [NoTasks]
             | _ :: _ =>
                 [Heading; Rule]
                 ++ map (fun t =>
                           TaskLine
                             (if Task.completed t then Checked else Unchecked)
                             (VInt (Task.id t))
                             (if str_eqb (Task.priority t) (py "high") then Red
                              else if str_eqb (Task.priority t) (py "medium")
                                   then Yellow
                              else if str_eqb (Task.priority t) (py "low")
                                   then Green
                              else White)
                             (VStr (Task.description t))) C
                 ++ [Rule]
             end;
        TaskManager.tool_calls :=
          TaskManager.tool_calls st
          ++ [(py "read_file", [(py "path", TaskManager.tasks_path)])] |}).
Proof.
  intros Hs Hr Hv. unfold TaskManager.list_tasks.
  rewrite (session_connected_eq _ st srv Hs).
  unfold bind at 1. rewrite (session_read_eq st srv answer srv1 Hs Hr), Hv.
  destruct C as [|t C]; [reflexivity|].
  unfold collection_value. cbn [map Py.truthy negb].
  unfold bind, lift. rewrite !session_print_eq. cbn [Py.iter].
  change (task_value t :: map task_value C) with (map task_value (t :: C)).
  rewrite session_list_lines_eq, session_print_eq.
  cbn [TaskManager.session TaskManager.stdout TaskManager.tool_calls
       session_after_read].
  rewrite <- !List.app_assoc. reflexivity.
Qed.

(** X19: the only calls [TaskManager] issues are [read_file] and
    [write_file] on [/tmp/tasks.json]: whatever the state and however the
    server answers, an operation adds to the trace nothing, or the read,
    or the read followed by one write; [list_tasks] never writes, and
    without a session nothing is called. *)
Theorem session_operations_call_pattern (st : TaskManager.state server)
    (task_description priority : pystr) (task_id : Z) :
  (exists calls,
      session_call_pattern calls /\
      TaskManager.tool_calls
        (snd (TaskManager.add_task session_call_tool
                task_description priority st))
      = TaskManager.tool_calls st ++ calls) /\
  (exists calls,
      (calls = [] \/ calls = [session_read_call]) /\
      TaskManager.tool_calls (snd (TaskManager.list_tasks session_call_tool st))
      = TaskManager.tool_calls st ++ calls) /\
  (exists calls,
      session_call_pattern calls /\
      TaskManager.tool_calls
        (snd (TaskManager.complete_task session_call_tool task_id st))
      = TaskManager.tool_calls st ++ calls).
Proof.
  destruct (TaskManager.session st) as [srv|] eqn:Hs.
  2:{ unfold TaskManager.add_task, TaskManager.list_tasks,
        TaskManager.complete_task.
      rewrite !(session_not_connected_eq _ st Hs). cbn [snd TaskManager.tool_calls].
      repeat split; exists []; rewrite List.app_nil_r;
        (split; [left; reflexivity | reflexivity]). }
  destruct (session_call_tool (py "read_file")
              [(py "path", TaskManager.tasks_path)] srv) as [answer srv1] eqn:Hr.
  pose proof (session_read_eq st srv answer srv1 Hs Hr) as Hread.
  split; [|split].
  - unfold TaskManager.add_task. rewrite (session_connected_eq _ st srv Hs).
    unfold bind at 1. rewrite Hread. rewrite bind_lift.
    destruct (Py.len (fail_open answer)) as [n|];
      [|exists [session_read_call]; split; [right; left; reflexivity|reflexivity]].
    rewrite bind_lift.
    destruct (Py.append (fail_open answer) _) as [tasks|];
      [|exists [session_read_call]; split; [right; left; reflexivity|reflexivity]].
    unfold bind at 1.
    rewrite (session_write_eq _ (session_after_read srv1 st) srv1 eq_refl).
    exists [session_read_call; session_write_call (json_encoder.dumps tasks)].
    split; [right; right; eexists; reflexivity|].
    destruct (session_call_tool (py "write_file") _ srv1) as [[w|e] srv2];
      rewrite ?session_print_eq;
      cbn [snd TaskManager.tool_calls session_after_read];
      rewrite <- List.app_assoc; reflexivity.
  - exists [session_read_call]. split; [right; reflexivity|].
    unfold TaskManager.list_tasks. rewrite (session_connected_eq _ st srv Hs).
    unfold bind at 1. rewrite Hread.
    destruct (negb (Py.truthy (fail_open answer))); [reflexivity|].
    unfold bind, lift. rewrite !session_print_eq.
    destruct (Py.iter (fail_open answer)) as [items|]; [|reflexivity].
    match goal with
    | |- context [list_lines _ items ?s] =>
        destruct (session_list_lines_keeps items s) as [_ I2];
        destruct (list_lines (TaskManager.print (server := server)) items s)
          as [[[]|] s']
    end; cbn [fst snd] in *; rewrite ?session_print_eq;
      cbn [snd TaskManager.tool_calls]; rewrite ?I2; reflexivity.
  - unfold TaskManager.complete_task. rewrite (session_connected_eq _ st srv Hs).
    unfold bind at 1. rewrite Hread. rewrite bind_lift.
    destruct (Py.iter (fail_open answer)) as [items|];
      [|exists [session_read_call]; split; [right; left; reflexivity|reflexivity]].
    destruct (session_complete_scan_calls (fail_open answer) task_id items []
                (session_after_read srv1 st) srv1 eq_refl)
      as [S | (content & S)]; cbv zeta in S.
    + exists [session_read_call]. split; [right; left; reflexivity|].
      rewrite S. reflexivity.
    + exists [session_read_call; session_write_call content].
      split; [right; right; eexists; reflexivity|].
      rewrite S. cbn [TaskManager.tool_calls session_after_read].
      rewrite <- List.app_assoc. reflexivity.
Qed.
End SessionOperations.

Lemma operations_need_a_session_witness :
  TaskManager.session
    {| TaskManager.session := @None unit;
       TaskManager.stdout := [];
       TaskManager.tool_calls := [] |} = None /\
  TaskManager.list_tasks (F := no_floats) (text_session (py "[]"))
    {| TaskManager.session := None;
       TaskManager.stdout := [];
       TaskManager.tool_calls := [] |}
  = (Return tt,
     {| TaskManager.session := None;
        TaskManager.stdout := [NotConnected];
        TaskManager.tool_calls := [] |}).
Proof.
  split; [reflexivity|].
  exact (proj1 (proj2
           (operations_need_a_session (F := no_floats) unit
              (text_session (py "[]"))
              {| TaskManager.session := None;
                 TaskManager.stdout := [];
                 TaskManager.tool_calls := [] |}
              (py "Write spec") (py "high") 1%Z eq_refl))).
Defined.

Lemma session_add_task_appends_witness :
  TaskManager.stdout
    (snd (TaskManager.add_task (F := no_floats) (text_session (py "[]"))
            (py "Write spec") (py "high") connected_manager))
  = [TaskAdded (py "Write spec") (py "high")].
Proof.
  exact (f_equal (fun r => TaskManager.stdout (snd r))
           (session_add_task_appends (F := no_floats) unit
              (text_session (py "[]")) connected_manager tt tt tt
              (Return {| TaskManager.content :=
                           [TaskManager.TextContent (py "[]")] |})
              (Return {| TaskManager.content :=
                           [TaskManager.TextContent (py "[]")] |})
              [] (py "Write spec") (py "high")
              eq_refl eq_refl eq_refl eq_refl)).
Defined.

Lemma session_add_task_replaces_unreadable_witness :
  json_decoder.loads (py "[1, 2") = Raise JSONDecodeError /\
  TaskManager.tool_calls
    (snd (TaskManager.add_task (F := no_floats) (text_session (py "[1, 2"))
            (py "Write spec") (py "high") connected_manager))
  = [session_read_call;
     session_write_call
       (json_encoder.dumps (F := no_floats)
          (collection_value [write_spec_task]))].
Proof.
  assert (L : json_decoder.loads (py "[1, 2")
              = Raise JSONDecodeError) by (vm_compute; reflexivity).
  split; [exact L|].
  exact (session_add_task_replaces_unreadable (F := no_floats) unit
           (text_session (py "[1, 2")) connected_manager tt tt
           (Return {| TaskManager.content :=
                        [TaskManager.TextContent (py "[1, 2")] |})
           (py "Write spec") (py "high") eq_refl eq_refl
           (ex_intro _ (py "[1, 2")
              (ex_intro _ []
                 (ex_intro _ JSONDecodeError (conj eq_refl L))))).
Defined.

Lemma session_list_tasks_prints_witness :
  TaskManager.stdout
    (snd (TaskManager.list_tasks (F := no_floats)
            (text_session
               (json_encoder.dumps (F := no_floats)
                  (collection_value [write_spec_task; review_task])))
            connected_manager))
  = [Heading; Rule;
     TaskLine Unchecked (VInt 1) Red (VStr (py "Write spec"));
     TaskLine Unchecked (VInt 2) Green (VStr (py "Review"));
     Rule].
Proof.
  exact (f_equal (fun r => TaskManager.stdout (snd r))
           (session_list_tasks_prints (F := no_floats) unit
              (text_session
                 (json_encoder.dumps (F := no_floats)
                    (collection_value [write_spec_task; review_task])))
              connected_manager tt tt
              (Return {| TaskManager.content :=
                           [TaskManager.TextContent
                              (json_encoder.dumps (F := no_floats)
                                 (collection_value
                                    [write_spec_task; review_task]))] |})
              [write_spec_task; review_task]
              eq_refl eq_refl eq_refl)).
Defined.

(* ================================================================== *)
(** * What [_write_tasks] stores and [_read_tasks] gets back *)
(* ================================================================== *)











Section Ascii.
Context {F : FloatOps}.

End Ascii.






(* ================================================================== *)
(** * [list_tools] and the dispatch of [call_tool] *)
(* ================================================================== *)

Lemma call_tool_keeps_tools tool_name arguments srv :
  SimulatedMCPServer.tools
    (snd (SimulatedMCPServer.call_tool tool_name arguments srv))
  = SimulatedMCPServer.tools srv.
Proof.
  unfold SimulatedMCPServer.call_tool.
  destruct (str_eqb tool_name (py "read_file")).
  - unfold bind, SimulatedMCPServer.subscript, lift, ret, get.
    destruct (dict_get (py "path") arguments) as [path|]; [|reflexivity].
    destruct (dict_get path _); reflexivity.
  - destruct (str_eqb tool_name (py "write_file")).
    + unfold bind, SimulatedMCPServer.subscript, lift, ret, modify.
      destruct (dict_get (py "path") arguments); [|reflexivity].
      destruct (dict_get (py "content") arguments); reflexivity.
    + destruct (str_eqb tool_name (py "list_directory")); reflexivity.
Qed.

Lemma serve_keeps_tools calls : forall srv,
  SimulatedMCPServer.tools (serve calls srv) = SimulatedMCPServer.tools srv.
Proof.
  induction calls as [|[tool_name arguments] calls IH]; intros srv;
    [reflexivity|].
  cbn [serve]. rewrite IH. apply call_tool_keeps_tools.
Qed.

(** X22: [list_tools] advertises what [call_tool] serves: after any
    sequence of tool calls on a fresh server the advertised names are
    still [read_file], [write_file] and [list_directory], in that order,
    and a name is advertised exactly when [call_tool] does not answer it
    with the unknown-tool error result. *)
Theorem list_tools_advertises_served_tools
    (calls : list call) (tool_name : pystr) (arguments : dict pystr) :
  dict_keys (SimulatedMCPServer.list_tools
               (serve calls SimulatedMCPServer.init))
  = [py "read_file"; py "write_file"; py "list_directory"] /\
  (In tool_name
      (dict_keys (SimulatedMCPServer.list_tools
                    (serve calls SimulatedMCPServer.init)))
   <->
   fst (SimulatedMCPServer.call_tool tool_name arguments
          (serve calls SimulatedMCPServer.init))
   <> Return [(py "error", VStr (py "Unknown tool: " ++ tool_name))]).
Proof.
  unfold SimulatedMCPServer.list_tools. rewrite serve_keeps_tools.
  split; [reflexivity|].
  change (dict_keys (SimulatedMCPServer.tools SimulatedMCPServer.init))
    with [py "read_file"; py "write_file"; py "list_directory"].
  generalize (serve calls SimulatedMCPServer.init). intros srv.
  unfold SimulatedMCPServer.call_tool.
  destruct (str_eqb tool_name (py "read_file")) eqn:E1.
  { apply str_eqb_eq in E1. subst. split; [intros _ | intros _; left; reflexivity].
    unfold bind, SimulatedMCPServer.subscript, lift, ret, get.
    destruct (dict_get (py "path") arguments) as [path|]; [|discriminate].
    destruct (dict_get path _); discriminate. }
  destruct (str_eqb tool_name (py "write_file")) eqn:E2.
  { apply str_eqb_eq in E2. subst.
    split; [intros _ | intros _; right; left; reflexivity].
    unfold bind, SimulatedMCPServer.subscript, lift, ret, modify.
    destruct (dict_get (py "path") arguments); [|discriminate].
    destruct (dict_get (py "content") arguments); discriminate. }
  destruct (str_eqb tool_name (py "list_directory")) eqn:E3.
  { apply str_eqb_eq in E3. subst.
    split; [intros _ | intros _; right; right; left; reflexivity].
    discriminate. }
  split.
  - intros [H | [H | [H | []]]]; subst.
    + rewrite str_eqb_refl in E1. discriminate.
    + rewrite str_eqb_refl in E2. discriminate.
    + rewrite str_eqb_refl in E3. discriminate.
  - intros H. exfalso. apply H. reflexivity.
Qed.

(* ================================================================== *)
(** * Ids after deletions, and the paths the manager leaves alone *)
(* ================================================================== *)

(** X24: ids are not unique in general: when the stored collection of
    [n] tasks (texts being Python strs) already has a task with id [n + 1]
    (as after a deletion that was not of the last task), [add_task] leaves
    a stored collection whose ids are the ids before followed by [n + 1]:
    two of its tasks have the same id. *)
Theorem add_task_reuses_live_id {F : FloatOps}
    (st : SimpleTaskManager.state) (C : list Task.t)
    (description priority : pystr) :
  valid_str description -> valid_str priority ->
  Forall valid_task C ->
  loads_to st (collection_value C) ->
  existsb (fun t => (Task.id t =? Z.of_nat (List.length C) + 1)%Z) C = true ->
  exists C',
    loads_to (snd (SimpleTaskManager.add_task description priority st))
             (collection_value C') /\
    map Task.id C' = map Task.id C ++ [(Z.of_nat (List.length C) + 1)%Z] /\
    ~ NoDup (map Task.id C').
Proof.
  intros Hd Hp HC Hst Hid.
  exists (step_stored (Add description priority) C).
  assert (E : map Task.id (step_stored (Add description priority) C)
              = map Task.id C ++ [(Z.of_nat (List.length C) + 1)%Z]).
  { cbn [step_stored]. rewrite map_id_reread, map_app. reflexivity. }
  split; [|split; [exact E|]].
  - exact (run_step_stored (Add description priority) st C
             (conj Hd Hp) HC Hst).
  - rewrite E. intros N. apply NoDup_remove_2 in N.
    rewrite List.app_nil_r in N.
    apply N. apply existsb_exists in Hid. destruct Hid as (t & Ht & Et).
    apply Z.eqb_eq in Et. rewrite <- Et. apply in_map. exact Ht.
Qed.

Lemma add_task_reuses_live_id_witness :
  valid_str (py "X") /\ valid_str (py "medium") /\
  Forall valid_task [review_task] /\
  loads_to (store_holding (json_encoder.dumps (F := no_floats)
                             (collection_value [review_task])))
           (collection_value [review_task]) /\
  existsb (fun t => (Task.id t =? Z.of_nat (List.length [review_task]) + 1)%Z)
          [review_task] = true /\
  exists C',
    loads_to (snd (SimpleTaskManager.add_task (F := no_floats)
                     (py "X") (py "medium")
                     (store_holding
                        (json_encoder.dumps (F := no_floats)
                           (collection_value [review_task])))))
             (collection_value C') /\
    map Task.id C' = [2; 2]%Z /\
    ~ NoDup (map Task.id C').
Proof.
  assert (V1 : valid_str (py "X")) by (repeat constructor).
  assert (V2 : valid_str (py "medium")) by (repeat constructor).
  assert (HC : Forall valid_task [review_task])
    by (repeat (constructor || split)).
  assert (H : loads_to
                (store_holding (json_encoder.dumps (F := no_floats)
                                  (collection_value [review_task])))
                (collection_value [review_task]))
    by (vm_compute; reflexivity).
  split; [exact V1|]. split; [exact V2|]. split; [exact HC|].
  split; [exact H|]. split; [reflexivity|].
  exact (add_task_reuses_live_id (F := no_floats) _ [review_task]
           (py "X") (py "medium") V1 V2 HC H eq_refl).
Defined.

(** X25: the manager touches [tasks.json] only: whatever is stored and
    whatever the operations do (return or raise), every other path of the
    file system holds after them what it held before, and the advertised
    tools are the same. *)
Theorem operations_touch_only_tasks_file {F : FloatOps}
    (cs : list command) (st : SimpleTaskManager.state) (path : pystr) :
  path <> SimpleTaskManager.tasks_file ->
  dict_get path
    (SimulatedMCPServer.filesystem
       (SimpleTaskManager.mcp_server (run_all cs st)))
  = dict_get path
      (SimulatedMCPServer.filesystem (SimpleTaskManager.mcp_server st)) /\
  SimulatedMCPServer.tools (SimpleTaskManager.mcp_server (run_all cs st))
  = SimulatedMCPServer.tools (SimpleTaskManager.mcp_server st).
Proof.
  intros Hp. revert st. induction cs as [|c cs IH]; intros st;
    [split; reflexivity|].
  cbn [run_all]. destruct (IH (snd (run c st))) as [I1 I2]. rewrite I1, I2.
  pose proof (run_read_modify_write c st) as R. cbv zeta in R.
  assert (U : SimpleTaskManager.mcp_server (snd (run c st))
              = SimpleTaskManager.mcp_server st \/
              exists content,
                SimpleTaskManager.mcp_server (snd (run c st))
                = wrote content st).
  { destruct c;
      [destruct R as [[R _] | (content & _ & R & _)]; [left | right; eexists];
       exact R
      | left; exact (proj1 R)
      | destruct R as [[R _] | (content & _ & R & _)]; [left | right; eexists];
        exact R
      | destruct R as [[R _] | (content & _ & R & _)]; [left | right; eexists];
        exact R]. }
  destruct U as [U | (content & U)]; rewrite U; [split; reflexivity|].
  unfold wrote. cbn [SimulatedMCPServer.filesystem SimulatedMCPServer.tools].
  split; [apply dict_get_set_other; exact Hp | reflexivity].
Qed.

Lemma operations_touch_only_tasks_file_witness :
  py "notes.txt" <> SimpleTaskManager.tasks_file /\
  dict_get (py "notes.txt")
    (SimulatedMCPServer.filesystem
       (SimpleTaskManager.mcp_server
          (run_all (F := no_floats)
             [Add (py "Write spec") (py "high"); Delete 1]
             {| SimpleTaskManager.mcp_server :=
                  serve [(py "write_file",
                          [(py "path", py "notes.txt");
                           (py "content", py "hello")])]
                        SimulatedMCPServer.init;
                SimpleTaskManager.stdout := [];
                SimpleTaskManager.tool_calls := [] |})))
  = Some (py "hello").
Proof.
  assert (N : py "notes.txt" <> SimpleTaskManager.tasks_file)
    by discriminate.
  split; [exact N|].
  exact (proj1 (operations_touch_only_tasks_file (F := no_floats)
                  [Add (py "Write spec") (py "high"); Delete 1]
                  {| SimpleTaskManager.mcp_server :=
                       serve [(py "write_file",
                               [(py "path", py "notes.txt");
                                (py "content", py "hello")])]
                             SimulatedMCPServer.init;
                     SimpleTaskManager.stdout := [];
                     SimpleTaskManager.tool_calls := [] |}
                  (py "notes.txt") N)).
Defined.
